(** * Metrics dashboard generator: a shallow embedding of [app.py]

    The development follows the class [SchemaAnalyzer] of [app.py]:
    [parse_sql_file], [analyze_schema], [generate_sample_visualization]
    and [generate_dashboard_code], over a small model of the Python
    objects the methods receive (the values [json.loads] produces), of
    the exceptions they raise, and of the state they can touch (the
    caller's object and numpy's global random state). *)

From Stdlib Require Import ZArith Lia Ascii String DecimalString.
From Stdlib Require QArith_base.
From Stdlib Require DecimalNat.
From stdpp Require Import base list strings.

Set Warnings "-register-all".
Local Open Scope string_scope.

(** ** Python strings

    A [str] is held as its UTF-8 bytes.  The characters the methods of
    [SchemaAnalyzer] inspect or emit are all ASCII. *)

Definition dq : string := String "034" EmptyString.
Definition nl : string := String "010" EmptyString.

(** [sep.join(parts)] *)
Fixpoint py_join (sep : string) (parts : list string) : string :=
  match parts with
  | [] => EmptyString
  | [p] => p
  | p :: rest => p +:+ sep +:+ py_join sep rest
  end.

(** A text given line by line, every line closed by a line feed. *)
Fixpoint unlines (ls : list string) : string :=
  match ls with
  | [] => EmptyString
  | l :: rest => l +:+ nl +:+ unlines rest
  end.

(** [s.startswith(prefix)] *)
Fixpoint startswith (prefix s : string) {struct prefix} : bool :=
  match prefix with
  | EmptyString => true
  | String a prefix' =>
      match s with
      | String c s' => Ascii.eqb a c && startswith prefix' s'
      | EmptyString => false
      end
  end.

Definition is_upper (c : ascii) : bool :=
  (65 <=? nat_of_ascii c)%nat && (nat_of_ascii c <=? 90)%nat.

Definition lower_ascii (c : ascii) : ascii :=
  if is_upper c then ascii_of_nat (nat_of_ascii c + 32) else c.

(** [s.lower()].  Bytes outside [A-Z] are kept.  The result is only
    compared with ['line'], ['bar'] and ['pie'], and on that the bytes
    decide as the code points do: beyond ASCII only U+212A lowers to an
    ASCII letter alone, [k], which is in none of the three. *)
Fixpoint lower (s : string) : string :=
  match s with
  | EmptyString => EmptyString
  | String c r => String (lower_ascii c) (lower r)
  end.

(** [str(i)] for an index, [str(z)] for an [int]. *)
Definition str_of_nat (i : nat) : string :=
  NilZero.string_of_uint (Nat.to_uint i).

Definition str_of_int (z : Z) : string :=
  NilZero.string_of_int (Z.to_int z).

Definition byte (n : N) : string := String (ascii_of_N n) EmptyString.

(** [chr(uni)], as UTF-8 (a lone surrogate takes three bytes like any
    other code point of its range). *)
Definition chr (uni : N) : string :=
  (if (uni <? 128)%N then byte uni
   else if (uni <? 2048)%N then
     byte (192 + uni / 64) +:+ byte (128 + uni mod 64)
   else if (uni <? 65536)%N then
     byte (224 + uni / 4096) +:+ byte (128 + (uni / 64) mod 64)
       +:+ byte (128 + uni mod 64)
   else
     byte (240 + uni / 262144) +:+ byte (128 + (uni / 4096) mod 64)
       +:+ byte (128 + (uni / 64) mod 64) +:+ byte (128 + uni mod 64))%string.

(** ** Python objects

    The objects of the program are those [json.loads] builds.  A [dict]
    keeps its insertion order; its keys are unique.  A [float] is kept
    as the literal it was read from. *)

Inductive pyval : Type :=
| PNone
| PBool (b : bool)
| PInt (z : Z)
| PFloat (lit : string)
| PStr (s : string)
| PList (items : list pyval)
| PDict (entries : list (string * pyval)).

Inductive exn : Type :=
| KeyError (key : string)
| TypeError
| AttributeError
| IndexError
| JSONDecodeError
| RecursionError
| APIError (detail : string).

Inductive Result (A : Type) : Type :=
| Ok (a : A)
| Raise (e : exn).
Arguments Ok {A} a.
Arguments Raise {A} e.

Definition is_ok {A} (r : Result A) : bool :=
  match r with Ok _ => true | Raise _ => false end.

Definition result_map {A B} (f : A -> B) (r : Result A) : Result B :=
  match r with Ok a => Ok (f a) | Raise e => Raise e end.

Fixpoint dict_get (d : list (string * pyval)) (k : string) : option pyval :=
  match d with
  | [] => None
  | (k', v) :: rest => if String.eqb k' k then Some v else dict_get rest k
  end.

(** [d[k] = v] on a dict: an existing key keeps its place. *)
Fixpoint dict_set (d : list (string * pyval)) (k : string) (v : pyval)
  : list (string * pyval) :=
  match d with
  | [] => [(k, v)]
  | (k', v') :: rest =>
      if String.eqb k' k then (k, v) :: rest else (k', v') :: dict_set rest k v
  end.

(** [obj[key]] with a [str] key. *)
Definition py_getitem (obj : pyval) (key : string) : Result pyval :=
  match obj with
  | PDict d =>
      match dict_get d key with
      | Some v => Ok v
      | None => Raise (KeyError key)
      end
  | _ => Raise TypeError
  end.

Fixpoint chars (s : string) : list pyval :=
  match s with
  | EmptyString => []
  | String c r => PStr (String c EmptyString) :: chars r
  end.

(** The items a [for] loop draws from an object: the elements of a
    list, the keys of a dict, the characters of a string (byte by byte
    here; the program never looks into one). *)
Definition py_iter (obj : pyval) : Result (list pyval) :=
  match obj with
  | PList l => Ok l
  | PDict d => Ok (map (fun kv => PStr (fst kv)) d)
  | PStr s => Ok (chars s)
  | _ => Raise TypeError
  end.

(** [obj.lower()]: only a [str] has the method. *)
Definition py_lower (obj : pyval) : Result string :=
  match obj with
  | PStr s => Ok (lower s)
  | _ => Raise AttributeError
  end.

(** [enumerate(items)] *)
Fixpoint enumerate_from {A} (i : nat) (items : list A) : list (nat * A) :=
  match items with
  | [] => []
  | x :: rest => (i, x) :: enumerate_from (S i) rest
  end.

Definition enumerate {A} (items : list A) : list (nat * A) :=
  enumerate_from 0 items.

(** The interpreter's [str()] of a float, a list or a dict, which an
    f-string applies to a replacement field holding one.  It is the one
    builtin the model takes as given. *)
Class Builtins := { str_of_object : pyval -> string }.

(** [format(v, '')], what a replacement field [{v}] of an f-string
    inserts. *)
Definition format_value `{Builtins} (v : pyval) : string :=
  match v with
  | PStr s => s
  | PNone => "None"
  | PBool true => "True"
  | PBool false => "False"
  | PInt z => str_of_int z
  | _ => str_of_object v
  end.

(** numpy's global random state: one draw of [np.random.normal(loc,
    scale)] and of [np.random.randint(low, high)], and the addition of
    the floats drawn. *)
Class Numpy := {
  RandomState : Type;
  float64 : Type;
  normal1 : Z -> Z -> RandomState -> float64 * RandomState;
  randint1 : Z -> Z -> RandomState -> Z * RandomState;
  float_add : float64 -> float64 -> float64
}.

(** ** The state a method can touch

    A method receives its argument by reference: [shared] is the
    caller's object the parameter is bound to.  [np_random] is numpy's
    global generator.  An exception leaves the state as it was when it
    was raised. *)

Section Monad.
Context `{Numpy}.

Record World : Type := mkWorld { shared : pyval; np_random : RandomState }.

Definition Py (A : Type) : Type := World -> Result A * World.

Definition ret {A} (a : A) : Py A := fun w => (Ok a, w).

Definition bind {A B} (m : Py A) (k : A -> Py B) : Py B :=
  fun w =>
    match m w with
    | (Ok a, w') => k a w'
    | (Raise e, w') => (Raise e, w')
    end.

Definition lift {A} (r : Result A) : Py A := fun w => (r, w).

(** The object the parameter names. *)
Definition param : Py pyval := fun w => (Ok (shared w), w).

(** [obj[key] = v] on the caller's object, for a dict. *)
Definition setitem (key : string) (v : pyval) : Py unit :=
  fun w =>
    match shared w with
    | PDict d => (Ok tt, mkWorld (PDict (dict_set d key v)) (np_random w))
    | _ => (Raise TypeError, w)
    end.

(** A draw from the global generator. *)
Definition draw {A} (f : RandomState -> A * RandomState) : Py A :=
  fun w => let '(a, r) := f (np_random w) in (Ok a, mkWorld (shared w) r).

(** [for x in items: acc = body(acc, x)] *)
Fixpoint for_each {A S} (items : list A) (body : S -> A -> Py S) (acc : S)
  : Py S :=
  match items with
  | [] => ret acc
  | x :: rest => bind (body acc x) (for_each rest body)
  end.

Definition result_of {A} (m : Py A) (w : World) : Result A := fst (m w).
Definition world_after {A} (m : Py A) (w : World) : World := snd (m w).
End Monad.

Declare Scope py_scope.
Delimit Scope py_scope with py.
Notation "x <- m ;; k" := (bind m (fun x => k))
  (at level 100, m at next level, right associativity) : py_scope.

(** Exceptions alone, for the code that touches no state. *)
Definition rbind {A B} (m : Result A) (k : A -> Result B) : Result B :=
  match m with
  | Ok a => k a
  | Raise e => Raise e
  end.

Declare Scope result_scope.
Delimit Scope result_scope with result.
Notation "x <- m ;; k" := (rbind m (fun x => k))
  (at level 100, m at next level, right associativity) : result_scope.

(** ** numpy, pandas and plotly, as far as the program uses them *)

Record date : Type := mkDate { year : Z; month : Z; day : Z }.

Definition is_leap (y : Z) : bool :=
  ((y mod 4 =? 0) && negb (y mod 100 =? 0) || (y mod 400 =? 0))%Z.

Definition days_in_month (y m : Z) : Z :=
  if (m =? 2)%Z then (if is_leap y then 29 else 28)%Z
  else if ((m =? 4) || (m =? 6) || (m =? 9) || (m =? 11))%Z then 30%Z
  else 31%Z.

Definition next_day (d : date) : date :=
  if (day d <? days_in_month (year d) (month d))%Z
  then mkDate (year d) (month d) (day d + 1)
  else if (month d <? 12)%Z then mkDate (year d) (month d + 1) 1
  else mkDate (year d + 1) 1 1.

(** [pd.date_range(start=..., periods=n)], one date a day. *)
Fixpoint date_range (start : date) (periods : nat) : list date :=
  match periods with
  | O => []
  | S n => start :: date_range (next_day start) n
  end.

Inductive chart : Type := Line | Bar | Pie | Scatter.

Record Margin : Type :=
  mkMargin { margin_t : Z; margin_l : Z; margin_r : Z; margin_b : Z }.

Record Layout : Type := mkLayout {
  title_x : option QArith_base.Q;
  margin : option Margin;
  height : option Z
}.

Section Figures.
Context `{Numpy}.
Local Open Scope py_scope.

(** The numbers plotted: floats for the trending line, integers
    otherwise. *)
Inductive series : Type :=
| Floats (values : list float64)
| Ints (values : list Z).

Definition series_length (s : series) : nat :=
  match s with
  | Floats v => length v
  | Ints v => length v
  end.

(** A [go.Figure]: the kind of trace, the arguments the trace was
    built from, and the layout. *)
Record Figure : Type := mkFigure {
  kind : chart;
  trace_x : list date;
  trace_y : series;
  trace_names : list string;
  title : pyval;
  layout : Layout
}.

Definition empty_layout : Layout := mkLayout None None None.

Definition px_line (x : list date) (y : series) (title : pyval) : Figure :=
  mkFigure Line x y [] title empty_layout.
Definition px_bar (x : list date) (y : series) (title : pyval) : Figure :=
  mkFigure Bar x y [] title empty_layout.
Definition px_scatter (x : list date) (y : series) (title : pyval) : Figure :=
  mkFigure Scatter x y [] title empty_layout.
Definition px_pie (values : series) (names : list string) (title : pyval)
  : Figure :=
  mkFigure Pie [] values names title empty_layout.

(** [fig.update_layout(title_x=..., margin=..., height=...)] *)
Definition update_layout (fig : Figure) (tx : QArith_base.Q) (m : Margin)
  (h : Z) : Figure :=
  mkFigure (kind fig) (trace_x fig) (trace_y fig) (trace_names fig) (title fig)
           (mkLayout (Some tx) (Some m) (Some h)).

(** [size] successive draws. *)
Fixpoint draws {A} (f : RandomState -> A * RandomState) (size : nat)
  : Py (list A) :=
  match size with
  | O => ret []
  | S n => a <- draw f ;; rest <- draws f n ;; ret (a :: rest)
  end.

Definition np_random_normal (loc scale : Z) (size : nat) : Py (list float64) :=
  draws (normal1 loc scale) size.

Definition np_random_randint (low high : Z) (size : nat) : Py (list Z) :=
  draws (randint1 low high) size.

Fixpoint cumsum_from (acc : float64) (a : list float64) : list float64 :=
  match a with
  | [] => []
  | v :: rest => let s := float_add acc v in s :: cumsum_from s rest
  end.

(** [np.cumsum(a)] *)
Definition np_cumsum (a : list float64) : list float64 :=
  match a with
  | [] => []
  | v :: rest => v :: cumsum_from v rest
  end.
End Figures.

(** ** The methods of [SchemaAnalyzer] that render a MetricSet *)

Section Rendering.
Context `{Numpy} `{Builtins}.
Local Open Scope py_scope.

(** [metric['visualization_type'].lower()] *)
Definition visualization_type_lower : Py string :=
  metric <- param ;;
  vt <- lift (py_getitem metric "visualization_type") ;;
  lift (py_lower vt).

(** [metric['name']] *)
Definition metric_name : Py pyval :=
  metric <- param ;;
  lift (py_getitem metric "name").

Definition generate_sample_visualization : Py Figure :=
  let dates := date_range (mkDate 2024 1 1) 30 in
  vt <- visualization_type_lower ;;
  fig <-
    (if String.eqb vt "line" then
       values <- np_random_normal 10 2 30 ;;
       let values := np_cumsum values in
       name <- metric_name ;;
       ret (px_line dates (Floats values) name)
     else
       vt <- visualization_type_lower ;;
       if String.eqb vt "bar" then
         values <- np_random_randint 10 100 30 ;;
         name <- metric_name ;;
         ret (px_bar dates (Ints values) name)
       else
         vt <- visualization_type_lower ;;
         if String.eqb vt "pie" then
           let labels :=
             ["Category A"; "Category B"; "Category C"; "Category D"] in
           values <- np_random_randint 10 100 4 ;;
           name <- metric_name ;;
           ret (px_pie (Ints values) labels name)
         else
           values <- np_random_randint 10 100 30 ;;
           name <- metric_name ;;
           ret (px_scatter dates (Ints values) name)) ;;
  ret (update_layout fig (QArith_base.Qmake 1 2) (mkMargin 50 20 20 20) 400).

Definition header_lines : list string := [
  "import dash";
  "from dash import html, dcc";
  "from dash.dependencies import Input, Output";
  "import plotly.express as px";
  "import plotly.graph_objects as go";
  "import pandas as pd";
  "import numpy as np";
  "from datetime import datetime, timedelta";
  "import psycopg2  # For PostgreSQL connection";
  EmptyString;
  "# Initialize the Dash app";
  "app = dash.Dash(__name__)";
  EmptyString;
  "# Database connection function";
  "def get_db_connection():";
  "    return psycopg2.connect(";
  "        dbname=" +:+ dq +:+ "your_database" +:+ dq +:+ ",";
  "        user=" +:+ dq +:+ "your_user" +:+ dq +:+ ",";
  "        password=" +:+ dq +:+ "your_password" +:+ dq +:+ ",";
  "        host=" +:+ dq +:+ "your_host" +:+ dq +:+ ",";
  "        port=" +:+ dq +:+ "your_port" +:+ dq;
  "    )";
  EmptyString;
  "# Layout";
  "app.layout = html.Div([";
  "    html.H1(" +:+ dq +:+ "Database Metrics Dashboard" +:+ dq
    +:+ ", style={'textAlign': 'center'}),";
  "    html.Div([";
  "        dcc.Tabs(id='metric-tabs', value='tab-0', children=["
].

Definition callback_lines : list string := [
  "        ]),";
  "        html.Div(id='metric-content')";
  "    ])";
  "])";
  EmptyString;
  "# Callback to update content";
  "@app.callback(";
  "    Output('metric-content', 'children'),";
  "    Input('metric-tabs', 'value')";
  ")";
  "def update_metric(tab):";
  "    metrics = {"
].

Definition footer_lines : list string := [
  "    }";
  "    ";
  "    if tab not in metrics:";
  "        return html.Div(" +:+ dq +:+ "No metric selected" +:+ dq +:+ ")";
  "    ";
  "    # Execute query and get data";
  "    try:";
  "        conn = get_db_connection()";
  "        df = pd.read_sql_query(metrics[tab]['query'], conn)";
  "        conn.close()";
  "        ";
  "        # Create visualization based on type";
  "        if metrics[tab]['type'].lower() == 'line':";
  "            fig = px.line(df, x='timestamp', y='value', title=metrics[tab]['name'])";
  "        elif metrics[tab]['type'].lower() == 'bar':";
  "            fig = px.bar(df, x='timestamp', y='value', title=metrics[tab]['name'])";
  "        else:";
  "            fig = px.scatter(df, x='timestamp', y='value', title=metrics[tab]['name'])";
  "            ";
  "        return html.Div([";
  "            dcc.Graph(figure=fig)";
  "        ])";
  "    except Exception as e:";
  "        return html.Div(f" +:+ dq +:+ "Error: {str(e)}" +:+ dq +:+ ")";
  EmptyString;
  "if __name__ == '__main__':";
  "    app.run_server(debug=True)"
].

(** [enumerate(metrics['metrics'])] *)
Definition enumerate_metrics : Py (list (nat * pyval)) :=
  metrics <- param ;;
  listed <- lift (py_getitem metrics "metrics") ;;
  items <- lift (py_iter listed) ;;
  ret (enumerate items).

(** The body of the first loop: one [dcc.Tab] line is appended, with
    [metric['name']] as its label and [tab-i] as its value. *)
Definition add_tab (dashboard_code : string) (im : nat * pyval) : Py string :=
  let '(i, metric) := im in
  name <- lift (py_getitem metric "name") ;;
  ret (dashboard_code +:+ "            dcc.Tab(label='" +:+ format_value name
         +:+ "', value='tab-" +:+ str_of_nat i +:+ "')," +:+ nl).

(** The body of the second loop: the entry of [tab-i] is appended,
    with the metric's name, query and type between quotes. *)
Definition add_entry (dashboard_code : string) (im : nat * pyval) : Py string :=
  let '(i, metric) := im in
  name <- lift (py_getitem metric "name") ;;
  sql_query <- lift (py_getitem metric "sql_query") ;;
  visualization_type <- lift (py_getitem metric "visualization_type") ;;
  ret (dashboard_code +:+ "        'tab-" +:+ str_of_nat i +:+ "': {" +:+ nl
         +:+ "            'name': '" +:+ format_value name +:+ "'," +:+ nl
         +:+ "            'query': '''" +:+ format_value sql_query +:+ "'''," +:+ nl
         +:+ "            'type': '" +:+ format_value visualization_type +:+ "'" +:+ nl
         +:+ "        }," +:+ nl).

Definition generate_dashboard_code : Py string :=
  let dashboard_code := unlines header_lines in
  tabs <- enumerate_metrics ;;
  dashboard_code <- for_each tabs add_tab dashboard_code ;;
  let dashboard_code := dashboard_code +:+ unlines callback_lines in
  entries <- enumerate_metrics ;;
  dashboard_code <- for_each entries add_entry dashboard_code ;;
  let dashboard_code := dashboard_code +:+ unlines footer_lines in
  ret dashboard_code.
End Rendering.

(** ** [json.loads]

    The decoder of the standard library, in its default (strict)
    configuration: the grammar of [json.scanner] and [json.decoder],
    with the decoder's position replaced by the text that is left.  The
    fuel of each loop is the length of the text it works on, so it is
    never the fuel that ends a decoding.  Two limits of the interpreter
    are left out: its recursion limit, which a text nested a thousand
    deep can hit, and its limit on the digits of an integer literal. *)

Module json.
Local Open Scope result_scope.
Local Open Scope char_scope.

Definition is_ws (c : ascii) : bool :=
  Ascii.eqb c " " || Ascii.eqb c "009" || Ascii.eqb c "010" || Ascii.eqb c "013".

Fixpoint skip_ws (s : string) : string :=
  match s with
  | String c rest => if is_ws c then skip_ws rest else s
  | EmptyString => s
  end.

Fixpoint strip_prefix (p s : string) : option string :=
  match p, s with
  | EmptyString, _ => Some s
  | String a p', String c s' => if Ascii.eqb a c then strip_prefix p' s' else None
  | String _ _, EmptyString => None
  end.

Definition is_digit (c : ascii) : bool :=
  (48 <=? nat_of_ascii c)%nat && (nat_of_ascii c <=? 57)%nat.

(** The longest run of digits at the head of the text, and the rest. *)
Fixpoint span_digits (s : string) : string * string :=
  match s with
  | String c rest =>
      if is_digit c
      then let '(ds, rest') := span_digits rest in (String c ds, rest')
      else (EmptyString, s)
  | EmptyString => (EmptyString, s)
  end.

(** The integer part of a number: an optional minus sign, then a
    single zero or a run of digits that does not start with zero. *)
Definition match_integer (s : string) : option (string * string) :=
  let '(sign, body) :=
    match s with
    | String "-" rest => (String "-" EmptyString, rest)
    | _ => (EmptyString, s)
    end in
  match body with
  | String "0" rest => Some ((sign +:+ String "0" EmptyString)%string, rest)
  | String c _ =>
      if is_digit c
      then let '(ds, rest) := span_digits body in Some ((sign +:+ ds)%string, rest)
      else None
  | EmptyString => None
  end.

(** The fraction of a number, if any: a dot and at least one digit. *)
Definition match_frac (s : string) : string * string :=
  match s with
  | String "." rest =>
      match span_digits rest with
      | (EmptyString, _) => (EmptyString, s)
      | (ds, rest') => (String "." ds, rest')
      end
  | _ => (EmptyString, s)
  end.

(** The exponent of a number, if any: [e] or [E], an optional sign
    and at least one digit. *)
Definition match_exp (s : string) : string * string :=
  match s with
  | String e rest =>
      if Ascii.eqb e "e" || Ascii.eqb e "E" then
        let '(sign, body) :=
          match rest with
          | String c rest' =>
              if Ascii.eqb c "-" || Ascii.eqb c "+"
              then (String c EmptyString, rest')
              else (EmptyString, rest)
          | EmptyString => (EmptyString, rest)
          end in
        match span_digits body with
        | (EmptyString, _) => (EmptyString, s)
        | (ds, rest') => (String e (sign +:+ ds)%string, rest')
        end
      else (EmptyString, s)
  | EmptyString => (EmptyString, s)
  end.

Fixpoint digits_value (acc : Z) (ds : string) : Z :=
  match ds with
  | String c rest => digits_value (10 * acc + Z.of_nat (nat_of_ascii c - 48)) rest
  | EmptyString => acc
  end.

(** [int(literal)] on a literal of [match_integer]. *)
Definition parse_int (literal : string) : Z :=
  match literal with
  | String "-" ds => (- digits_value 0 ds)%Z
  | _ => digits_value 0 literal
  end.

Definition match_number (s : string) : option (pyval * string) :=
  match match_integer s with
  | None => None
  | Some (integer, rest) =>
      let '(frac, rest) := match_frac rest in
      let '(exp, rest) := match_exp rest in
      match frac, exp with
      | EmptyString, EmptyString => Some (PInt (parse_int integer), rest)
      | _, _ => Some (PFloat (integer +:+ frac +:+ exp)%string, rest)
      end
  end.

Definition hex_value (c : ascii) : option N :=
  let n := N_of_ascii c in
  if (48 <=? n)%N && (n <=? 57)%N then Some (n - 48)%N
  else if (65 <=? n)%N && (n <=? 70)%N then Some (n - 55)%N
  else if (97 <=? n)%N && (n <=? 102)%N then Some (n - 87)%N
  else None.

(** The four hexadecimal digits of a [\uXXXX] escape. *)
Definition decode_uXXXX (s : string) : option (N * string) :=
  match s with
  | String a (String b (String c (String d rest))) =>
      match hex_value a, hex_value b, hex_value c, hex_value d with
      | Some a, Some b, Some c, Some d => Some (((a * 16 + b) * 16 + c) * 16 + d, rest)%N
      | _, _, _, _ => None
      end
  | _ => None
  end.

(** [BACKSLASH] *)
Definition backslash (esc : ascii) : option ascii :=
  if Ascii.eqb esc "034" then Some "034"
  else if Ascii.eqb esc "\" then Some "\"
  else if Ascii.eqb esc "/" then Some "/"
  else if Ascii.eqb esc "b" then Some "008"
  else if Ascii.eqb esc "f" then Some "012"
  else if Ascii.eqb esc "n" then Some "010"
  else if Ascii.eqb esc "r" then Some "013"
  else if Ascii.eqb esc "t" then Some "009"
  else None.

(** A [\u] escape, with the low half of a surrogate pair when one
    follows a high half. *)
Definition scan_unicode_escape (s : string) : Result (N * string) :=
  match decode_uXXXX s with
  | None => Raise JSONDecodeError
  | Some (uni, rest) =>
      if (55296 <=? uni)%N && (uni <=? 56319)%N then
        match rest with
        | String "\" (String "u" rest2) =>
            match decode_uXXXX rest2 with
            | None => Raise JSONDecodeError
            | Some (uni2, rest3) =>
                if (56320 <=? uni2)%N && (uni2 <=? 57343)%N
                then Ok (65536 + ((uni - 55296) * 1024 + (uni2 - 56320)), rest3)%N
                else Ok (uni, rest)
            end
        | _ => Ok (uni, rest)
        end
      else Ok (uni, rest)
  end.

(** The body of a string, from after its opening quote to its closing
    quote: the decoded characters and the text after the quote. *)
Fixpoint scanstring (fuel : nat) (s : string) : Result (string * string) :=
  match fuel with
  | O => Raise RecursionError
  | S fuel =>
      match s with
      | EmptyString => Raise JSONDecodeError
      | String c rest =>
          if Ascii.eqb c "034" then Ok (EmptyString, rest)
          else if Ascii.eqb c "\" then
            match rest with
            | EmptyString =>
                Raise JSONDecodeError
            | String esc rest =>
                if Ascii.eqb esc "u" then
                  found <- scan_unicode_escape rest ;; let '(uni, rest) := found in
                  found <- scanstring fuel rest ;; let '(tail, rest) := found in
                  Ok ((chr uni +:+ tail)%string, rest)
                else
                  match backslash esc with
                  | None => Raise JSONDecodeError
                  | Some ch =>
                      found <- scanstring fuel rest ;; let '(tail, rest) := found in
                      Ok (String ch tail, rest)
                  end
            end
          else if (nat_of_ascii c <? 32)%nat then
            Raise JSONDecodeError
          else
            found <- scanstring fuel rest ;; let '(tail, rest) := found in
            Ok (String c tail, rest)
      end
  end.

Definition fuel_for (s : string) : nat := S (String.length s).

Section Containers.
(** [scan_once], for the values nested in an array or an object. *)
Variable scan_once : string -> Result (pyval * string).

(** The loop of [JSONArray], from its first value on. *)
Fixpoint array_values (fuel : nat) (s : string) : Result (list pyval * string) :=
  match fuel with
  | O => Raise RecursionError
  | S fuel =>
      found <- scan_once s ;; let '(value, rest) := found in
      match skip_ws rest with
      | String "]" rest => Ok ([value], rest)
      | String "," rest =>
          found <- array_values fuel (skip_ws rest) ;; let '(values, rest) := found in
          Ok (value :: values, rest)
      | _ => Raise JSONDecodeError
      end
  end.

Definition JSONArray (s : string) : Result (pyval * string) :=
  match skip_ws s with
  | String "]" rest => Ok (PList [], rest)
  | s' =>
      found <- array_values (fuel_for s') s' ;; let '(values, rest) := found in
      Ok (PList values, rest)
  end.

(** The loop of [JSONObject], from after the opening quote of a key;
    [pairs] is the dict built so far. *)
Fixpoint object_pairs (fuel : nat) (pairs : list (string * pyval)) (s : string)
  : Result (pyval * string) :=
  match fuel with
  | O => Raise RecursionError
  | S fuel =>
      found <- scanstring (fuel_for s) s ;; let '(key, rest) := found in
      match skip_ws rest with
      | String ":" rest =>
          found <- scan_once (skip_ws rest) ;; let '(value, rest) := found in
          let pairs := dict_set pairs key value in
          match skip_ws rest with
          | String "}" rest => Ok (PDict pairs, rest)
          | String "," rest =>
              match skip_ws rest with
              | String "034" rest => object_pairs fuel pairs rest
              | _ => Raise JSONDecodeError
              end
          | _ => Raise JSONDecodeError
          end
      | _ => Raise JSONDecodeError
      end
  end.

Definition JSONObject (s : string) : Result (pyval * string) :=
  match skip_ws s with
  | String "}" rest => Ok (PDict [], rest)
  | String "034" rest => object_pairs (fuel_for rest) [] rest
  | _ => Raise JSONDecodeError
  end.
End Containers.

Definition scan_constant (s : string) : option (pyval * string) :=
  match strip_prefix "null" s with
  | Some rest => Some (PNone, rest)
  | None =>
  match strip_prefix "true" s with
  | Some rest => Some (PBool true, rest)
  | None =>
  match strip_prefix "false" s with
  | Some rest => Some (PBool false, rest)
  | None =>
  match match_number s with
  | Some found => Some found
  | None =>
  match strip_prefix "NaN" s with
  | Some rest => Some (PFloat "NaN", rest)
  | None =>
  match strip_prefix "Infinity" s with
  | Some rest => Some (PFloat "Infinity", rest)
  | None =>
  match strip_prefix "-Infinity" s with
  | Some rest => Some (PFloat "-Infinity", rest)
  | None => None
  end end end end end end end.

Fixpoint scan_once (fuel : nat) (s : string) : Result (pyval * string) :=
  match fuel with
  | O => Raise RecursionError
  | S fuel =>
      match s with
      | String "034" rest =>
          found <- scanstring (fuel_for rest) rest ;; let '(str, rest) := found in
          Ok (PStr str, rest)
      | String "{" rest => JSONObject (scan_once fuel) rest
      | String "[" rest => JSONArray (scan_once fuel) rest
      | _ =>
          match scan_constant s with
          | Some found => Ok found
          | None => Raise JSONDecodeError
          end
      end
  end.

(** [JSONDecoder.decode] *)
Definition decode (s : string) : Result pyval :=
  found <- scan_once (fuel_for s) (skip_ws s) ;; let '(obj, rest) := found in
  match skip_ws rest with
  | EmptyString => Ok obj
  | _ => Raise JSONDecodeError
  end.

(** [json.loads(s)] for a [str]. *)
Definition loads (s : string) : Result pyval :=
  match strip_prefix (chr 65279) s with
  | Some _ => Raise JSONDecodeError
  | None => decode s
  end.
(** A scan either fails with a decoding error or leaves a text no
    longer than the one it was given. *)
Definition well_behaved {A} (s : string) (res : Result (A * string)) : Prop :=
  match res with
  | Ok (_, rest) => String.length rest <= String.length s
  | Raise e => e = JSONDecodeError
  end.
End json.

(** ** [sqlparse] and the Anthropic client

    Both are libraries the program calls.  [sqlparse] is taken through
    the three operations the program uses; it is a non-validating
    parser, so [parse] has a result for every text.  The client is the
    service behind [messages.create]: a request is answered by a
    message or by an error of the transport. *)

Module sqlparse.
Class Library := {
  Statement : Type;
  parse : string -> list Statement;
  str : Statement -> string;
  get_type : Statement -> string
}.
End sqlparse.

Module anthropic.
Record Request : Type := mkRequest {
  model : string;
  max_tokens : Z;
  messages : list (list (string * string))
}.

Inductive ContentBlock : Type :=
| TextBlock (text : string)
| ToolUseBlock.

Record Message : Type := mkMessage { content : list ContentBlock }.

Record Anthropic : Type := mkAnthropic {
  messages_create : Request -> Result Message
}.

(** [block.text] *)
Definition text_of (block : ContentBlock) : Result string :=
  match block with
  | TextBlock text => Ok text
  | ToolUseBlock => Raise AttributeError
  end.
End anthropic.

(** [seq[0]] *)
Definition first_item {A} (items : list A) : Result A :=
  match items with
  | x :: _ => Ok x
  | [] => Raise IndexError
  end.

(** ** [SchemaAnalyzer]: the schema and the reasoning service *)

Record SchemaAnalyzer : Type := mkSchemaAnalyzer { client : anthropic.Anthropic }.

Section Schema.
Context `{sqlparse.Library}.

(** [stmt.get_type() != 'UNKNOWN'] *)
Definition recognized (stmt : sqlparse.Statement) : bool :=
  negb (String.eqb (sqlparse.get_type stmt) "UNKNOWN").

Definition parse_sql_file (sql_content : string) : string :=
  let parsed := sqlparse.parse sql_content in
  let cleaned :=
    py_join nl (map sqlparse.str (filter (fun stmt => recognized stmt) parsed)) in
  cleaned.
End Schema.

Definition prompt_of (schema_content description : string) : string :=
  "Given this database schema:" +:+ nl
  +:+ "        " +:+ schema_content +:+ nl
  +:+ "        " +:+ nl
  +:+ "        And this use case description:" +:+ nl
  +:+ "        " +:+ description +:+ nl
  +:+ "        " +:+ nl
  +:+ "        Propose key metrics to track over time for monitoring this application through its database." +:+ nl
  +:+ "        Return the response as a JSON object with this structure:" +:+ nl
  +:+ "        {" +:+ nl
  +:+ "            " +:+ dq +:+ "metrics" +:+ dq +:+ ": [" +:+ nl
  +:+ "                {" +:+ nl
  +:+ "                    " +:+ dq +:+ "name" +:+ dq +:+ ": " +:+ dq +:+ "metric name" +:+ dq +:+ "," +:+ nl
  +:+ "                    " +:+ dq +:+ "description" +:+ dq +:+ ": " +:+ dq +:+ "what this metric measures" +:+ dq +:+ "," +:+ nl
  +:+ "                    " +:+ dq +:+ "sql_query" +:+ dq +:+ ": " +:+ dq +:+ "SQL query to calculate this metric" +:+ dq +:+ "," +:+ nl
  +:+ "                    " +:+ dq +:+ "visualization_type" +:+ dq +:+ ": " +:+ dq +:+ "recommended plot type (line/bar/etc)" +:+ dq +:+ "," +:+ nl
  +:+ "                    " +:+ dq +:+ "update_frequency" +:+ dq +:+ ": " +:+ dq +:+ "how often this should update" +:+ dq +:+ nl
  +:+ "                }" +:+ nl
  +:+ "            ]" +:+ nl
  +:+ "        }".

(** The one request of [analyze_schema]: the model, the budget of the
    answer and a single user message holding the prompt. *)
Definition request_for (prompt : string) : anthropic.Request :=
  anthropic.mkRequest "claude-3-sonnet-20240229" 2000
    [[("role", "user"); ("content", prompt)]].

Definition analyze_schema (self : SchemaAnalyzer)
  (schema_content description : string) : Result pyval :=
  (let prompt := prompt_of schema_content description in
   response <- anthropic.messages_create (client self) (request_for prompt) ;;
   block <- first_item (anthropic.content response) ;;
   text <- anthropic.text_of block ;;
   json.loads text)%result.

(** ** The data model

    A Metric carries five fields, all strings; a MetricSet wraps a list
    of metrics under the key [metrics].  This is the shape the prompt
    asks for; no method checks it. *)

Definition metric_fields : list string :=
  ["name"; "description"; "sql_query"; "visualization_type"; "update_frequency"].




Definition metric_set (items : list pyval) : pyval := PDict [("metrics", PList items)].



(** ** [main], from the MetricSet on

    The three tabs [main] fills once [analyze_schema] has returned:
    the listing of the metrics, a sample chart for each, and the
    dashboard code.  [shared] is the object [main] holds in [metrics]. *)

Record Expander : Type := mkExpander {
  label : string;
  written : list string;
  code : pyval
}.

Section Main.
Context `{Numpy} `{Builtins}.
Local Open Scope py_scope.

(** The call [f(arg)] for an [arg] that is part of the caller's
    object: the callee runs with its parameter bound to [arg], and
    [put] stores the object it leaves in the place [arg] came from. *)
Definition call {A} (arg : pyval) (put : pyval -> pyval -> pyval) (callee : Py A)
  : Py A :=
  fun w =>
    let '(res, w') := callee (mkWorld arg (np_random w)) in
    (res, mkWorld (put (shared w) (shared w')) (np_random w')).

(** The place of [metrics['metrics'][i]], when that is an item of a
    list; the keys of a dict and the characters of a string are
    objects of their own. *)
Definition put_metric (i : nat) (metrics item : pyval) : pyval :=
  match metrics with
  | PDict d =>
      match dict_get d "metrics" with
      | Some (PList items) => PDict (dict_set d "metrics" (PList (<[i := item]> items)))
      | _ => metrics
      end
  | _ => metrics
  end.

Definition expander_icon : string :=
  chr 240 +:+ chr 376 +:+ chr 8220 +:+ chr 352.

Definition list_metric (shown : list Expander) (metric : pyval) : Py (list Expander) :=
  name <- lift (py_getitem metric "name") ;;
  description <- lift (py_getitem metric "description") ;;
  update_frequency <- lift (py_getitem metric "update_frequency") ;;
  visualization_type <- lift (py_getitem metric "visualization_type") ;;
  sql_query <- lift (py_getitem metric "sql_query") ;;
  ret (shown ++ [mkExpander
                   (expander_icon +:+ " " +:+ format_value name)
                   ["**Description:** " +:+ format_value description;
                    "**Update Frequency:** " +:+ format_value update_frequency;
                    "**Visualization Type:** " +:+ format_value visualization_type]
                   sql_query])%list.

(** Tab 1: an expander for each metric. *)
Definition proposed_metrics : Py (list Expander) :=
  metrics <- param ;;
  listed <- lift (py_getitem metrics "metrics") ;;
  items <- lift (py_iter listed) ;;
  for_each items list_metric [].

Definition preview_metric (shown : list (nat * Figure)) (im : nat * pyval)
  : Py (list (nat * Figure)) :=
  let '(i, metric) := im in
  let col := i mod 2 in
  fig <- call metric (put_metric i) generate_sample_visualization ;;
  ret (shown ++ [(col, fig)])%list.

(** Tab 2: a sample chart for each metric, in two columns. *)
Definition sample_dashboard_preview : Py (list (nat * Figure)) :=
  items <- enumerate_metrics ;;
  for_each items preview_metric [].

Definition main_tabs : Py (list Expander * list (nat * Figure) * string) :=
  tab1 <- proposed_metrics ;;
  tab2 <- sample_dashboard_preview ;;
  dashboard_code <- generate_dashboard_code ;;
  ret (tab1, tab2, dashboard_code).
End Main.

(** ** The generated dashboard

    What the emitted [update_metric] does with the tab it is given: the
    lookup table has one key per emitted entry, and a tab that is not a
    key is answered by the "No metric selected" element. *)

Inductive update : Type :=
| no_metric_selected
| render_entry (tab : string).

Definition lookup_keys (count : nat) : list string :=
  map (fun i => "tab-" +:+ str_of_nat i) (seq 0 count).

Definition update_metric (count : nat) (tab : string) : update :=
  if existsb (String.eqb tab) (lookup_keys count)
  then render_entry tab
  else no_metric_selected.

(** ** Lines of a text *)

Fixpoint has_newline (s : string) : bool :=
  match s with
  | EmptyString => false
  | String c rest => Ascii.eqb c "010" || has_newline rest
  end.

(** The lines of a text, split at its line feeds; a text that ends
    with a line feed has an empty last line. *)
Fixpoint lines (s : string) : list string :=
  match s with
  | EmptyString => [EmptyString]
  | String c rest =>
      if Ascii.eqb c "010" then EmptyString :: lines rest
      else match lines rest with
           | [] => [String c EmptyString]
           | l :: ls => String c l :: ls
           end
  end.

(** A line that declares a tab, and a line that opens an entry of the
    lookup table. *)
Definition is_tab_declaration (line : string) : bool :=
  startswith "            dcc.Tab(label='" line.

Definition is_entry_opening (line : string) : bool :=
  startswith "        'tab-" line.

(** The line of the [i]-th tab and the lines of the [i]-th entry. *)
Definition tab_line (i : nat) (name : string) : string :=
  "            dcc.Tab(label='" +:+ name +:+ "', value='tab-" +:+ str_of_nat i +:+ "'),".

Definition entry_lines (i : nat) (name sql_query visualization_type : string)
  : list string :=
  ["        'tab-" +:+ str_of_nat i +:+ "': {";
   "            'name': '" +:+ name +:+ "',";
   "            'query': '''" +:+ sql_query +:+ "''',";
   "            'type': '" +:+ visualization_type +:+ "'";
   "        },"].

(** ** Instances to evaluate with

    A congruential generator over the integers stands for numpy's, a
    splitter at semicolons for sqlparse, and a fixed text for the
    [str()] of an object that is no string. *)

Definition lcg_numpy : Numpy := {|
  RandomState := Z;
  float64 := Z;
  normal1 := fun loc scale seed =>
    ((loc + scale * (seed mod 5 - 2))%Z, ((seed * 75 + 74) mod 65537)%Z);
  randint1 := fun low high seed =>
    ((low + seed mod (high - low))%Z, ((seed * 75 + 74) mod 65537)%Z);
  float_add := Z.add
|}.

Definition opaque_builtins : Builtins := {| str_of_object := fun _ => "<object>" |}.

Fixpoint split_statements (current : string) (s : string) : list string :=
  match s with
  | EmptyString =>
      match current with
      | EmptyString => []
      | _ => [current]
      end
  | String c rest =>
      if Ascii.eqb c ";"
      then (current +:+ String c EmptyString) :: split_statements EmptyString rest
      else split_statements (current +:+ String c EmptyString) rest
  end.

Definition keyword_type (stmt : string) : string :=
  if startswith "SELECT" stmt then "SELECT"
  else if startswith "CREATE" stmt then "CREATE"
  else if startswith "INSERT" stmt then "INSERT"
  else "UNKNOWN".

Definition semicolon_sqlparse : sqlparse.Library := {|
  sqlparse.Statement := string;
  sqlparse.parse := split_statements EmptyString;
  sqlparse.str := fun stmt => stmt;
  sqlparse.get_type := keyword_type
|}.

(** A service that answers every request with one text block. *)
Definition answering (text : string) : SchemaAnalyzer :=
  mkSchemaAnalyzer
    (anthropic.mkAnthropic
       (fun _ => Ok (anthropic.mkMessage [anthropic.TextBlock text]))).

Definition daily_revenue : pyval :=
  PDict [("name", PStr "Daily Revenue");
         ("description", PStr "sum of order totals per day");
         ("sql_query", PStr "SELECT date, SUM(total) FROM orders GROUP BY date");
         ("visualization_type", PStr "line");
         ("update_frequency", PStr "daily")].

(** ** [main], as the script runs it

    The script from its first line on: the widgets, the gate on the
    three inputs, the [try] block with the calls to the analyzer and
    the three tabs, and the handler.  The calls to streamlit are
    recorded in the order they are made, each with the container it is
    made in; the widgets return what the user entered.  A call to
    streamlit is taken not to raise. *)

Module st.

(** What [st.file_uploader] returns for an uploaded file. *)
Record UploadedFile : Type := mkUploadedFile { name : string; content : string }.

(** What the three widgets of the sidebar return. *)
Record Inputs : Type := mkInputs {
  anthropic_key : string;
  uploaded_file : option UploadedFile;
  description : string
}.

Inductive place : Type :=
| in_body
| in_sidebar
| in_tab (i : nat)
| in_expander (i : nat) (label : string)
| in_column (i : nat) (col : nat).

Section Calls.
Context `{Numpy}.

Inductive call : Type :=
| set_page_config (page_title layout : string)
| title (body : string)
| header (body : string)
| text_input (label kind : string)
| file_uploader (label : string) (kinds : list string)
| text_area (label placeholder : string)
| info (body : string)
| spinner (text : string)
| tabs (labels : list string)
| expander (label : string) (expanded : bool)
| write (body : string)
| code (body : pyval) (language : string)
| columns (spec : nat)
| plotly_chart (fig : Figure) (use_container_width : bool)
| download_button (label data file_name mime : string)
| error (body : string).
End Calls.
End st.

(** [s.endswith(suffix)] *)
Fixpoint endswith (s suffix : string) : bool :=
  String.eqb s suffix
  || match s with
     | EmptyString => false
     | String _ rest => endswith rest suffix
     end.

(** The bytes of a continuation, [80] to [BF], and a byte between two
    bounds. *)
Definition between (low high : N) (c : ascii) : bool :=
  (low <=? N_of_ascii c)%N && (N_of_ascii c <=? high)%N.

Definition continuation (c : ascii) : bool := between 128 191 c.

(** The well-formed UTF-8 sequences, which the strict codec accepts:
    no overlong form, no surrogate, nothing beyond U+10FFFF. *)
Fixpoint utf8_valid (bytes : string) : bool :=
  match bytes with
  | EmptyString => true
  | String c1 rest1 =>
      if between 0 127 c1 then utf8_valid rest1
      else
        match rest1 with
        | EmptyString => false
        | String c2 rest2 =>
            if between 194 223 c1 then continuation c2 && utf8_valid rest2
            else
              match rest2 with
              | EmptyString => false
              | String c3 rest3 =>
                  if between 224 239 c1 then
                    (if between 224 224 c1 then between 160 191 c2
                     else if between 237 237 c1 then between 128 159 c2
                     else continuation c2)
                    && continuation c3 && utf8_valid rest3
                  else
                    match rest3 with
                    | EmptyString => false
                    | String c4 rest4 =>
                        between 240 244 c1
                        && (if between 240 240 c1 then between 144 191 c2
                            else if between 244 244 c1 then between 128 143 c2
                            else continuation c2)
                        && continuation c3 && continuation c4 && utf8_valid rest4
                    end
              end
        end
  end.

(** What the [try] block of [main] can raise: an exception of a method
    of the analyzer, or the one of [bytes.decode]. *)
Inductive raised : Type :=
| from_method (e : exn)
| UnicodeDecodeError.

Inductive outcome (A : Type) : Type :=
| returned (a : A)
| thrown (e : raised).
Arguments returned {A} a.
Arguments thrown {A} e.

(** [data.decode('utf-8')]: a [str] is held as its UTF-8 bytes. *)
Definition decode_utf8 (data : string) : outcome string :=
  if utf8_valid data then returned data else thrown UnicodeDecodeError.

(** [Anthropic(api_key=...)]: the client the SDK builds for a key. *)
Class AnthropicSDK := { Anthropic : string -> anthropic.Anthropic }.

(** [str(e)] for an exception. *)
Class ExceptionText := { str_of_exception : raised -> string }.

(** [SchemaAnalyzer.__init__] *)
Definition SchemaAnalyzer_init `{AnthropicSDK} (anthropic_key : string) : SchemaAnalyzer :=
  mkSchemaAnalyzer (Anthropic anthropic_key).

(** [not s] for a string, [not f] for what the uploader returns. *)
Definition not_str (s : string) : bool :=
  match s with
  | EmptyString => true
  | _ => false
  end.

Definition not_file (f : option st.UploadedFile) : bool :=
  match f with
  | None => true
  | Some _ => false
  end.

Section Session.
Context `{Numpy} `{Builtins} `{sqlparse.Library} `{AnthropicSDK} `{ExceptionText}.

(** The page drawn so far, and the state the methods run in; [shared]
    is the object [main] holds in [metrics]. *)
Record Session : Type := mkSession {
  page : list (st.place * st.call);
  world : World
}.

Definition St (A : Type) : Type := Session -> outcome A * Session.

Definition st_ret {A} (a : A) : St A := fun s => (returned a, s).

Definition st_bind {A B} (m : St A) (k : A -> St B) : St B :=
  fun s =>
    match m s with
    | (returned a, s') => k a s'
    | (thrown e, s') => (thrown e, s')
    end.

(** A call to streamlit, made in a container. *)
Definition emit (where_ : st.place) (c : st.call) : St unit :=
  fun s => (returned tt, mkSession (page s ++ [(where_, c)]) (world s)).

(** A method of the analyzer, run in the state of the session. *)
Definition method {A} (m : Py A) : St A :=
  fun s =>
    match m (world s) with
    | (Ok a, w) => (returned a, mkSession (page s) w)
    | (Raise e, w) => (thrown (from_method e), mkSession (page s) w)
    end.

Definition evaluate {A} (r : Result A) : St A :=
  fun s =>
    match r with
    | Ok a => (returned a, s)
    | Raise e => (thrown (from_method e), s)
    end.

Definition decoded {A} (r : outcome A) : St A := fun s => (r, s).

(** [metrics = obj] *)
Definition assign_metrics (obj : pyval) : St unit :=
  fun s => (returned tt, mkSession (page s) (mkWorld obj (np_random (world s)))).

(** [try: body  except Exception as e: handler(e)] *)
Definition try_except {A} (body : St A) (handler : raised -> St A) : St A :=
  fun s =>
    match body s with
    | (returned a, s') => (returned a, s')
    | (thrown e, s') => handler e s'
    end.

(** [for x in items: body(x)] *)
Fixpoint st_for {A} (items : list A) (body : A -> St unit) : St unit :=
  match items with
  | [] => st_ret tt
  | x :: rest => st_bind (body x) (fun _ => st_for rest body)
  end.
End Session.

Declare Scope st_scope.
Delimit Scope st_scope with st.
Notation "x <- m ;; k" := (st_bind m (fun x => k))
  (at level 100, m at next level, right associativity) : st_scope.
Notation "m ;;; k" := (st_bind m (fun _ => k))
  (at level 100, right associativity) : st_scope.

Section Script.
Context `{Numpy} `{Builtins} `{sqlparse.Library} `{AnthropicSDK} `{ExceptionText}.
Local Open Scope st_scope.

Definition deploy_notes : string :=
  nl
  +:+ "            This is a complete Dash application that you can deploy. Make sure to:" +:+ nl
  +:+ "            1. Install required packages: `pip install dash pandas psycopg2-binary plotly`" +:+ nl
  +:+ "            2. Update the database connection parameters" +:+ nl
  +:+ "            3. Save this code to a file (e.g., `app.py`) and run with `python app.py`" +:+ nl
  +:+ "            ".

(** The body of the loop of the first tab. *)
Definition show_metric (metric : pyval) : St unit :=
  name <- evaluate (py_getitem metric "name") ;;
  let label := expander_icon +:+ " " +:+ format_value name in
  emit (st.in_tab 0) (st.expander label true) ;;;
  description <- evaluate (py_getitem metric "description") ;;
  emit (st.in_expander 0 label)
    (st.write ("**Description:** " +:+ format_value description)) ;;;
  update_frequency <- evaluate (py_getitem metric "update_frequency") ;;
  emit (st.in_expander 0 label)
    (st.write ("**Update Frequency:** " +:+ format_value update_frequency)) ;;;
  visualization_type <- evaluate (py_getitem metric "visualization_type") ;;
  emit (st.in_expander 0 label)
    (st.write ("**Visualization Type:** " +:+ format_value visualization_type)) ;;;
  sql_query <- evaluate (py_getitem metric "sql_query") ;;
  emit (st.in_expander 0 label) (st.code sql_query "sql").

(** The body of the loop of the second tab. *)
Definition show_sample (im : nat * pyval) : St unit :=
  let '(i, metric) := im in
  let col := i mod 2 in
  fig <- method (call metric (put_metric i) generate_sample_visualization) ;;
  emit (st.in_column 1 col) (st.plotly_chart fig true).

(** [metrics['metrics']], as each loop evaluates it. *)
Definition metrics_listed : St (list pyval) :=
  metrics <- method param ;;
  listed <- evaluate (py_getitem metrics "metrics") ;;
  evaluate (py_iter listed).

Definition tab1 : St unit :=
  emit (st.in_tab 0) (st.header "Proposed Metrics") ;;;
  items <- metrics_listed ;;
  st_for items show_metric.

Definition tab2 : St unit :=
  emit (st.in_tab 1) (st.header "Sample Dashboard Preview") ;;;
  emit (st.in_tab 1) (st.columns 2) ;;;
  items <- metrics_listed ;;
  st_for (enumerate items) show_sample.

Definition tab3 : St unit :=
  emit (st.in_tab 2) (st.header "Generated Dashboard Code") ;;;
  emit (st.in_tab 2) (st.write deploy_notes) ;;;
  dashboard_code <- method generate_dashboard_code ;;
  emit (st.in_tab 2) (st.code (PStr dashboard_code) "python") ;;;
  emit (st.in_tab 2)
    (st.download_button "Download Dashboard Code" dashboard_code "dashboard_app.py"
       "text/plain").

(** [uploaded_file.read()]; [None] has no such method. *)
Definition read (uploaded_file : option st.UploadedFile) : St st.UploadedFile :=
  match uploaded_file with
  | Some file => st_ret file
  | None => evaluate (Raise AttributeError)
  end.

(** The [try] block. *)
Definition main_try (anthropic_key : string) (uploaded_file : option st.UploadedFile)
  (description : string) : St unit :=
  let analyzer := SchemaAnalyzer_init anthropic_key in
  file <- read uploaded_file ;;
  schema_content <- decoded (decode_utf8 (st.content file)) ;;
  let schema_content :=
    if endswith (st.name file) ".sql"
    then parse_sql_file schema_content
    else schema_content in
  emit st.in_body (st.spinner "Analyzing schema and generating metrics...") ;;;
  metrics <- evaluate (analyze_schema analyzer schema_content description) ;;
  assign_metrics metrics ;;;
  emit st.in_body (st.tabs ["Proposed Metrics"; "Sample Dashboard"; "Dashboard Code"]) ;;;
  tab1 ;;;
  tab2 ;;;
  tab3.

Definition main (inputs : st.Inputs) : St unit :=
  emit st.in_body
    (st.set_page_config "Database Metrics Dashboard Generator" "wide") ;;;
  emit st.in_body (st.title "Database Metrics Dashboard Generator") ;;;
  emit st.in_sidebar (st.header "Configuration") ;;;
  emit st.in_sidebar (st.text_input "Anthropic API Key" "password") ;;;
  let anthropic_key := st.anthropic_key inputs in
  emit st.in_sidebar (st.file_uploader "Upload Schema File" ["sql"; "prisma"; "txt"]) ;;;
  let uploaded_file := st.uploaded_file inputs in
  emit st.in_sidebar
    (st.text_area "Use Case Description"
       "Describe your application and what you want to monitor...") ;;;
  let description := st.description inputs in
  if not_str anthropic_key || not_file uploaded_file || not_str description
  then
    emit st.in_body
      (st.info "Please provide all required inputs in the sidebar to generate the dashboard.")
  else
    try_except (main_try anthropic_key uploaded_file description)
      (fun e => emit st.in_body
                  (st.error ("An error occurred: " +:+ str_of_exception e))).
End Script.

(** An SDK that hands out one client whatever the key, and the text of
    an exception reduced to its kind (the key, quoted, for a missing
    key). *)
Definition sdk_of (client : anthropic.Anthropic) : AnthropicSDK :=
  {| Anthropic := fun _ => client |}.

Definition kind_of_exception : ExceptionText := {|
  str_of_exception := fun e =>
    match e with
    | from_method (KeyError key) => "'" +:+ key +:+ "'"
    | from_method TypeError => "TypeError"
    | from_method AttributeError => "AttributeError"
    | from_method IndexError => "IndexError"
    | from_method JSONDecodeError => "JSONDecodeError"
    | from_method RecursionError => "RecursionError"
    | from_method (APIError detail) => detail
    | UnicodeDecodeError => "UnicodeDecodeError"
    end
|}.

(** ** The vocabulary of the properties *)

Definition rendered_fields : list string := ["name"; "sql_query"; "visualization_type"].

(** The metric has the three fields the generator reads. *)
Definition renderable (metric : pyval) : bool :=
  forallb (fun key => is_ok (py_getitem metric key)) rendered_fields.



(** A line that is neither a tab declaration nor the opening of an
    entry. *)
Definition plain (line : string) : bool :=
  negb (is_tab_declaration line) && negb (is_entry_opening line).


(** The lines a block of text adds after its first are plain. *)
Definition adds_no_declaration (block : string) : bool :=
  forallb plain (tl (lines block)).

(** The chart a lowered visualization type selects, and the number of
    points drawn for it. *)
Definition chart_of (lowered : string) : chart :=
  if String.eqb lowered "line" then Line
  else if String.eqb lowered "bar" then Bar
  else if String.eqb lowered "pie" then Pie
  else Scatter.

Definition points_of (c : chart) : nat :=
  match c with
  | Pie => 4
  | _ => 30
  end.

Definition category_labels : list string :=
  ["Category A"; "Category B"; "Category C"; "Category D"].

Definition fixed_layout : Layout :=
  mkLayout (Some (QArith_base.Qmake 1 2)) (Some (mkMargin 50 20 20 20)) (Some 400%Z).

(** Two metrics agree on what [obj['name']], [obj['sql_query']] and
    [obj['visualization_type']] give. *)
Definition agree (metric1 metric2 : pyval) : Prop :=
  Forall (fun key => py_getitem metric1 key = py_getitem metric2 key) rendered_fields.


Section Vocabulary.
Context `{Numpy} `{Builtins}.

(** The computation leaves the caller's object [obj] as it is. *)
Definition read_only_at {A} (obj : pyval) (m : Py A) : Prop :=
  forall w, shared w = obj -> shared (snd (m w)) = obj.

(** The computation neither reads nor changes the state beyond
    reading the caller's object. *)
Definition stateless {A} (m : Py A) : Prop :=
  forall obj, exists res, forall rs, m (mkWorld obj rs) = (res, mkWorld obj rs).

(** What the generator inserts for a field of a metric. *)
Definition field (metric : pyval) (key : string) : string :=
  match py_getitem metric key with
  | Ok v => format_value v
  | Raise _ => EmptyString
  end.


Definition tab_lines_from (k : nat) (items : list pyval) : list string :=
  map (fun im => tab_line (fst im) (field (snd im) "name")) (enumerate_from k items).

Definition entries_from (k : nat) (items : list pyval) : list string :=
  concat (map (fun im => entry_lines (fst im) (field (snd im) "name")
                           (field (snd im) "sql_query")
                           (field (snd im) "visualization_type"))
            (enumerate_from k items)).


(** The fields of the [i]-th metric add no line of the form of a tab
    declaration or of an entry opening to the text, neither in the tab
    of the metric nor in its entry. *)
Definition quiet (im : nat * pyval) : bool :=
  adds_no_declaration (tab_line (fst im) (field (snd im) "name"))
  && forallb adds_no_declaration
       (entry_lines (fst im) (field (snd im) "name") (field (snd im) "sql_query")
          (field (snd im) "visualization_type")).


End Vocabulary.

(** ** More vocabulary: lookups, draws, answers, pages *)

(** [metrics['metrics']], as a loop receives it. *)
Definition listed (obj : pyval) : Result (list pyval) :=
  (found <- py_getitem obj "metrics" ;; py_iter found)%result.

(** The first error among the results of a series of lookups, if
    any. *)
Fixpoint first_error {A} (results : list (Result A)) : option exn :=
  match results with
  | [] => None
  | Ok _ :: rest => first_error rest
  | Raise e :: _ => Some e
  end.

(** What the first loop of the generator looks up, and what the second
    looks up once the name was found. *)
Definition names_read (items : list pyval) : list (Result pyval) :=
  map (fun metric => py_getitem metric "name") items.

Definition entries_read (items : list pyval) : list (Result pyval) :=
  flat_map (fun metric => [py_getitem metric "sql_query";
                           py_getitem metric "visualization_type"]) items.


(** The chart a metric declares, when its visualization type is a
    string. *)
Definition declared_chart (metric : pyval) : option chart :=
  match py_getitem metric "visualization_type" with
  | Ok (PStr vt) => Some (chart_of (lower vt))
  | _ => None
  end.

(** The keys of a list of entries are pairwise distinct. *)
Fixpoint distinct (keys : list string) : bool :=
  match keys with
  | [] => true
  | key :: rest => negb (existsb (String.eqb key) rest) && distinct rest
  end.

(** No dict of the object, at any depth, holds a key twice. *)
Fixpoint unique_keys (obj : pyval) : bool :=
  match obj with
  | PList items => forallb unique_keys items
  | PDict entries =>
      distinct (map fst entries)
      && forallb (fun entry => unique_keys (snd entry)) entries
  | _ => true
  end.

(** The object of a scan has no key twice. *)
Definition unique_scan (res : Result (pyval * string)) : Prop :=
  match res with
  | Ok (obj, _) => unique_keys obj = true
  | Raise _ => True
  end.

(** The characters a JSON value can start with. *)
Definition opens_value (c : ascii) : bool :=
  existsb (Ascii.eqb c)
    ["034"; "{"; "["; "-"; "0"; "1"; "2"; "3"; "4"; "5"; "6"; "7"; "8"; "9";
     "n"; "t"; "f"; "N"; "I"]%char.

(** The text, after its leading whitespace, starts with a character
    that can open a JSON value. *)
Definition opens_with_value (text : string) : bool :=
  match json.skip_ws text with
  | EmptyString => false
  | String c _ => opens_value c
  end.

(** A MetricSet written as JSON: strings without quote, backslash or
    control character between quotes, the pairs of a metric between
    braces, the metrics between brackets under the key [metrics]. *)
Definition unescaped_char (c : ascii) : bool :=
  negb (Ascii.eqb c "034"%char) && negb (Ascii.eqb c "\"%char)
  && negb (nat_of_ascii c <? 32)%nat.

Fixpoint unescaped (s : string) : bool :=
  match s with
  | EmptyString => true
  | String c rest => unescaped_char c && unescaped rest
  end.

Definition json_string (s : string) : string := dq +:+ s +:+ dq.

Definition json_pair (kv : string * string) : string :=
  json_string (fst kv) +:+ ": " +:+ json_string (snd kv).

Definition json_object (pairs : list (string * string)) : string :=
  "{" +:+ py_join ", " (map json_pair pairs) +:+ "}".

Definition json_metric_set (metrics : list (list (string * string))) : string :=
  "{" +:+ json_string "metrics" +:+ ": [" +:+ py_join ", " (map json_object metrics)
  +:+ "]}".

(** The metric a list of pairs of strings stands for, and the pairs
    that can be written as they are: distinct keys, nothing to
    escape. *)
Definition metric_of (pairs : list (string * string)) : pyval :=
  PDict (map (fun kv => (fst kv, PStr (snd kv))) pairs).

Definition writable (pairs : list (string * string)) : bool :=
  distinct (map fst pairs)
  && forallb (fun kv => unescaped (fst kv) && unescaped (snd kv)) pairs.

(** What follows the first of a series of parts joined by commas. *)
Definition then_joined (parts : list string) : string :=
  match parts with
  | [] => EmptyString
  | _ => ", " +:+ py_join ", " parts
  end.

(** The dict [JSONObject] builds from pairs of strings. *)
Definition dict_of_pairs (pairs : list (string * string)) (acc : list (string * pyval))
  : list (string * pyval) :=
  fold_left (fun d kv => dict_set d (fst kv) (PStr (snd kv))) pairs acc.

(** The metric has its five fields; and its visualization type is a
    string besides, which is what the three tabs need. *)
Definition listable (metric : pyval) : bool :=
  forallb (fun key => is_ok (py_getitem metric key)) metric_fields.


(** The value of a field that is there. *)
Definition value_of (metric : pyval) (key : string) : pyval :=
  match py_getitem metric key with
  | Ok v => v
  | Raise _ => PNone
  end.

Section Pages.
Context `{Numpy} `{Builtins} `{sqlparse.Library} `{AnthropicSDK} `{ExceptionText}.

(** [size] successive draws from a state: the values and the state
    left. *)
Fixpoint sample {A} (f : RandomState -> A * RandomState) (size : nat)
  (rs : RandomState) : list A * RandomState :=
  match size with
  | O => ([], rs)
  | S n =>
      let '(a, rs1) := f rs in
      let '(rest, rs2) := sample f n rs1 in
      (a :: rest, rs2)
  end.

(** The series drawn for a chart, and the state left. *)
Definition sampled (c : chart) (rs : RandomState) : series * RandomState :=
  match c with
  | Line =>
      let '(values, rs') := sample (normal1 10 2) 30 rs in
      (Floats (np_cumsum values), rs')
  | Pie =>
      let '(values, rs') := sample (randint1 10 100) 4 rs in
      (Ints values, rs')
  | _ =>
      let '(values, rs') := sample (randint1 10 100) 30 rs in
      (Ints values, rs')
  end.

(** The figure of a chart, from its series and its title: the dates on
    the x axis, or the four labels of a pie, and the fixed layout. *)
Definition sample_figure (c : chart) (y : series) (name : pyval) : Figure :=
  mkFigure c
    (match c with Pie => [] | _ => date_range (mkDate 2024 1 1) 30 end)
    y
    (match c with Pie => category_labels | _ => [] end)
    name fixed_layout.

(** The text the generator returns for metrics that have the three
    fields it reads. *)
Definition generated_text (items : list pyval) : string :=
  unlines (header_lines ++ tab_lines_from 0 items ++ callback_lines
             ++ entries_from 0 items ++ footer_lines).

(** The session with further calls on its page. *)
Definition with_calls (s : Session) (calls : list (st.place * st.call)) : Session :=
  mkSession (page s ++ calls) (world s).

Definition is_error (c : st.place * st.call) : bool :=
  match snd c with
  | st.error _ => true
  | _ => false
  end.

Definition is_info (c : st.place * st.call) : bool :=
  match snd c with
  | st.info _ => true
  | _ => false
  end.

(** The header that opens the third tab. *)
Definition is_code_header (c : st.place * st.call) : bool :=
  match c with
  | (st.in_tab 2, st.header body) => String.eqb body "Generated Dashboard Code"
  | _ => false
  end.

(** A call that is no notice, neither of an error nor of missing
    inputs; and one that is not the header of the third tab either. *)
Definition no_notice (c : st.place * st.call) : bool :=
  negb (is_error c) && negb (is_info c).

Definition ordinary (c : st.place * st.call) : bool :=
  no_notice c && negb (is_code_header c).

(** The calls [main] makes before it looks at its inputs. *)
Definition preamble : list (st.place * st.call) :=
  [(st.in_body, st.set_page_config "Database Metrics Dashboard Generator" "wide");
   (st.in_body, st.title "Database Metrics Dashboard Generator");
   (st.in_sidebar, st.header "Configuration");
   (st.in_sidebar, st.text_input "Anthropic API Key" "password");
   (st.in_sidebar, st.file_uploader "Upload Schema File" ["sql"; "prisma"; "txt"]);
   (st.in_sidebar,
    st.text_area "Use Case Description"
      "Describe your application and what you want to monitor...")].

Definition missing_inputs_notice : st.place * st.call :=
  (st.in_body,
   st.info "Please provide all required inputs in the sidebar to generate the dashboard.").

Definition error_notice (e : raised) : st.place * st.call :=
  (st.in_body, st.error ("An error occurred: " +:+ str_of_exception e)).

Definition spinner_call : st.place * st.call :=
  (st.in_body, st.spinner "Analyzing schema and generating metrics...").

Definition tabs_call : st.place * st.call :=
  (st.in_body, st.tabs ["Proposed Metrics"; "Sample Dashboard"; "Dashboard Code"]).

Definition listing_header : st.place * st.call :=
  (st.in_tab 0, st.header "Proposed Metrics").

Definition preview_header : list (st.place * st.call) :=
  [(st.in_tab 1, st.header "Sample Dashboard Preview"); (st.in_tab 1, st.columns 2)].

(** The gate of [main]: one of the three inputs is missing. *)
Definition input_missing (inputs : st.Inputs) : bool :=
  not_str (st.anthropic_key inputs) || not_file (st.uploaded_file inputs)
  || not_str (st.description inputs).

(** The schema [main] hands to [analyze_schema] for a decoded file,
    and the one request made for it. *)
Definition schema_of (file : st.UploadedFile) : string :=
  if endswith (st.name file) ".sql"
  then parse_sql_file (st.content file)
  else st.content file.

Definition request_of (file : st.UploadedFile) (description : string)
  : anthropic.Request :=
  request_for (prompt_of (schema_of file) description).

(** What [main] gets from the analyzer for a file and a description. *)
Definition analysis (inputs : st.Inputs) (file : st.UploadedFile) : Result pyval :=
  analyze_schema (SchemaAnalyzer_init (st.anthropic_key inputs)) (schema_of file)
    (st.description inputs).

(** The calls of the first tab for a metric that has its five
    fields. *)
Definition listing_of (metric : pyval) : list (st.place * st.call) :=
  let label := expander_icon +:+ " " +:+ field metric "name" in
  [(st.in_tab 0, st.expander label true);
   (st.in_expander 0 label, st.write ("**Description:** " +:+ field metric "description"));
   (st.in_expander 0 label,
    st.write ("**Update Frequency:** " +:+ field metric "update_frequency"));
   (st.in_expander 0 label,
    st.write ("**Visualization Type:** " +:+ field metric "visualization_type"));
   (st.in_expander 0 label, st.code (value_of metric "sql_query") "sql")].



(** The calls of the third tab around the generated text. *)
Definition code_calls (dashboard_code : string) : list (st.place * st.call) :=
  [(st.in_tab 2, st.header "Generated Dashboard Code");
   (st.in_tab 2, st.write deploy_notes);
   (st.in_tab 2, st.code (PStr dashboard_code) "python");
   (st.in_tab 2,
    st.download_button "Download Dashboard Code" dashboard_code "dashboard_app.py"
      "text/plain")].
End Pages.

(** ** Metrics and answers to evaluate on *)


Definition daily_revenue_redescribed : pyval :=
  PDict [("update_frequency", PStr "hourly");
         ("name", PStr "Daily Revenue");
         ("sql_query", PStr "SELECT date, SUM(total) FROM orders GROUP BY date");
         ("visualization_type", PStr "line");
         ("description", PStr "revenue of the day")].

Definition with_type (visualization_type : string) : pyval :=
  PDict [("name", PStr "Orders");
         ("description", PStr "orders placed");
         ("sql_query", PStr "SELECT COUNT(*) FROM orders");
         ("visualization_type", PStr visualization_type);
         ("update_frequency", PStr "hourly")].

(** The scenario of the specification: the answer decodes to a
    MetricSet of one metric with its five fields. *)
Definition daily_revenue_answer : string :=
  "{" +:+ dq +:+ "metrics" +:+ dq +:+ ":[{"
  +:+ dq +:+ "name" +:+ dq +:+ ":" +:+ dq +:+ "Daily Revenue" +:+ dq +:+ ","
  +:+ dq +:+ "description" +:+ dq +:+ ":" +:+ dq +:+ "sum of order totals per day" +:+ dq +:+ ","
  +:+ dq +:+ "sql_query" +:+ dq +:+ ":" +:+ dq
  +:+ "SELECT date, SUM(total) FROM orders GROUP BY date" +:+ dq +:+ ","
  +:+ dq +:+ "visualization_type" +:+ dq +:+ ":" +:+ dq +:+ "line" +:+ dq +:+ ","
  +:+ dq +:+ "update_frequency" +:+ dq +:+ ":" +:+ dq +:+ "daily" +:+ dq +:+ "}]}".

Definition without_description : pyval :=
  PDict [("name", PStr "Daily Revenue");
         ("sql_query", PStr "SELECT date, SUM(total) FROM orders GROUP BY date");
         ("visualization_type", PStr "line");
         ("update_frequency", PStr "daily")].



(** An answer that wraps its JSON in a code fence, and one that gives
    the key [metrics] twice. *)
Definition fenced_answer : string :=
  "```json" +:+ nl +:+ daily_revenue_answer +:+ nl +:+ "```".

Definition repeated_key_answer : string :=
  "{" +:+ dq +:+ "metrics" +:+ dq +:+ ": [], " +:+ dq +:+ "metrics" +:+ dq +:+ ": 0}".

(** Two metrics as pairs of strings. *)
Definition revenue_pairs : list (string * string) :=
  [("name", "Daily Revenue");
   ("description", "sum of order totals per day");
   ("sql_query", "SELECT date, SUM(total) FROM orders GROUP BY date");
   ("visualization_type", "line");
   ("update_frequency", "daily")].

Definition orders_pairs : list (string * string) :=
  [("name", "Orders");
   ("description", "orders placed");
   ("sql_query", "SELECT COUNT(*) FROM orders");
   ("visualization_type", "bar");
   ("update_frequency", "hourly")].

(** A run of [main]: an empty page, the key and the description
    entered, a file uploaded, and a service that answers with a given
    text whatever it is asked. *)
Definition world_of (obj : pyval) : World (H := lcg_numpy) :=
  mkWorld (H := lcg_numpy) obj 7%Z.

Definition blank_session : Session (H := lcg_numpy) := mkSession [] (world_of PNone).

Definition orders_schema : st.UploadedFile :=
  st.mkUploadedFile "schema.sql" "CREATE TABLE orders (id INT, total FLOAT);".

Definition broken_file : st.UploadedFile :=
  st.mkUploadedFile "schema.sql" (String (ascii_of_N 255) EmptyString).

Definition inputs_with (file : st.UploadedFile) : st.Inputs :=
  st.mkInputs "sk-test" (Some file) "e-commerce order tracking".

Definition answering_sdk (text : string) : AnthropicSDK :=
  sdk_of (client (answering text)).

Definition main_on (text : string) (file : st.UploadedFile)
  : outcome unit * Session (H := lcg_numpy) :=
  main (H := lcg_numpy) (H0 := opaque_builtins) (H1 := semicolon_sqlparse)
    (H2 := answering_sdk text) (H3 := kind_of_exception)
    (inputs_with file) blank_session.

(** A service that answers with a text to the key of the samples and
    fails for every other key. *)
Definition keyed_sdk (text : string) : AnthropicSDK := {|
  Anthropic := fun key =>
    if String.eqb key "sk-test" then client (answering text)
    else anthropic.mkAnthropic (fun _ => Raise (APIError "invalid x-api-key"))
|}.

(** * Properties *)

(** ** Strings *)

Lemma append_cons (ch : ascii) (a b : string) :
  String ch a +:+ b = String ch (a +:+ b).
Proof. reflexivity. Qed.

Lemma append_nil_l (a : string) : EmptyString +:+ a = a.
Proof. reflexivity. Qed.

Lemma append_assoc (a b c : string) : (a +:+ b) +:+ c = a +:+ (b +:+ c).
Proof.
  induction a as [|ch a IH]; [reflexivity|].
  now rewrite !append_cons, IH.
Qed.

Lemma append_nil_r (a : string) : a +:+ EmptyString = a.
Proof.
  induction a as [|ch a IH]; [reflexivity|].
  now rewrite append_cons, IH.
Qed.

Lemma unlines_app (xs ys : list string) :
  unlines (xs ++ ys) = unlines xs +:+ unlines ys.
Proof.
  induction xs as [|line xs IH]; cbn [unlines app]; [reflexivity|].
  now rewrite IH, !append_assoc.
Qed.


Lemma lines_cons (line rest : string) :
  has_newline line = false -> lines (line +:+ nl +:+ rest) = line :: lines rest.
Proof.
  induction line as [|ch line IH]; cbn [has_newline]; intros Hline; [reflexivity|].
  apply orb_false_elim in Hline as [Hch Hline].
  rewrite append_cons. cbn [lines]. now rewrite Hch, (IH Hline).
Qed.

Lemma lines_unlines (ls : list string) :
  Forall (fun line => has_newline line = false) ls ->
  lines (unlines ls) = (ls ++ [EmptyString])%list.
Proof.
  induction 1 as [|line ls Hline _ IH]; cbn [unlines app]; [reflexivity|].
  now rewrite (lines_cons _ _ Hline), IH.
Qed.





(** ** Dicts and lists *)



Lemma dict_set_same (d : list (string * pyval)) (k : string) (v : pyval) :
  dict_get d k = Some v -> dict_set d k v = d.
Proof.
  induction d as [|[k' v'] d IH]; simpl; [discriminate|].
  destruct (String.eqb k' k) eqn:E.
  - apply String.eqb_eq in E. now intros [= ->]; subst.
  - intros Hget. now rewrite (IH Hget).
Qed.

Lemma enumerate_from_lookup {A} (items : list A) (k i : nat) (item : A) :
  In (i, item) (enumerate_from k items) -> items !! (i - k) = Some item /\ k <= i.
Proof.
  revert k. induction items as [|first items IH]; simpl; intros k; [tauto|].
  intros [[= <- <-] | Hin].
  - now rewrite Nat.sub_diag.
  - destruct (IH _ Hin) as [Hlook Hle].
    replace (i - k) with (S (i - S k)) by lia. split; [exact Hlook | lia].
Qed.


(** ** What a computation does to the state *)

Section Frames.
Context `{Numpy}.
Local Open Scope py_scope.

Lemma read_only_ret {A} obj (a : A) : read_only_at obj (ret a).
Proof. now intros w Hw. Qed.

Lemma read_only_lift {A} obj (res : Result A) : read_only_at obj (lift res).
Proof. now intros w Hw. Qed.

Lemma read_only_param obj : read_only_at obj param.
Proof. now intros w Hw. Qed.

Lemma read_only_draw {A} obj (f : RandomState -> A * RandomState) :
  read_only_at obj (draw f).
Proof. intros w Hw. unfold draw. now destruct (f (np_random w)). Qed.

Lemma read_only_bind_result {A B} obj (m : Py A) (k : A -> Py B) :
  read_only_at obj m ->
  (forall a w, shared w = obj -> fst (m w) = Ok a -> read_only_at obj (k a)) ->
  read_only_at obj (bind m k).
Proof.
  intros Hm Hk w Hw. unfold bind.
  specialize (Hm w Hw). pose proof (fun a => Hk a w Hw) as Hk'.
  destruct (m w) as [[a|e] w']; simpl in *; [|exact Hm].
  now apply (Hk' a eq_refl).
Qed.

Lemma read_only_bind {A B} obj (m : Py A) (k : A -> Py B) :
  read_only_at obj m -> (forall a, read_only_at obj (k a)) ->
  read_only_at obj (bind m k).
Proof. intros Hm Hk. apply read_only_bind_result; auto. Qed.

Lemma read_only_for_each {A S} obj (items : list A) (body : S -> A -> Py S) :
  (forall acc item, In item items -> read_only_at obj (body acc item)) ->
  forall acc, read_only_at obj (for_each items body acc).
Proof.
  induction items as [|item items IH]; intros Hbody acc; simpl.
  - apply read_only_ret.
  - apply read_only_bind.
    + apply Hbody. now left.
    + intros acc'. apply IH. intros ? ? Hin. apply Hbody. now right.
Qed.

Lemma read_only_draws {A} obj (f : RandomState -> A * RandomState) size :
  read_only_at obj (draws f size).
Proof.
  induction size as [|size IH]; simpl.
  - apply read_only_ret.
  - apply read_only_bind; [apply read_only_draw|]. intros a.
    apply read_only_bind; [exact IH|]. intros rest. apply read_only_ret.
Qed.

Lemma read_only_call {A} obj arg put (callee : Py A) :
  read_only_at arg callee -> put obj arg = obj ->
  read_only_at obj (call arg put callee).
Proof.
  intros Hcallee Hput w Hw. unfold call.
  specialize (Hcallee (mkWorld arg (np_random w)) eq_refl).
  destruct (callee _) as [res w']. simpl in *. now rewrite Hw, Hcallee.
Qed.

Lemma stateless_ret {A} (a : A) : stateless (ret a).
Proof. intros obj. now exists (Ok a). Qed.

Lemma stateless_lift {A} (res : Result A) : stateless (lift res).
Proof. intros obj. now exists res. Qed.

Lemma stateless_param : stateless param.
Proof. intros obj. now exists (Ok obj). Qed.

Lemma stateless_bind {A B} (m : Py A) (k : A -> Py B) :
  stateless m -> (forall a, stateless (k a)) -> stateless (bind m k).
Proof.
  intros Hm Hk obj. destruct (Hm obj) as [[a|e] Hres].
  - destruct (Hk a obj) as [res' Hres']. exists res'. intros rs.
    unfold bind. now rewrite Hres, Hres'.
  - exists (Raise e). intros rs. unfold bind. now rewrite Hres.
Qed.

Lemma stateless_for_each {A S} (items : list A) (body : S -> A -> Py S) :
  (forall acc item, stateless (body acc item)) ->
  forall acc, stateless (for_each items body acc).
Proof.
  intros Hbody. induction items as [|item items IH]; intros acc; simpl.
  - apply stateless_ret.
  - apply stateless_bind; auto.
Qed.

Lemma stateless_read_only {A} (m : Py A) obj : stateless m -> read_only_at obj m.
Proof.
  intros Hm [obj' rs] Hw. simpl in Hw. subst obj'.
  destruct (Hm obj) as [res Hres]. now rewrite Hres.
Qed.

Lemma stateless_run {A} (m : Py A) (w : World) : stateless m -> snd (m w) = w.
Proof.
  intros Hm. destruct w as [obj rs]. destruct (Hm obj) as [res Hres].
  now rewrite Hres.
Qed.

Lemma stateless_result {A} (m : Py A) obj rs rs' :
  stateless m -> fst (m (mkWorld obj rs)) = fst (m (mkWorld obj rs')).
Proof. intros Hm. destruct (Hm obj) as [res Hres]. now rewrite !Hres. Qed.
End Frames.

Create HintDb frames.
#[local] Hint Resolve read_only_ret read_only_lift read_only_param read_only_draw
  read_only_draws stateless_ret stateless_lift stateless_param : frames.

Ltac frame :=
  repeat first
    [ progress auto with frames
    | apply read_only_bind; [|intros ?]
    | apply stateless_bind; [|intros ?]
    | apply stateless_for_each; intros ? ? ].

Section RenderingFrames.
Context `{Numpy} `{Builtins}.
Local Open Scope py_scope.

Lemma enumerate_metrics_stateless : stateless enumerate_metrics.
Proof. unfold enumerate_metrics. frame. Qed.

Lemma add_tab_stateless code im : stateless (add_tab code im).
Proof. destruct im as [i metric]. unfold add_tab. frame. Qed.

Lemma add_entry_stateless code im : stateless (add_entry code im).
Proof. destruct im as [i metric]. unfold add_entry. frame. Qed.

Lemma generate_dashboard_code_stateless : stateless generate_dashboard_code.
Proof.
  unfold generate_dashboard_code.
  pose proof enumerate_metrics_stateless.
  pose proof add_tab_stateless. pose proof add_entry_stateless.
  frame.
Qed.

Lemma visualization_type_lower_read_only obj :
  read_only_at obj visualization_type_lower.
Proof. unfold visualization_type_lower. frame. Qed.

Lemma metric_name_read_only obj : read_only_at obj metric_name.
Proof. unfold metric_name. frame. Qed.

Lemma generate_sample_visualization_read_only obj :
  read_only_at obj generate_sample_visualization.
Proof.
  unfold generate_sample_visualization, np_random_normal, np_random_randint.
  pose proof (visualization_type_lower_read_only obj).
  pose proof (metric_name_read_only obj).
  frame.
  repeat (match goal with |- read_only_at _ (if ?c then _ else _) => destruct c end;
          frame).
Qed.

Lemma put_metric_same i metrics item :
  (forall d items, metrics = PDict d -> dict_get d "metrics" = Some (PList items) ->
                   items !! i = Some item) ->
  put_metric i metrics item = metrics.
Proof.
  intros Hitem. unfold put_metric. destruct metrics as [| | | | | |d]; try reflexivity.
  destruct (dict_get d "metrics") as [[| | | | |items|]|] eqn:Hget; try reflexivity.
  rewrite (list_insert_id _ _ _ (Hitem d items eq_refl Hget)).
  now rewrite (dict_set_same _ _ _ Hget).
Qed.

Lemma enumerate_metrics_items obj w listed :
  shared w = obj -> fst (enumerate_metrics w) = Ok listed ->
  forall i item, In (i, item) listed -> put_metric i obj item = obj.
Proof.
  intros Hw Hres i item Hin. apply put_metric_same. intros d items -> Hget.
  unfold enumerate_metrics, bind, param, lift, ret in Hres.
  rewrite Hw in Hres. simpl in Hres. rewrite Hget in Hres. simpl in Hres.
  injection Hres as <-.
  apply enumerate_from_lookup in Hin as [Hlook _].
  now rewrite Nat.sub_0_r in Hlook.
Qed.

Lemma proposed_metrics_stateless : stateless proposed_metrics.
Proof.
  unfold proposed_metrics. frame.
Qed.

Lemma sample_dashboard_preview_read_only obj :
  read_only_at obj sample_dashboard_preview.
Proof.
  unfold sample_dashboard_preview. apply read_only_bind_result.
  - apply stateless_read_only, enumerate_metrics_stateless.
  - intros listed w Hw Hres. apply read_only_for_each.
    intros acc [i item] Hin. unfold preview_metric.
    apply read_only_bind; [|intros ?; apply read_only_ret].
    apply read_only_call.
    + apply generate_sample_visualization_read_only.
    + exact (enumerate_metrics_items obj w listed Hw Hres i item Hin).
Qed.

Lemma main_tabs_read_only obj : read_only_at obj main_tabs.
Proof.
  unfold main_tabs.
  apply read_only_bind;
    [apply stateless_read_only, proposed_metrics_stateless | intros tab1].
  apply read_only_bind; [apply sample_dashboard_preview_read_only | intros tab2].
  apply read_only_bind;
    [apply stateless_read_only, generate_dashboard_code_stateless | intros text].
  apply read_only_ret.
Qed.
End RenderingFrames.

(** ** The generator is a function of the MetricSet *)

Section Determinism.
Context `{Numpy} `{Builtins}.
Local Open Scope py_scope.

(** C3. The Dashboard Code Generator is deterministic: on the same
    MetricSet it produces the same text whatever the state of the
    random generator, it leaves that state and the MetricSet as they
    were, and a second invocation right after the first returns the
    same text again. *)
Theorem generate_dashboard_code_deterministic
  (metrics : pyval) (rs rs' : RandomState) :
  result_of generate_dashboard_code (mkWorld metrics rs)
  = result_of generate_dashboard_code (mkWorld metrics rs')
  /\ world_after generate_dashboard_code (mkWorld metrics rs) = mkWorld metrics rs
  /\ result_of (first <- generate_dashboard_code ;;
                second <- generate_dashboard_code ;;
                ret (first, second)) (mkWorld metrics rs)
     = result_map (fun text => (text, text))
         (result_of generate_dashboard_code (mkWorld metrics rs)).
Proof.
  pose proof generate_dashboard_code_stateless as Hgen.
  split; [|split].
  - apply stateless_result, Hgen.
  - apply stateless_run, Hgen.
  - unfold result_of, bind, ret.
    destruct (Hgen metrics) as [res Hres]. rewrite Hres.
    destruct res as [text|e]; [|reflexivity].
    now rewrite Hres.
Qed.

(** C8. Rendering only reads the MetricSet: the generator run on the
    whole set, the visualizer run on an object, the visualizer called
    on the [i]-th metric of the set, and the three tabs of [main] in
    a row all leave the caller's object as it was. *)
Theorem rendering_leaves_metric_set_unchanged (w : World) :
  shared (world_after generate_dashboard_code w) = shared w
  /\ shared (world_after generate_sample_visualization w) = shared w
  /\ (forall d items i metric,
         shared w = PDict d ->
         dict_get d "metrics" = Some (PList items) ->
         items !! i = Some metric ->
         shared (world_after
                   (call metric (put_metric i) generate_sample_visualization) w)
         = shared w)
  /\ shared (world_after main_tabs w) = shared w.
Proof.
  unfold world_after. repeat split.
  - now apply (stateless_read_only _ _ generate_dashboard_code_stateless).
  - now apply generate_sample_visualization_read_only.
  - intros d items i metric Hw Hget Hitem.
    apply read_only_call; [apply generate_sample_visualization_read_only| |reflexivity].
    apply put_metric_same. intros d' items' Heq Hget'.
    rewrite Hw in Heq. injection Heq as <-.
    rewrite Hget in Hget'. now injection Hget' as <-.
  - now apply main_tabs_read_only.
Qed.
End Determinism.

(** The visualizer called on the first metric of a one-metric set. *)
Lemma rendering_leaves_metric_set_unchanged_witness :
  shared (world_after (H := lcg_numpy)
            (call daily_revenue (put_metric 0) generate_sample_visualization)
            (mkWorld (H := lcg_numpy) (metric_set [daily_revenue]) 7%Z))
  = metric_set [daily_revenue].
Proof.
  exact (proj1 (proj2 (proj2
           (rendering_leaves_metric_set_unchanged (H := lcg_numpy) (H0 := opaque_builtins)
              (mkWorld (H := lcg_numpy) (metric_set [daily_revenue]) 7%Z))))
           _ _ 0 daily_revenue eq_refl eq_refl eq_refl).
Defined.

(** An assignment to a key is seen in the caller's object: the state
    does record what a method would change. *)
Example setitem_changes_shared :
  shared (world_after (H := lcg_numpy) (setitem "name" (PStr "renamed"))
            (mkWorld (H := lcg_numpy) daily_revenue 7%Z))
  <> daily_revenue.
Proof. vm_compute. discriminate. Qed.

(** The sample chart does depend on the random state. *)
Example sample_depends_on_random_state :
  result_of (H := lcg_numpy) generate_sample_visualization
    (mkWorld (H := lcg_numpy) daily_revenue 1%Z)
  <> result_of (H := lcg_numpy) generate_sample_visualization
       (mkWorld (H := lcg_numpy) daily_revenue 2%Z).
Proof.
  intros Heq.
  apply (f_equal (fun res => match res with
                             | Ok fig => series_length (H := lcg_numpy) (trace_y fig)
                                         + match trace_y fig with
                                           | Floats (v :: _) => Z.to_nat v
                                           | _ => 0
                                           end
                             | Raise _ => 0
                             end)) in Heq.
  vm_compute in Heq. discriminate Heq.
Qed.

(** ** The text the generator emits *)

Section GeneratorOutput.
Context `{Numpy} `{Builtins}.
Local Open Scope py_scope.

Lemma bind_stateless {A B} (m : Py A) (k : A -> Py B) w :
  stateless m ->
  bind m k w = match fst (m w) with
               | Ok a => k a w
               | Raise e => (Raise e, w)
               end.
Proof.
  intros Hm. unfold bind. pose proof (stateless_run m w Hm) as Hw.
  destruct (m w) as [[a|e] w']; simpl in *; now subst.
Qed.

Lemma enumerate_metrics_run w d items :
  shared w = PDict d -> dict_get d "metrics" = Some (PList items) ->
  enumerate_metrics w = (Ok (enumerate items), w).
Proof.
  intros Hw Hget. unfold enumerate_metrics, bind, param, lift, ret.
  rewrite Hw. simpl. now rewrite Hget.
Qed.

Lemma add_tab_run code i metric w :
  add_tab code (i, metric) w
  = (result_map
       (fun name => code +:+ "            dcc.Tab(label='" +:+ format_value name
                      +:+ "', value='tab-" +:+ str_of_nat i +:+ "')," +:+ nl)
       (py_getitem metric "name"), w).
Proof.
  unfold add_tab, bind, lift, ret. now destruct (py_getitem metric "name").
Qed.

Lemma add_entry_run code i metric w :
  add_entry code (i, metric) w
  = ((name <- py_getitem metric "name" ;;
      sql_query <- py_getitem metric "sql_query" ;;
      visualization_type <- py_getitem metric "visualization_type" ;;
      Ok (code +:+ "        'tab-" +:+ str_of_nat i +:+ "': {" +:+ nl
            +:+ "            'name': '" +:+ format_value name +:+ "'," +:+ nl
            +:+ "            'query': '''" +:+ format_value sql_query +:+ "'''," +:+ nl
            +:+ "            'type': '" +:+ format_value visualization_type +:+ "'" +:+ nl
            +:+ "        }," +:+ nl))%result, w).
Proof.
  unfold add_entry, bind, lift, ret, rbind.
  destruct (py_getitem metric "name"); [|reflexivity].
  destruct (py_getitem metric "sql_query"); [|reflexivity].
  now destruct (py_getitem metric "visualization_type").
Qed.




(** The generator, once the list of metrics is at hand: the two
    loops in turn, each from the text the previous step left. *)
Lemma generate_dashboard_code_run w d items :
  shared w = PDict d -> dict_get d "metrics" = Some (PList items) ->
  result_of generate_dashboard_code w
  = (code <- fst (for_each (enumerate items) add_tab (unlines header_lines) w) ;;
     code <- fst (for_each (enumerate items) add_entry
                    (code +:+ unlines callback_lines) w) ;;
     Ok (code +:+ unlines footer_lines))%result.
Proof.
  intros Hw Hget. unfold result_of, generate_dashboard_code.
  pose proof add_tab_stateless as Htab. pose proof add_entry_stateless as Hentry.
  rewrite bind_stateless by apply enumerate_metrics_stateless.
  rewrite (enumerate_metrics_run w d items Hw Hget). cbn [fst].
  rewrite bind_stateless by (apply stateless_for_each; auto).
  unfold rbind.
  destruct (fst (for_each (enumerate items) add_tab _ w)) as [code|e];
    [|reflexivity].
  rewrite bind_stateless by apply enumerate_metrics_stateless.
  rewrite (enumerate_metrics_run w d items Hw Hget). cbn [fst].
  rewrite bind_stateless by (apply stateless_for_each; auto).
  now destruct (fst (for_each (enumerate items) add_entry _ w)).
Qed.

End GeneratorOutput.

(** ** Tabs and lookup entries, counted in the text *)

Section Counting.
Context `{Numpy} `{Builtins}.






















End Counting.


(** A query laid out on several lines is counted like any other. *)
Example several_lines_of_query_are_quiet :
  forallb (quiet (H0 := opaque_builtins))
    (enumerate
       [PDict [("name", PStr "Orders");
               ("sql_query", PStr ("SELECT COUNT(*)" +:+ nl +:+ "        FROM orders"
                                     +:+ nl +:+ "        WHERE total > 0"));
               ("visualization_type", PStr "bar")]])
  = true.
Proof. vm_compute. reflexivity. Qed.


(** ** The empty MetricSet *)

Section Empty.
Context `{Numpy} `{Builtins}.

End Empty.


(** With one entry emitted, the routine does render that tab. *)
Example update_metric_renders_an_entry :
  update_metric 1 "tab-0" = render_entry "tab-0".
Proof. reflexivity. Qed.

(** ** The fields the generator reads *)

Section Agreement.
Context `{Numpy} `{Builtins}.

Lemma agree_fields metric1 metric2 :
  agree metric1 metric2 ->
  py_getitem metric1 "name" = py_getitem metric2 "name"
  /\ py_getitem metric1 "sql_query" = py_getitem metric2 "sql_query"
  /\ py_getitem metric1 "visualization_type" = py_getitem metric2 "visualization_type".
Proof.
  unfold agree, rendered_fields. intros Hagree.
  inversion_clear Hagree as [|? ? Hname Hrest].
  inversion_clear Hrest as [|? ? Hsql Hrest'].
  inversion_clear Hrest' as [|? ? Hvt _].
  now repeat split.
Qed.

Lemma add_tabs_agree items1 items2 :
  Forall2 agree items1 items2 ->
  forall k code w1 w2,
    fst (for_each (enumerate_from k items1) add_tab code w1)
    = fst (for_each (enumerate_from k items2) add_tab code w2).
Proof.
  induction 1 as [|metric1 metric2 items1 items2 Hagree _ IH]; intros k code w1 w2;
    [reflexivity|].
  destruct (agree_fields _ _ Hagree) as (Hname & _ & _).
  cbn [enumerate_from for_each]. unfold bind. rewrite !add_tab_run, Hname.
  destruct (py_getitem metric2 "name"); cbn [result_map]; [apply IH | reflexivity].
Qed.

Lemma add_entries_agree items1 items2 :
  Forall2 agree items1 items2 ->
  forall k code w1 w2,
    fst (for_each (enumerate_from k items1) add_entry code w1)
    = fst (for_each (enumerate_from k items2) add_entry code w2).
Proof.
  induction 1 as [|metric1 metric2 items1 items2 Hagree _ IH]; intros k code w1 w2;
    [reflexivity|].
  destruct (agree_fields _ _ Hagree) as (Hname & Hsql & Hvt).
  cbn [enumerate_from for_each]. unfold bind.
  rewrite !add_entry_run, Hname, Hsql, Hvt. unfold rbind.
  destruct (py_getitem metric2 "name"); [|reflexivity].
  destruct (py_getitem metric2 "sql_query"); [|reflexivity].
  destruct (py_getitem metric2 "visualization_type"); [apply IH | reflexivity].
Qed.

(** C9. The generator's output depends on the metrics only through
    their name, query and visualization type: two MetricSets of the
    same length whose metrics agree pairwise on these three fields
    give the same result, whatever else the metrics or the sets hold
    and whatever the state of the random generator. *)
Theorem generate_dashboard_code_reads_three_fields (w1 w2 : World) d1 d2 items1 items2 :
  shared w1 = PDict d1 -> dict_get d1 "metrics" = Some (PList items1) ->
  shared w2 = PDict d2 -> dict_get d2 "metrics" = Some (PList items2) ->
  Forall2 agree items1 items2 ->
  result_of generate_dashboard_code w1 = result_of generate_dashboard_code w2.
Proof.
  intros Hw1 Hget1 Hw2 Hget2 Hagree.
  rewrite (generate_dashboard_code_run w1 d1 items1 Hw1 Hget1).
  rewrite (generate_dashboard_code_run w2 d2 items2 Hw2 Hget2).
  unfold enumerate.
  rewrite (add_tabs_agree _ _ Hagree 0 (unlines header_lines) w1 w2).
  unfold rbind.
  destruct (fst (for_each (enumerate_from 0 items2) add_tab _ w2)) as [code|e];
    [|reflexivity].
  now rewrite (add_entries_agree _ _ Hagree 0 (code +:+ unlines callback_lines) w1 w2).
Qed.
End Agreement.

Lemma generate_dashboard_code_reads_three_fields_witness :
  result_of (generate_dashboard_code (H := lcg_numpy) (H0 := opaque_builtins))
    (mkWorld (H := lcg_numpy) (metric_set [daily_revenue]) 7%Z)
  = result_of (generate_dashboard_code (H := lcg_numpy) (H0 := opaque_builtins))
      (mkWorld (H := lcg_numpy)
         (PDict [("model", PStr "sonnet"); ("metrics", PList [daily_revenue_redescribed])])
         11%Z).
Proof.
  apply (generate_dashboard_code_reads_three_fields (H := lcg_numpy) (H0 := opaque_builtins)
           (mkWorld (H := lcg_numpy) (metric_set [daily_revenue]) 7%Z)
           (mkWorld (H := lcg_numpy)
              (PDict [("model", PStr "sonnet");
                      ("metrics", PList [daily_revenue_redescribed])])
              11%Z)
           [("metrics", PList [daily_revenue])]
           [("model", PStr "sonnet"); ("metrics", PList [daily_revenue_redescribed])]
           [daily_revenue] [daily_revenue_redescribed]
           eq_refl eq_refl eq_refl eq_refl).
  repeat constructor.
Defined.

(** ** The sample chart *)

Section SampleChart.
Context `{Numpy} `{Builtins}.
Local Open Scope py_scope.

Lemma bind_run {A B} (m : Py A) (k : A -> Py B) w a w' :
  m w = (Ok a, w') -> bind m k w = k a w'.
Proof. intros Hm. unfold bind. now rewrite Hm. Qed.

Lemma bind_raise {A B} (m : Py A) (k : A -> Py B) w e w' :
  m w = (Raise e, w') -> bind m k w = (Raise e, w').
Proof. intros Hm. unfold bind. now rewrite Hm. Qed.

Lemma draws_run {A} (f : RandomState -> A * RandomState) size w :
  exists values rs',
    draws f size w = (Ok values, mkWorld (shared w) rs') /\ length values = size.
Proof.
  revert w. induction size as [|size IH]; intros w.
  - exists [], (np_random w). destruct w. now split.
  - cbn [draws]. unfold bind at 1. unfold draw at 1.
    destruct (f (np_random w)) as [a rs] eqn:Hf.
    destruct (IH (mkWorld (shared w) rs)) as (values & rs' & Hrun & Hlen).
    exists (a :: values), rs'. cbn [shared] in Hrun.
    rewrite (bind_run _ _ _ _ _ Hrun). unfold ret. cbn [length]. now rewrite Hlen.
Qed.

Lemma length_cumsum_from acc a : length (cumsum_from acc a) = length a.
Proof. revert acc. induction a; intros acc; simpl; auto. Qed.

Lemma length_np_cumsum a : length (np_cumsum a) = length a.
Proof. destruct a; simpl; [reflexivity|]. now rewrite length_cumsum_from. Qed.

Lemma length_date_range start periods : length (date_range start periods) = periods.
Proof. revert start. induction periods; intros start; simpl; auto. Qed.

Lemma visualization_type_lower_run w vt :
  py_getitem (shared w) "visualization_type" = Ok (PStr vt) ->
  visualization_type_lower w = (Ok (lower vt), w).
Proof.
  intros Hvt. unfold visualization_type_lower, bind, param, lift. cbn [fst snd].
  now rewrite Hvt.
Qed.

(** A branch of the visualizer: the draws, then the name, then the
    figure built from both. *)
Lemma sample_run {A} (f : RandomState -> A * RandomState) size
  (build : list A -> pyval -> Figure) w :
  exists values rs',
    length values = size
    /\ (values <- draws f size ;; name <- metric_name ;; ret (build values name)) w
       = (result_map (build values) (py_getitem (shared w) "name"),
          mkWorld (shared w) rs').
Proof.
  destruct (draws_run f size w) as (values & rs' & Hrun & Hlen).
  exists values, rs'. split; [exact Hlen|].
  rewrite (bind_run _ _ _ _ _ Hrun).
  unfold metric_name, bind, param, lift, ret. cbn [shared fst snd].
  now destruct (py_getitem (shared w) "name").
Qed.

(** The visualizer on a metric whose visualization type is a string:
    the chart is the one the lowered type selects, with the number of
    points of its kind; the name is looked up after the draws. *)
Lemma generate_sample_visualization_run w vt :
  py_getitem (shared w) "visualization_type" = Ok (PStr vt) ->
  exists (x : list date) (y : series) (labels : list string) rs',
    generate_sample_visualization w
    = (result_map
         (fun name => mkFigure (chart_of (lower vt)) x y labels name fixed_layout)
         (py_getitem (shared w) "name"),
       mkWorld (shared w) rs')
    /\ series_length y = points_of (chart_of (lower vt))
    /\ (chart_of (lower vt) = Pie -> x = [] /\ labels = category_labels)
    /\ (chart_of (lower vt) <> Pie -> length x = 30 /\ labels = []).
Proof.
  intros Hvt. pose proof (visualization_type_lower_run w vt Hvt) as Hlower.
  unfold generate_sample_visualization, chart_of.
  rewrite (bind_run _ _ _ _ _ Hlower).
  destruct (String.eqb (lower vt) "line") eqn:Eline.
  { destruct (sample_run (normal1 10 2) 30
                (fun values name =>
                   px_line (date_range (mkDate 2024 1 1) 30)
                     (Floats (np_cumsum values)) name) w)
      as (values & rs' & Hlen & Hrun).
    exists (date_range (mkDate 2024 1 1) 30), (Floats (np_cumsum values)), [], rs'.
    unfold np_random_normal. unfold bind at 1. rewrite Hrun.
    repeat split; try discriminate.
    - now destruct (py_getitem (shared w) "name").
    - cbn [series_length points_of]. now rewrite length_np_cumsum. }
  unfold bind at 1. unfold bind at 1. rewrite Hlower.
  destruct (String.eqb (lower vt) "bar") eqn:Ebar.
  { destruct (sample_run (randint1 10 100) 30
                (fun values name =>
                   px_bar (date_range (mkDate 2024 1 1) 30) (Ints values) name) w)
      as (values & rs' & Hlen & Hrun).
    exists (date_range (mkDate 2024 1 1) 30), (Ints values), [], rs'.
    unfold np_random_randint. rewrite Hrun.
    repeat split; try discriminate.
    - now destruct (py_getitem (shared w) "name").
    - exact Hlen. }
  unfold bind at 1. rewrite Hlower.
  destruct (String.eqb (lower vt) "pie") eqn:Epie.
  { destruct (sample_run (randint1 10 100) 4
                (fun values name => px_pie (Ints values) category_labels name) w)
      as (values & rs' & Hlen & Hrun).
    exists [], (Ints values), category_labels, rs'.
    unfold np_random_randint. fold category_labels. rewrite Hrun.
    repeat split; try congruence.
    - now destruct (py_getitem (shared w) "name").
    - exact Hlen. }
  destruct (sample_run (randint1 10 100) 30
              (fun values name =>
                 px_scatter (date_range (mkDate 2024 1 1) 30) (Ints values) name) w)
    as (values & rs' & Hlen & Hrun).
  exists (date_range (mkDate 2024 1 1) 30), (Ints values), [], rs'.
  unfold np_random_randint. rewrite Hrun.
  repeat split; try discriminate.
  - now destruct (py_getitem (shared w) "name").
  - exact Hlen.
Qed.

Lemma generate_sample_visualization_no_type w e :
  py_getitem (shared w) "visualization_type" = Raise e ->
  generate_sample_visualization w = (Raise e, w).
Proof.
  intros Hvt. unfold generate_sample_visualization.
  apply bind_raise. unfold visualization_type_lower, bind, param, lift.
  cbn [fst snd]. now rewrite Hvt.
Qed.
End SampleChart.

Section DeclaredKind.
Context `{Numpy} `{Builtins}.

(** C4. For a metric with a name and a visualization type, both
    strings, the visualizer returns a chart titled with the name, in
    the fixed layout; the type, lowered, selects the chart: [line] and
    [bar] give 30 points over the 30 dates, [pie] gives 4 values over
    the 4 category labels, and any other string gives the scatter chart
    of 30 points. *)
Theorem sample_chart_follows_declared_kind (w : World) (name vt : string) :
  py_getitem (shared w) "name" = Ok (PStr name) ->
  py_getitem (shared w) "visualization_type" = Ok (PStr vt) ->
  exists fig,
    result_of generate_sample_visualization w = Ok fig
    /\ title fig = PStr name
    /\ layout fig = fixed_layout
    /\ (lower vt = "line" ->
        kind fig = Line /\ series_length (trace_y fig) = 30
        /\ length (trace_x fig) = 30)
    /\ (lower vt = "bar" ->
        kind fig = Bar /\ series_length (trace_y fig) = 30
        /\ length (trace_x fig) = 30)
    /\ (lower vt = "pie" ->
        kind fig = Pie /\ series_length (trace_y fig) = 4
        /\ trace_names fig = category_labels)
    /\ (lower vt <> "line" -> lower vt <> "bar" -> lower vt <> "pie" ->
        kind fig = Scatter /\ series_length (trace_y fig) = 30
        /\ length (trace_x fig) = 30).
Proof.
  intros Hname Hvt.
  destruct (generate_sample_visualization_run w vt Hvt)
    as (x & y & labels & rs' & Hrun & Hlen & Hpie & Hother).
  rewrite Hname in Hrun. cbn [result_map] in Hrun.
  eexists. unfold result_of. rewrite Hrun. cbn [fst title layout kind trace_x trace_y trace_names].
  split; [reflexivity|]. split; [reflexivity|]. split; [reflexivity|].
  unfold chart_of in *.
  split; [|split; [|split]].
  - intros E. rewrite E in Hlen, Hother |- *. simpl in Hlen, Hother |- *.
    destruct Hother as [Hx _]; [discriminate|]. now repeat split.
  - intros E. rewrite E in Hlen, Hother |- *. simpl in Hlen, Hother |- *.
    destruct Hother as [Hx _]; [discriminate|]. now repeat split.
  - intros E. rewrite E in Hlen, Hpie |- *. simpl in Hlen, Hpie |- *.
    destruct Hpie as [_ Hlabels]; [reflexivity|]. now repeat split.
  - intros E1 E2 E3. apply String.eqb_neq in E1, E2, E3.
    rewrite E1, E2, E3 in Hlen, Hother |- *. simpl in Hlen.
    destruct Hother as [Hx _]; [discriminate|]. now repeat split.
Qed.

End DeclaredKind.

Lemma sample_chart_follows_declared_kind_witness :
  exists fig,
    result_of (generate_sample_visualization (H := lcg_numpy))
      (mkWorld (H := lcg_numpy) (with_type "Pie") 7%Z) = Ok fig
    /\ title fig = PStr "Orders"
    /\ kind fig = Pie
    /\ series_length (trace_y fig) = 4
    /\ trace_names fig = category_labels.
Proof.
  destruct (sample_chart_follows_declared_kind (H := lcg_numpy)
              (mkWorld (H := lcg_numpy) (with_type "Pie") 7%Z) "Orders" "Pie"
              eq_refl eq_refl)
    as (fig & Hres & Htitle & _ & _ & _ & Hpie & _).
  destruct (Hpie eq_refl) as (Hkind & Hlen & Hnames).
  exists fig. repeat split; assumption.
Defined.


(** The thirty dates run from the first to the thirtieth of January
    2024; a range that crosses the end of February of that year. *)
Example date_range_january :
  last (date_range (mkDate 2024 1 1) 30) = Some (mkDate 2024 1 30)
  /\ date_range (mkDate 2024 2 28) 3
     = [mkDate 2024 2 28; mkDate 2024 2 29; mkDate 2024 3 1].
Proof. split; reflexivity. Qed.

(** The kinds chosen for a few declared types. *)
Example kinds_chosen :
  map (fun vt => result_map kind
                   (result_of (generate_sample_visualization (H := lcg_numpy))
                      (mkWorld (H := lcg_numpy) (with_type vt) 7%Z)))
    ["line"; "LINE"; "Line"; "bar"; "Bar"; "pie"; "scatter"; EmptyString; "heatmap";
     "line "]
  = [Ok Line; Ok Line; Ok Line; Ok Bar; Ok Bar; Ok Pie; Ok Scatter; Ok Scatter;
     Ok Scatter; Ok Scatter].
Proof. vm_compute. reflexivity. Qed.

(** ** [json.loads] raises nothing but a decoding error

    The fuel of the decoder is never used up: whatever the text, a
    failure of [json.loads] is a [JSONDecodeError]. *)

Module json_facts.
Import json.
Local Open Scope result_scope.

Lemma well_behaved_shorter {A} (s s' : string) (res : Result (A * string)) :
  String.length s <= String.length s' -> well_behaved s res -> well_behaved s' res.
Proof. destruct res as [[a rest]|e]; cbn; [lia | auto]. Qed.

Lemma length_skip_ws s : String.length (skip_ws s) <= String.length s.
Proof.
  induction s as [|c s IH]; cbn [skip_ws]; [lia|].
  destruct (is_ws c); cbn [String.length]; lia.
Qed.

Lemma length_strip_prefix p s rest :
  strip_prefix p s = Some rest -> String.length rest <= String.length s.
Proof.
  revert s. induction p as [|a p IH]; intros s; cbn [strip_prefix].
  - now intros [= ->].
  - destruct s as [|c s]; [discriminate|].
    destruct (Ascii.eqb a c); [|discriminate].
    intros Hp. apply IH in Hp. cbn [String.length]. lia.
Qed.

Lemma length_span_digits s ds rest :
  span_digits s = (ds, rest) -> String.length rest <= String.length s.
Proof.
  revert ds rest. induction s as [|c s IH]; intros ds rest; cbn [span_digits].
  - now intros [= <- <-].
  - destruct (is_digit c).
    + destruct (span_digits s) as [ds' rest'] eqn:E. intros [= <- <-].
      specialize (IH _ _ eq_refl). cbn [String.length]. lia.
    + now intros [= <- <-].
Qed.

Lemma length_match_digits (sign body literal rest : string) :
  match body with
  | String "0" rest0 => Some ((sign +:+ String "0" EmptyString)%string, rest0)
  | String c _ =>
      if is_digit c
      then let '(ds, rest0) := span_digits body in Some ((sign +:+ ds)%string, rest0)
      else None
  | EmptyString => None
  end = Some (literal, rest) ->
  String.length rest <= String.length body.
Proof.
  destruct body as [|c body]; [discriminate|].
  pose proof (length_span_digits body) as Hspan.
  destruct (span_digits body) as [ds rest0] eqn:E. specialize (Hspan _ _ eq_refl).
  destruct c as [[] [] [] [] [] [] [] []]; cbn; rewrite ?E; try discriminate;
    intros [= <- <-]; lia.
Qed.

Lemma length_match_integer s literal rest :
  match_integer s = Some (literal, rest) -> String.length rest <= String.length s.
Proof.
  unfold match_integer. destruct s as [|c s]; [discriminate|].
  destruct (Ascii.eqb c "-") eqn:Ec.
  - apply Ascii.eqb_eq in Ec. subst c. intros Hm.
    apply (length_match_digits (String "-" EmptyString) s literal rest) in Hm.
    cbn [String.length]. lia.
  - assert (Hs : match String c s with
                 | String "-" rest0 => (String "-" EmptyString, rest0)
                 | _ => (EmptyString, String c s)
                 end = (EmptyString, String c s)).
    { destruct c as [[] [] [] [] [] [] [] []]; try reflexivity. discriminate. }
    rewrite Hs. intros Hm.
    exact (length_match_digits EmptyString (String c s) literal rest Hm).
Qed.

Lemma length_match_frac s frac rest :
  match_frac s = (frac, rest) -> String.length rest <= String.length s.
Proof.
  unfold match_frac. destruct s as [|c s]; [now intros [= <- <-]|].
  destruct (span_digits s) as [ds rest0] eqn:E. apply length_span_digits in E.
  destruct c as [[] [] [] [] [] [] [] []]; try (now intros [= <- <-]).
  destruct ds; intros [= <- <-]; cbn [String.length] in *; lia.
Qed.

Lemma length_match_exp s exp rest :
  match_exp s = (exp, rest) -> String.length rest <= String.length s.
Proof.
  unfold match_exp. destruct s as [|e s]; [now intros [= <- <-]|].
  destruct (Ascii.eqb e "e" || Ascii.eqb e "E"); [|now intros [= <- <-]].
  destruct s as [|c s].
  - cbn. now intros [= <- <-].
  - destruct (Ascii.eqb c "-" || Ascii.eqb c "+").
    + destruct (span_digits s) as [ds rest0] eqn:E. apply length_span_digits in E.
      destruct ds; intros [= <- <-]; cbn [String.length] in *; lia.
    + destruct (span_digits (String c s)) as [ds rest0] eqn:E.
      apply length_span_digits in E.
      destruct ds; intros [= <- <-]; cbn [String.length] in *; lia.
Qed.

Lemma length_match_number s v rest :
  match_number s = Some (v, rest) -> String.length rest <= String.length s.
Proof.
  unfold match_number.
  destruct (match_integer s) as [[integer rest0]|] eqn:Ei; [|discriminate].
  apply length_match_integer in Ei.
  destruct (match_frac rest0) as [frac rest1] eqn:Ef. apply length_match_frac in Ef.
  destruct (match_exp rest1) as [exp rest2] eqn:Ee. apply length_match_exp in Ee.
  destruct frac, exp; intros [= <- <-]; lia.
Qed.

Lemma length_scan_constant s v rest :
  scan_constant s = Some (v, rest) -> String.length rest <= String.length s.
Proof.
  unfold scan_constant.
  repeat match goal with
         | |- context [strip_prefix ?p s] =>
             let E := fresh "E" in
             destruct (strip_prefix p s) eqn:E;
             [apply length_strip_prefix in E; now intros [= <- <-]|]
         | |- context [match_number s] =>
             let E := fresh "E" in
             destruct (match_number s) as [[v0 r0]|] eqn:E;
             [apply length_match_number in E; now intros [= <- <-]|]
         end.
  discriminate.
Qed.

Lemma length_decode_uXXXX s uni rest :
  decode_uXXXX s = Some (uni, rest) -> String.length rest <= String.length s.
Proof.
  unfold decode_uXXXX.
  destruct s as [|a [|b [|c [|d s]]]]; try discriminate.
  destruct (hex_value a), (hex_value b), (hex_value c), (hex_value d);
    try discriminate.
  intros [= <- <-]. cbn [String.length]. lia.
Qed.

Lemma scan_unicode_escape_well_behaved s :
  well_behaved s (scan_unicode_escape s).
Proof.
  unfold scan_unicode_escape.
  destruct (decode_uXXXX s) as [[uni rest]|] eqn:E; [|reflexivity].
  apply length_decode_uXXXX in E.
  destruct ((55296 <=? uni)%N && (uni <=? 56319)%N); [|exact E].
  destruct rest as [|c1 rest1]; [exact E|].
  destruct c1 as [[] [] [] [] [] [] [] []]; try exact E.
  destruct rest1 as [|c2 rest2]; [exact E|].
  destruct c2 as [[] [] [] [] [] [] [] []]; try exact E.
  destruct (decode_uXXXX rest2) as [[uni2 rest3]|] eqn:E3; [|reflexivity].
  apply length_decode_uXXXX in E3.
  destruct ((56320 <=? uni2)%N && (uni2 <=? 57343)%N); cbn [well_behaved];
    cbn [String.length] in *; lia.
Qed.

Lemma scanstring_well_behaved fuel :
  forall s, String.length s < fuel -> well_behaved s (scanstring fuel s).
Proof.
  induction fuel as [|fuel IH]; intros s Hlt; [lia|].
  cbn [scanstring]. destruct s as [|c rest]; [reflexivity|].
  cbn [String.length] in Hlt.
  assert (Hrest : forall rest' (k : string -> string),
             String.length rest' <= String.length rest ->
             well_behaved (String c rest)
               (found <- scanstring fuel rest' ;;
                let '(tail, rest'') := found in Ok (k tail, rest''))).
  { intros rest' k Hle. specialize (IH rest' ltac:(lia)).
    destruct (scanstring fuel rest') as [[tail rest'']|e]; cbn in *; [lia | auto]. }
  destruct (Ascii.eqb c "034"); [cbn; lia|].
  destruct (Ascii.eqb c "\").
  - destruct rest as [|esc rest]; [reflexivity|].
    destruct (Ascii.eqb esc "u").
    + pose proof (scan_unicode_escape_well_behaved rest) as Hesc.
      destruct (scan_unicode_escape rest) as [[uni rest']|e]; cbn [rbind];
        [|exact Hesc].
      cbn [well_behaved] in Hesc.
      specialize (IH rest' ltac:(cbn [String.length] in Hlt; lia)).
      destruct (scanstring fuel rest') as [[tail rest'']|e]; cbn in *; [lia | auto].
    + destruct (backslash esc); [|reflexivity].
      specialize (IH rest ltac:(cbn [String.length] in Hlt; lia)).
      destruct (scanstring fuel rest) as [[tail rest'']|e]; cbn in *; [lia | auto].
  - destruct (nat_of_ascii c <? 32)%nat; [reflexivity|].
    apply (Hrest rest (String c)). lia.
Qed.

Section Containers.
Variable scan_once : string -> Result (pyval * string).
Variable bound : nat.
Hypothesis scan_once_well_behaved :
  forall s, String.length s <= bound -> well_behaved s (scan_once s).

Lemma array_values_well_behaved fuel :
  forall s, String.length s <= bound -> String.length s < fuel ->
            well_behaved s (array_values scan_once fuel s).
Proof.
  induction fuel as [|fuel IH]; intros s Hbound Hlt; [lia|].
  cbn [array_values].
  pose proof (scan_once_well_behaved s Hbound) as Hscan.
  destruct (scan_once s) as [[value rest]|e]; cbn [rbind]; [|exact Hscan].
  cbn [well_behaved] in Hscan.
  pose proof (length_skip_ws rest) as Hws.
  destruct (skip_ws rest) as [|c rest']; [reflexivity|].
  cbn [String.length] in Hws.
  pose proof (length_skip_ws rest') as Hws'.
  specialize (IH (skip_ws rest') ltac:(lia) ltac:(lia)).
  destruct c as [[] [] [] [] [] [] [] []]; try reflexivity.
  - cbn [well_behaved]. lia.
  - destruct (array_values scan_once fuel (skip_ws rest')) as [[values rest'']|e];
      cbn in *; [lia | auto].
Qed.

Lemma JSONArray_well_behaved s :
  String.length s <= bound -> well_behaved s (JSONArray scan_once s).
Proof.
  intros Hbound. unfold JSONArray.
  pose proof (length_skip_ws s) as Hws.
  pose proof (array_values_well_behaved (fuel_for (skip_ws s)) (skip_ws s)
                ltac:(lia) ltac:(unfold fuel_for; lia)) as Hvalues.
  destruct (skip_ws s) as [|c rest] eqn:E.
  - destruct (array_values _ _ _) as [[values rest']|e]; cbn in *; [lia | auto].
  - assert (Hgeneral :
             well_behaved s
               (found <- array_values scan_once (fuel_for (String c rest)) (String c rest) ;;
                let '(values, rest0) := found in Ok (PList values, rest0))).
    { destruct (array_values _ _ _) as [[values rest']|e]; cbn in *; [lia | auto]. }
    destruct c as [[] [] [] [] [] [] [] []]; try exact Hgeneral.
    cbn [well_behaved String.length] in *. lia.
Qed.

Lemma object_pairs_well_behaved fuel :
  forall pairs s, String.length s <= bound -> String.length s < fuel ->
                  well_behaved s (object_pairs scan_once fuel pairs s).
Proof.
  induction fuel as [|fuel IH]; intros pairs s Hbound Hlt; [lia|].
  cbn [object_pairs].
  pose proof (scanstring_well_behaved (fuel_for s) s ltac:(unfold fuel_for; lia)) as Hkey.
  destruct (scanstring (fuel_for s) s) as [[key rest]|e]; cbn [rbind]; [|exact Hkey].
  cbn [well_behaved] in Hkey.
  pose proof (length_skip_ws rest) as Hws.
  destruct (skip_ws rest) as [|c rest1]; [reflexivity|].
  cbn [String.length] in Hws.
  pose proof (length_skip_ws rest1) as Hws1.
  pose proof (scan_once_well_behaved (skip_ws rest1) ltac:(lia)) as Hvalue.
  destruct c as [[] [] [] [] [] [] [] []]; try reflexivity.
  destruct (scan_once (skip_ws rest1)) as [[value rest2]|e]; cbn [rbind];
    [|exact Hvalue].
  cbn [well_behaved] in Hvalue.
  pose proof (length_skip_ws rest2) as Hws2.
  destruct (skip_ws rest2) as [|c2 rest3]; [reflexivity|].
  cbn [String.length] in Hws2.
  pose proof (length_skip_ws rest3) as Hws3.
  destruct (skip_ws rest3) as [|c3 rest4] eqn:E3.
  - destruct c2 as [[] [] [] [] [] [] [] []]; try reflexivity.
    cbn [well_behaved]. lia.
  - cbn [String.length] in Hws3.
    specialize (IH (dict_set pairs key value) rest4 ltac:(lia) ltac:(lia)).
    destruct c2 as [[] [] [] [] [] [] [] []]; try reflexivity.
    + cbn [well_behaved]. lia.
    + destruct c3 as [[] [] [] [] [] [] [] []]; try reflexivity.
      apply (well_behaved_shorter rest4); [lia | exact IH].
Qed.

Lemma JSONObject_well_behaved s :
  String.length s <= bound -> well_behaved s (JSONObject scan_once s).
Proof.
  intros Hbound. unfold JSONObject.
  pose proof (length_skip_ws s) as Hws.
  destruct (skip_ws s) as [|c rest]; [reflexivity|].
  cbn [String.length] in Hws.
  pose proof (object_pairs_well_behaved (fuel_for rest) [] rest
                ltac:(lia) ltac:(unfold fuel_for; lia)) as Hpairs.
  destruct c as [[] [] [] [] [] [] [] []]; try reflexivity.
  - cbn [well_behaved]. lia.
  - apply (well_behaved_shorter rest); [lia | exact Hpairs].
Qed.
End Containers.

Lemma scan_once_well_behaved fuel :
  forall s, String.length s < fuel -> well_behaved s (scan_once fuel s).
Proof.
  induction fuel as [|fuel IH]; intros s Hlt; [lia|].
  cbn [scan_once].
  assert (Hconstant : well_behaved s
                        match scan_constant s with
                        | Some found => Ok found
                        | None => Raise JSONDecodeError
                        end).
  { destruct (scan_constant s) as [[v rest]|] eqn:E; [|reflexivity].
    apply length_scan_constant in E. exact E. }
  destruct s as [|c rest]; [exact Hconstant|].
  cbn [String.length] in Hlt.
  pose proof (scanstring_well_behaved (fuel_for rest) rest
                ltac:(unfold fuel_for; lia)) as Hstring.
  pose proof (JSONObject_well_behaved (scan_once fuel) (String.length rest)
                ltac:(intros s' Hs'; apply IH; lia) rest ltac:(lia)) as Hobject.
  pose proof (JSONArray_well_behaved (scan_once fuel) (String.length rest)
                ltac:(intros s' Hs'; apply IH; lia) rest ltac:(lia)) as Harray.
  destruct c as [[] [] [] [] [] [] [] []]; try exact Hconstant.
  - apply (well_behaved_shorter rest); [cbn [String.length]; lia | exact Hobject].
  - apply (well_behaved_shorter rest); [cbn [String.length]; lia | exact Harray].
  - destruct (scanstring (fuel_for rest) rest) as [[str rest']|e]; cbn in *;
      [lia | auto].
Qed.

End json_facts.

(** ** The Metric Proposer *)

Lemma analyze_schema_loads self schema_content description response text rest :
  anthropic.messages_create (client self)
    (request_for (prompt_of schema_content description)) = Ok response ->
  anthropic.content response = anthropic.TextBlock text :: rest ->
  analyze_schema self schema_content description = json.loads text.
Proof.
  intros Hresponse Hcontent. unfold analyze_schema.
  rewrite Hresponse. cbn [rbind]. now rewrite Hcontent.
Qed.




(** A failure of the transport reaches the caller as it is. *)
Lemma analyze_schema_transport_failure self schema_content description e :
  anthropic.messages_create (client self)
    (request_for (prompt_of schema_content description)) = Raise e ->
  analyze_schema self schema_content description = Raise e.
Proof. intros Hresponse. unfold analyze_schema. now rewrite Hresponse. Qed.

Example analyze_schema_scenario :
  analyze_schema (answering daily_revenue_answer) "CREATE TABLE orders (id INT, total FLOAT);"
    "e-commerce order tracking"
  = Ok (metric_set [daily_revenue]).
Proof. vm_compute. reflexivity. Qed.

(** ** The Schema Normalizer *)

Section Normalizer.
Context `{sqlparse.Library}.

End Normalizer.


(** Order and multiplicity on an example: the unrecognized statement
    in the middle is dropped, and the statement that occurs twice is
    kept twice. *)
Example parse_sql_file_example :
  parse_sql_file (H := semicolon_sqlparse)
    "CREATE TABLE t (id INT);lorem ipsum;SELECT 1;SELECT 1;"
  = "CREATE TABLE t (id INT);" +:+ nl +:+ "SELECT 1;" +:+ nl +:+ "SELECT 1;".
Proof. vm_compute. reflexivity. Qed.

(** ** Metrics that miss a field *)

Section MissingFields.
Context `{Numpy} `{Builtins}.
Local Open Scope py_scope.











Lemma forallb_In {A} (test : A -> bool) (items : list A) (item : A) :
  forallb test items = true -> In item items -> test item = true.
Proof. intros Hall Hin. rewrite forallb_forall in Hall. auto. Qed.



End MissingFields.

Section MissingFieldsClaim.
Context `{Numpy} `{Builtins}.

End MissingFieldsClaim.



(** The listing of [main] is where the missing description is met. *)
Example listing_misses_description :
  result_of (proposed_metrics (H := lcg_numpy) (H0 := opaque_builtins))
    (mkWorld (H := lcg_numpy) (metric_set [without_description]) 7%Z)
  = Raise (KeyError "description").
Proof. vm_compute. reflexivity. Qed.

(** ** The outcomes of the generator *)




Lemma first_error_none {A} (results : list (Result A)) :
  first_error results = None <-> forallb is_ok results = true.
Proof.
  induction results as [|[a|e] results IH]; simpl; [tauto|exact IH|].
  split; discriminate.
Qed.


Section GeneratorOutcomes.
Context `{Numpy} `{Builtins}.
Local Open Scope py_scope.

Lemma enumerate_metrics_listed w :
  enumerate_metrics w = (result_map enumerate (listed (shared w)), w).
Proof.
  unfold enumerate_metrics, listed, bind, param, lift, ret, rbind. cbn [fst snd].
  destruct (py_getitem (shared w) "metrics") as [found|]; [|reflexivity].
  now destruct (py_iter found).
Qed.

Lemma add_tabs_outcome items :
  forall k code w,
    for_each (enumerate_from k items) add_tab code w
    = (match first_error (names_read items) with
       | Some e => Raise e
       | None => Ok (code +:+ unlines (tab_lines_from k items))
       end, w).
Proof.
  induction items as [|metric items IH]; intros k code w.
  - cbn. unfold ret. now rewrite append_nil_r.
  - cbn [enumerate_from for_each names_read map first_error]. unfold bind.
    rewrite add_tab_run.
    destruct (py_getitem metric "name") as [name|e] eqn:Hname; cbn [result_map];
      [|reflexivity].
    rewrite IH. fold (names_read items).
    destruct (first_error (names_read items)); [reflexivity|].
    f_equal. f_equal. unfold tab_lines_from. cbn [enumerate_from map unlines fst snd].
    unfold field, tab_line. rewrite Hname. now rewrite !append_assoc.
Qed.

Lemma add_entries_outcome items :
  forallb is_ok (names_read items) = true ->
  forall k code w,
    for_each (enumerate_from k items) add_entry code w
    = (match first_error (entries_read items) with
       | Some e => Raise e
       | None => Ok (code +:+ unlines (entries_from k items))
       end, w).
Proof.
  induction items as [|metric items IH]; intros Hnames k code w.
  - cbn. unfold ret. now rewrite append_nil_r.
  - cbn [names_read map forallb] in Hnames. apply andb_prop in Hnames as [Hname Hnames].
    cbn [enumerate_from for_each entries_read flat_map app first_error]. unfold bind.
    rewrite add_entry_run.
    destruct (py_getitem metric "name") as [name|e] eqn:Ename; [|discriminate].
    cbn [rbind].
    destruct (py_getitem metric "sql_query") as [sql|e] eqn:Esql; cbn [rbind];
      [|reflexivity].
    destruct (py_getitem metric "visualization_type") as [vt|e] eqn:Evt; cbn [rbind];
      [|reflexivity].
    rewrite (IH Hnames). fold (entries_read items).
    destruct (first_error (entries_read items)); [reflexivity|].
    f_equal. f_equal. unfold entries_from. cbn [enumerate_from map concat fst snd].
    unfold field, entry_lines. rewrite Ename, Esql, Evt.
    cbn [app unlines]. now rewrite !append_assoc.
Qed.

(** The generator on an object whose [metrics] can be iterated. *)
Lemma generate_dashboard_code_listed w items :
  listed (shared w) = Ok items ->
  result_of generate_dashboard_code w
  = match first_error (names_read items) with
    | Some e => Raise e
    | None =>
        match first_error (entries_read items) with
        | Some e => Raise e
        | None =>
            Ok (unlines (header_lines ++ tab_lines_from 0 items ++ callback_lines
                           ++ entries_from 0 items ++ footer_lines))
        end
    end.
Proof.
  intros Hlisted. unfold result_of, generate_dashboard_code, bind.
  rewrite enumerate_metrics_listed, Hlisted. cbn [result_map]. unfold enumerate.
  rewrite add_tabs_outcome.
  destruct (first_error (names_read items)) eqn:Hnames; [reflexivity|].
  rewrite enumerate_metrics_listed, Hlisted. cbn [result_map]. unfold enumerate.
  rewrite add_entries_outcome by now apply first_error_none.
  destruct (first_error (entries_read items)); [reflexivity|].
  unfold ret. cbn [fst]. now rewrite !unlines_app, !append_assoc.
Qed.


Lemma renderable_reads items :
  forallb renderable items = true
  <-> first_error (names_read items) = None /\ first_error (entries_read items) = None.
Proof.
  induction items as [|metric items IH].
  - now split.
  - cbn [forallb names_read entries_read map flat_map app first_error].
    fold (names_read items). fold (entries_read items).
    unfold renderable at 1. cbn [forallb rendered_fields].
    destruct (py_getitem metric "name"), (py_getitem metric "sql_query"),
      (py_getitem metric "visualization_type"); cbn [is_ok andb];
      try (split; [discriminate | now intros [? ?]]).
    exact IH.
Qed.



End GeneratorOutcomes.

(** ** The identifiers of the tabs *)



Lemma length_append (a b : string) :
  String.length (a +:+ b) = String.length a + String.length b.
Proof.
  induction a as [|c a IH]; [reflexivity|]. rewrite append_cons. simpl. now rewrite IH.
Qed.







Section TabIds.
Context `{Numpy} `{Builtins}.


End TabIds.


(** ** The random numbers of the sample chart *)

Section SampleDraws.
Context `{Numpy} `{Builtins}.
Local Open Scope py_scope.

Lemma draws_sample {A} (f : RandomState -> A * RandomState) size w :
  draws f size w
  = (Ok (fst (sample f size (np_random w))),
     mkWorld (shared w) (snd (sample f size (np_random w)))).
Proof.
  revert w. induction size as [|size IH]; intros w.
  - now destruct w.
  - cbn [draws sample]. unfold bind at 1. unfold draw at 1.
    destruct (f (np_random w)) as [a rs]. unfold bind at 1. rewrite IH.
    cbn [shared np_random]. now destruct (sample f size rs).
Qed.

Lemma length_sample {A} (f : RandomState -> A * RandomState) size rs :
  length (fst (sample f size rs)) = size.
Proof.
  revert rs. induction size as [|size IH]; intros rs; [reflexivity|].
  cbn [sample]. destruct (f rs) as [a rs1]. specialize (IH rs1).
  destruct (sample f size rs1). cbn [fst length] in *. now rewrite IH.
Qed.

Lemma sample_Forall {A} (f : RandomState -> A * RandomState) (P : A -> Prop) size rs :
  (forall rs', P (fst (f rs'))) -> Forall P (fst (sample f size rs)).
Proof.
  intros Hf. revert rs. induction size as [|size IH]; intros rs; [constructor|].
  cbn [sample]. pose proof (Hf rs) as Ha. destruct (f rs) as [a rs1].
  specialize (IH rs1). destruct (sample f size rs1). cbn [fst] in *. now constructor.
Qed.

(** A branch of the visualizer, in terms of the numbers drawn. *)
Lemma branch_sample {A} (f : RandomState -> A * RandomState) size
  (build : list A -> pyval -> Figure) w :
  (values <- draws f size ;; name <- metric_name ;; ret (build values name)) w
  = (result_map (build (fst (sample f size (np_random w))))
       (py_getitem (shared w) "name"),
     mkWorld (shared w) (snd (sample f size (np_random w)))).
Proof.
  unfold bind at 1. rewrite draws_sample.
  unfold metric_name, bind, param, lift, ret. cbn [shared fst snd].
  now destruct (py_getitem (shared w) "name").
Qed.

(** The visualizer on a metric whose visualization type is a string:
    the figure of the chart declared, built from the numbers drawn for
    it, and the generator after those draws. *)
Lemma generate_sample_visualization_sampled w vt :
  py_getitem (shared w) "visualization_type" = Ok (PStr vt) ->
  generate_sample_visualization w
  = (result_map
       (sample_figure (chart_of (lower vt))
          (fst (sampled (chart_of (lower vt)) (np_random w))))
       (py_getitem (shared w) "name"),
     mkWorld (shared w) (snd (sampled (chart_of (lower vt)) (np_random w)))).
Proof.
  intros Hvt. pose proof (visualization_type_lower_run w vt Hvt) as Hlower.
  unfold generate_sample_visualization, chart_of, np_random_normal, np_random_randint.
  rewrite (bind_run _ _ _ _ _ Hlower).
  destruct (String.eqb (lower vt) "line") eqn:Eline.
  { unfold bind at 1.
    rewrite (branch_sample (normal1 10 2) 30
               (fun values name =>
                  px_line (date_range (mkDate 2024 1 1) 30)
                    (Floats (np_cumsum values)) name) w).
    unfold sampled. destruct (sample (normal1 10 2) 30 (np_random w)) as [values rs'].
    cbn [fst snd]. now destruct (py_getitem (shared w) "name"). }
  unfold bind at 1. unfold bind at 1. rewrite Hlower.
  destruct (String.eqb (lower vt) "bar") eqn:Ebar.
  { rewrite (branch_sample (randint1 10 100) 30
               (fun values name =>
                  px_bar (date_range (mkDate 2024 1 1) 30) (Ints values) name) w).
    unfold sampled. destruct (sample (randint1 10 100) 30 (np_random w)) as [values rs'].
    cbn [fst snd]. now destruct (py_getitem (shared w) "name"). }
  unfold bind at 1. rewrite Hlower.
  destruct (String.eqb (lower vt) "pie") eqn:Epie.
  { rewrite (branch_sample (randint1 10 100) 4
               (fun values name =>
                  px_pie (Ints values)
                    ["Category A"; "Category B"; "Category C"; "Category D"] name) w).
    unfold sampled. destruct (sample (randint1 10 100) 4 (np_random w)) as [values rs'].
    cbn [fst snd]. now destruct (py_getitem (shared w) "name"). }
  rewrite (branch_sample (randint1 10 100) 30
             (fun values name =>
                px_scatter (date_range (mkDate 2024 1 1) 30) (Ints values) name) w).
  unfold sampled. destruct (sample (randint1 10 100) 30 (np_random w)) as [values rs'].
  cbn [fst snd]. now destruct (py_getitem (shared w) "name").
Qed.

Lemma generate_sample_visualization_not_str w v :
  py_getitem (shared w) "visualization_type" = Ok v ->
  (forall vt, v <> PStr vt) ->
  generate_sample_visualization w = (Raise AttributeError, w).
Proof.
  intros Hvt Hv. unfold generate_sample_visualization.
  apply bind_raise. unfold visualization_type_lower, bind, param, lift.
  cbn [fst snd]. rewrite Hvt. destruct v; try reflexivity. now destruct (Hv s).
Qed.

(** What a figure returned by the visualizer is. *)
Lemma generate_sample_visualization_returns w fig :
  result_of generate_sample_visualization w = Ok fig ->
  exists c name,
    declared_chart (shared w) = Some c
    /\ py_getitem (shared w) "name" = Ok name
    /\ fig = sample_figure c (fst (sampled c (np_random w))) name.
Proof.
  unfold result_of, declared_chart. intros Hres.
  destruct (py_getitem (shared w) "visualization_type") as [v|e] eqn:Hvt.
  - destruct v as [| | | |vt| |];
      try (rewrite (generate_sample_visualization_not_str w _ Hvt) in Hres
             by discriminate; discriminate).
    rewrite (generate_sample_visualization_sampled w vt Hvt) in Hres. cbn [fst] in Hres.
    destruct (py_getitem (shared w) "name") as [name|]; [|discriminate].
    injection Hres as <-. now exists (chart_of (lower vt)), name.
  - rewrite (generate_sample_visualization_no_type w e Hvt) in Hres. discriminate.
Qed.

(** X6 (visualizer, the random numbers consumed): the visualizer draws
    from numpy's generator exactly when the visualization type of the
    metric is a string.  Then the generator is left after the 30 draws
    of the chart declared (4 for a pie), also when the call goes on to
    fail on the name; otherwise the call fails with the generator as it
    was.  The metric is left as it was in every case. *)
Theorem visualizer_draws_when_type_is_string (w : World) :
  match declared_chart (shared w) with
  | Some c =>
      world_after generate_sample_visualization w
      = mkWorld (shared w) (snd (sampled c (np_random w)))
  | None => exists e, generate_sample_visualization w = (Raise e, w)
  end.
Proof.
  unfold declared_chart, world_after.
  destruct (py_getitem (shared w) "visualization_type") as [v|e] eqn:Hvt.
  - destruct v as [| | | |vt| |];
      try (exists AttributeError;
           now apply (generate_sample_visualization_not_str w _ Hvt)).
    now rewrite (generate_sample_visualization_sampled w vt Hvt).
  - exists e. now apply generate_sample_visualization_no_type.
Qed.

(** X7 (visualizer, the range of the values): with a generator whose
    [randint(10, 100)] gives integers from 10 up to 99, as numpy's
    does, every figure that is no line chart plots integers from 10 up
    to 99: 30 of them for a bar or a scatter chart, 4 for a pie. *)
Theorem sample_values_in_range (w : World) (fig : Figure) :
  (forall rs, (10 <= fst (randint1 10 100 rs) < 100)%Z) ->
  result_of generate_sample_visualization w = Ok fig ->
  kind fig <> Line ->
  exists values,
    trace_y fig = Ints values
    /\ length values = points_of (kind fig)
    /\ Forall (fun v => (10 <= v < 100)%Z) values.
Proof.
  intros Hrange Hres Hkind.
  destruct (generate_sample_visualization_returns w fig Hres)
    as (c & name & _ & _ & ->).
  cbn [kind sample_figure trace_y] in *.
  pose proof (fun size => sample_Forall (randint1 10 100)
                            (fun v => (10 <= v < 100)%Z) size (np_random w) Hrange)
    as Hall.
  pose proof (fun size => length_sample (randint1 10 100) size (np_random w)) as Hlen.
  destruct c; [now destruct Hkind| | |]; unfold sampled.
  - specialize (Hall 30). specialize (Hlen 30).
    destruct (sample (randint1 10 100) 30 (np_random w)) as [values rs'].
    now exists values.
  - specialize (Hall 4). specialize (Hlen 4).
    destruct (sample (randint1 10 100) 4 (np_random w)) as [values rs'].
    now exists values.
  - specialize (Hall 30). specialize (Hlen 30).
    destruct (sample (randint1 10 100) 30 (np_random w)) as [values rs'].
    now exists values.
Qed.

Lemma cumsum_from_step acc (a : list float64) k s v :
  (acc :: cumsum_from acc a) !! k = Some s -> a !! k = Some v ->
  cumsum_from acc a !! k = Some (float_add s v).
Proof.
  revert acc k s. induction a as [|x a IH]; intros acc k s Hs Hv; [discriminate|].
  destruct k as [|k]; cbn in *.
  - injection Hs as <-. now injection Hv as <-.
  - now apply IH.
Qed.

(** X8 (visualizer, the trending line): the series of a line chart is
    the running sum of 30 successive draws of [normal(10, 2)]: its
    first point is the first draw, and every later point is the point
    before it plus the draw of its place. *)
Theorem line_series_is_running_sum (w : World) (fig : Figure) :
  result_of generate_sample_visualization w = Ok fig ->
  kind fig = Line ->
  exists sums,
    let increments := fst (sample (normal1 10 2) 30 (np_random w)) in
    trace_y fig = Floats sums
    /\ length sums = 30
    /\ sums !! 0 = increments !! 0
    /\ forall k s v,
         sums !! k = Some s -> increments !! (S k) = Some v ->
         sums !! (S k) = Some (float_add s v).
Proof.
  intros Hres Hkind.
  destruct (generate_sample_visualization_returns w fig Hres)
    as (c & name & _ & _ & ->).
  cbn [kind sample_figure trace_y] in *. subst c. unfold sampled.
  pose proof (length_sample (normal1 10 2) 30 (np_random w)) as Hlen.
  destruct (sample (normal1 10 2) 30 (np_random w)) as [increments rs'].
  cbn [fst] in *. exists (np_cumsum increments).
  split; [reflexivity|]. split; [now rewrite length_np_cumsum|].
  destruct increments as [|first rest]; [discriminate|].
  split; [reflexivity|].
  intros k s v Hs Hv. cbn [np_cumsum] in *. now apply cumsum_from_step.
Qed.
End SampleDraws.

(** ** What the proposer makes of an answer *)

Module answer_facts.
Import json.
Local Open Scope result_scope.

Lemma scan_once_needs_opening fuel c rest :
  opens_value c = false -> scan_once (S fuel) (String c rest) = Raise JSONDecodeError.
Proof.
  intros Hc. destruct c as [[] [] [] [] [] [] [] []]; try discriminate Hc; reflexivity.
Qed.

Lemma loads_needs_opening text :
  opens_with_value text = false -> loads text = Raise JSONDecodeError.
Proof.
  unfold opens_with_value, loads, decode. intros Hopen.
  destruct (strip_prefix (chr 65279) text); [reflexivity|].
  unfold fuel_for. destruct (skip_ws text) as [|c rest]; [reflexivity|].
  now rewrite (scan_once_needs_opening _ c rest Hopen).
Qed.

Lemma absent_dict_set d key value k :
  existsb (String.eqb k) (map fst d) = false -> String.eqb k key = false ->
  existsb (String.eqb k) (map fst (dict_set d key value)) = false.
Proof.
  induction d as [|[k' v'] d IH]; intros Hk Hne; cbn in *.
  - now rewrite Hne.
  - apply orb_false_elim in Hk as [Hk' Hk].
    destruct (String.eqb k' key) eqn:E; cbn.
    + now rewrite Hne, Hk.
    + now rewrite Hk', (IH Hk Hne).
Qed.

Lemma distinct_dict_set d key value :
  distinct (map fst d) = true -> distinct (map fst (dict_set d key value)) = true.
Proof.
  induction d as [|[k' v'] d IH]; intros Hd; [reflexivity|].
  cbn in Hd. apply andb_prop in Hd as [Hk' Hd]. apply negb_true_iff in Hk'.
  cbn [dict_set]. destruct (String.eqb k' key) eqn:E.
  - apply String.eqb_eq in E. subst k'. cbn. now rewrite Hk', Hd.
  - cbn. rewrite (absent_dict_set d key value k' Hk' E), (IH Hd). reflexivity.
Qed.

Lemma unique_dict_set d key value :
  unique_keys (PDict d) = true -> unique_keys value = true ->
  unique_keys (PDict (dict_set d key value)) = true.
Proof.
  cbn [unique_keys]. intros Hd Hvalue. apply andb_prop in Hd as [Hkeys Hvalues].
  rewrite (distinct_dict_set d key value Hkeys). cbn [andb].
  clear Hkeys. induction d as [|[k' v'] d IH]; cbn in *.
  - now rewrite Hvalue.
  - apply andb_prop in Hvalues as [Hv' Hvalues].
    destruct (String.eqb k' key); cbn; [now rewrite Hvalue, Hvalues|].
    now rewrite Hv', (IH Hvalues).
Qed.

Lemma match_number_unique s v rest :
  match_number s = Some (v, rest) -> unique_keys v = true.
Proof.
  unfold match_number. destruct (match_integer s) as [[integer rest0]|]; [|discriminate].
  destruct (match_frac rest0) as [frac rest1]. destruct (match_exp rest1) as [exp rest2].
  destruct frac, exp; now intros [= <- _].
Qed.

Lemma scan_constant_unique s v rest :
  scan_constant s = Some (v, rest) -> unique_keys v = true.
Proof.
  unfold scan_constant.
  repeat match goal with
         | |- context [match strip_prefix ?p s with _ => _ end] =>
             destruct (strip_prefix p s); [now intros [= <- _]|]
         | |- context [match match_number s with _ => _ end] =>
             destruct (match_number s) as [[v' rest']|] eqn:E;
             [intros [= <- _]; exact (match_number_unique _ _ _ E)|]
         end.
  discriminate.
Qed.

Section Containers.
Variable scan_once : string -> Result (pyval * string).
Hypothesis scan_unique : forall s, unique_scan (scan_once s).

Lemma array_values_unique fuel :
  forall s, match array_values scan_once fuel s with
            | Ok (values, _) => forallb unique_keys values = true
            | Raise _ => True
            end.
Proof.
  induction fuel as [|fuel IH]; intros s; [exact I|].
  cbn [array_values]. pose proof (scan_unique s) as Hvalue.
  destruct (scan_once s) as [[value rest]|e]; cbn [rbind]; [|exact I].
  cbn [unique_scan] in Hvalue.
  destruct (skip_ws rest) as [|c rest']; [exact I|].
  specialize (IH (skip_ws rest')).
  destruct c as [[] [] [] [] [] [] [] []]; try exact I.
  - cbn. now rewrite Hvalue.
  - destruct (array_values scan_once fuel (skip_ws rest')) as [[values rest'']|e];
      cbn in *; [now rewrite Hvalue | exact I].
Qed.

Lemma JSONArray_unique s : unique_scan (JSONArray scan_once s).
Proof.
  unfold JSONArray.
  assert (Hgeneral :
           forall s', unique_scan
                        (found <- array_values scan_once (fuel_for s') s' ;;
                         let '(values, rest0) := found in Ok (PList values, rest0))).
  { intros s'. pose proof (array_values_unique (fuel_for s') s') as Hvalues.
    now destruct (array_values _ _ _) as [[values rest']|e]. }
  destruct (skip_ws s) as [|c rest] eqn:E; [apply Hgeneral|].
  destruct c as [[] [] [] [] [] [] [] []]; try apply Hgeneral.
  reflexivity.
Qed.

Lemma object_pairs_unique fuel :
  forall pairs s, unique_keys (PDict pairs) = true ->
                  unique_scan (object_pairs scan_once fuel pairs s).
Proof.
  induction fuel as [|fuel IH]; intros pairs s Hpairs; [exact I|].
  cbn [object_pairs].
  destruct (scanstring (fuel_for s) s) as [[key rest]|e]; cbn [rbind]; [|exact I].
  destruct (skip_ws rest) as [|c rest1]; [exact I|].
  pose proof (scan_unique (skip_ws rest1)) as Hvalue.
  destruct c as [[] [] [] [] [] [] [] []]; try exact I.
  destruct (scan_once (skip_ws rest1)) as [[value rest2]|e]; cbn [rbind]; [|exact I].
  cbn [unique_scan] in Hvalue.
  pose proof (unique_dict_set pairs key value Hpairs Hvalue) as Hset.
  destruct (skip_ws rest2) as [|c2 rest3]; [exact I|].
  destruct (skip_ws rest3) as [|c3 rest4] eqn:E3.
  - destruct c2 as [[] [] [] [] [] [] [] []]; try exact I. exact Hset.
  - specialize (IH (dict_set pairs key value) rest4 Hset).
    destruct c2 as [[] [] [] [] [] [] [] []]; try exact I.
    + exact Hset.
    + destruct c3 as [[] [] [] [] [] [] [] []]; try exact I. exact IH.
Qed.

Lemma JSONObject_unique s : unique_scan (JSONObject scan_once s).
Proof.
  unfold JSONObject. destruct (skip_ws s) as [|c rest]; [exact I|].
  pose proof (object_pairs_unique (fuel_for rest) [] rest eq_refl) as Hpairs.
  destruct c as [[] [] [] [] [] [] [] []]; try exact I.
  - reflexivity.
  - exact Hpairs.
Qed.
End Containers.

Lemma scan_once_unique fuel : forall s, unique_scan (scan_once fuel s).
Proof.
  induction fuel as [|fuel IH]; intros s; [exact I|].
  cbn [scan_once].
  assert (Hconstant : unique_scan
                        match scan_constant s with
                        | Some found => Ok found
                        | None => Raise JSONDecodeError
                        end).
  { destruct (scan_constant s) as [[v rest]|] eqn:E; [|exact I].
    exact (scan_constant_unique _ _ _ E). }
  destruct s as [|c rest]; [exact Hconstant|].
  pose proof (JSONObject_unique (scan_once fuel) IH rest) as Hobject.
  pose proof (JSONArray_unique (scan_once fuel) IH rest) as Harray.
  destruct c as [[] [] [] [] [] [] [] []]; try exact Hconstant.
  - exact Hobject.
  - exact Harray.
  - now destruct (scanstring (fuel_for rest) rest) as [[str rest']|e].
Qed.

Lemma loads_unique s obj : loads s = Ok obj -> unique_keys obj = true.
Proof.
  unfold loads, decode. destruct (strip_prefix (chr 65279) s); [discriminate|].
  pose proof (scan_once_unique (fuel_for s) (skip_ws s)) as Hscan.
  destruct (scan_once (fuel_for s) (skip_ws s)) as [[obj' rest]|e]; cbn [rbind];
    [|discriminate].
  destruct (skip_ws rest); [|discriminate]. now intros [= <-].
Qed.
End answer_facts.

Lemma analyze_schema_decodes self schema_content description obj :
  analyze_schema self schema_content description = Ok obj ->
  exists text, json.loads text = Ok obj.
Proof.
  unfold analyze_schema, rbind.
  destruct (anthropic.messages_create _ _) as [response|]; [|discriminate].
  destruct (first_item (anthropic.content response)) as [block|]; [|discriminate].
  destruct (anthropic.text_of block) as [text|]; [|discriminate].
  intros Hloads. now exists text.
Qed.

(** X9 (proposer, answers that are not bare JSON): when the text of
    the answer, after its leading whitespace, does not start with a
    character that can open a JSON value (the text is blank, or starts
    with prose or with a code fence around the JSON), [analyze_schema]
    raises [JSONDecodeError]: the JSON is not searched for in the
    text. *)
Theorem analyze_schema_rejects_wrapped_answer (self : SchemaAnalyzer)
  (schema_content description : string) (response : anthropic.Message)
  (text : string) (rest : list anthropic.ContentBlock) :
  anthropic.messages_create (client self)
    (request_for (prompt_of schema_content description)) = Ok response ->
  anthropic.content response = anthropic.TextBlock text :: rest ->
  opens_with_value text = false ->
  analyze_schema self schema_content description = Raise JSONDecodeError.
Proof.
  intros Hresponse Hcontent Hopen.
  rewrite (analyze_schema_loads _ _ _ _ _ _ Hresponse Hcontent).
  now apply answer_facts.loads_needs_opening.
Qed.

(** X10 (proposer, the keys of what it returns): in an object returned
    by [analyze_schema] no dict, at any depth, holds a key twice; when
    the answer repeats a key of an object, one entry is kept for it. *)
Theorem analyze_schema_returns_unique_keys (self : SchemaAnalyzer)
  (schema_content description : string) (obj : pyval) :
  analyze_schema self schema_content description = Ok obj ->
  unique_keys obj = true.
Proof.
  intros Hres. destruct (analyze_schema_decodes _ _ _ _ Hres) as [text Hloads].
  exact (answer_facts.loads_unique text obj Hloads).
Qed.

(** ** A MetricSet written as JSON is read back *)

Module written_facts.
Import json.
Local Open Scope result_scope.

Lemma scanstring_unescaped s :
  forall fuel rest,
    unescaped s = true -> String.length s < fuel ->
    scanstring fuel (s +:+ dq +:+ rest) = Ok (s, rest).
Proof.
  induction s as [|c s IH]; intros fuel rest Hs Hfuel;
    (destruct fuel as [|fuel]; [lia|]).
  - reflexivity.
  - cbn [unescaped] in Hs. apply andb_prop in Hs as [Hc Hs].
    unfold unescaped_char in Hc. apply andb_prop in Hc as [Hc Hcontrol].
    apply andb_prop in Hc as [Hquote Hbackslash].
    apply negb_true_iff in Hquote, Hbackslash, Hcontrol.
    rewrite append_cons. cbn [scanstring].
    rewrite Hquote, Hbackslash, Hcontrol.
    cbn [String.length] in Hfuel. rewrite (IH fuel rest Hs ltac:(lia)). reflexivity.
Qed.

Lemma scan_once_string fuel s rest :
  unescaped s = true ->
  scan_once (S fuel) (json_string s +:+ rest) = Ok (PStr s, rest).
Proof.
  intros Hs. unfold json_string. rewrite !append_assoc.
  change (dq +:+ s +:+ dq +:+ rest) with (String "034" (s +:+ dq +:+ rest)).
  cbn [scan_once].
  rewrite (scanstring_unescaped s _ rest Hs); [reflexivity|].
  unfold fuel_for. rewrite length_append. lia.
Qed.

Lemma py_join_cons (part : string) (parts : list string) :
  py_join ", " (part :: parts) = part +:+ then_joined parts.
Proof. destruct parts; cbn [py_join then_joined]; [now rewrite append_nil_r|reflexivity]. Qed.

Lemma skip_ws_not_ws c s : is_ws c = false -> skip_ws (String c s) = String c s.
Proof. intros Hc. cbn [skip_ws]. now rewrite Hc. Qed.

Lemma skip_ws_space s : skip_ws (String " " s) = skip_ws s.
Proof. reflexivity. Qed.

Lemma skip_ws_json_string s rest :
  skip_ws (json_string s +:+ rest) = json_string s +:+ rest.
Proof. unfold json_string. rewrite !append_assoc. reflexivity. Qed.

Lemma json_string_cons s rest :
  json_string s +:+ rest = String "034" (s +:+ dq +:+ rest).
Proof. unfold json_string. now rewrite !append_assoc. Qed.

Section Pairs.
Variable scan : string -> Result (pyval * string).
Hypothesis scan_string :
  forall s rest, unescaped s = true -> scan (json_string s +:+ rest) = Ok (PStr s, rest).

Lemma object_pairs_written more :
  forall fuel acc k v rest,
    forallb (fun kv => unescaped (fst kv) && unescaped (snd kv)) ((k, v) :: more) = true ->
    String.length (k +:+ dq +:+ ": " +:+ json_string v
                     +:+ then_joined (map json_pair more) +:+ "}" +:+ rest) < fuel ->
    object_pairs scan fuel acc
      (k +:+ dq +:+ ": " +:+ json_string v
         +:+ then_joined (map json_pair more) +:+ "}" +:+ rest)
    = Ok (PDict (dict_of_pairs ((k, v) :: more) acc), rest).
Proof.
  induction more as [|[k' v'] more IH]; intros fuel acc k v rest Hall Hfuel;
    (destruct fuel as [|fuel]; [lia|]);
    cbn [forallb fst snd] in Hall; apply andb_prop in Hall as [Hkv Hall];
    apply andb_prop in Hkv as [Hk Hv];
    cbn [object_pairs];
    (rewrite (scanstring_unescaped k _ _ Hk)
      by (unfold fuel_for; rewrite length_append; lia));
    cbn [rbind];
    change (": " +:+ ?x) with (String ":" (String " " x));
    rewrite (skip_ws_not_ws ":") by reflexivity; cbv beta iota;
    rewrite skip_ws_space, skip_ws_json_string, (scan_string v _ Hv); cbn [rbind].
  - cbn [map then_joined]. rewrite append_nil_l.
    change ("}" +:+ rest) with (String "}" rest).
    rewrite (skip_ws_not_ws "}") by reflexivity. reflexivity.
  - assert (Hshorter :
             String.length (k' +:+ dq +:+ ": " +:+ json_string v'
                              +:+ then_joined (map json_pair more) +:+ "}" +:+ rest)
             < fuel).
    { cbn [map then_joined] in Hfuel. rewrite py_join_cons in Hfuel.
      unfold json_pair, json_string, dq in *. cbn [fst snd] in Hfuel.
      rewrite ?append_assoc, ?length_append in *. cbn [String.length] in *. lia. }
    cbn [map then_joined]. rewrite py_join_cons. unfold json_pair at 1. cbn [fst snd].
    rewrite !append_assoc.
    change (", " +:+ ?x) with (String "," (String " " x)).
    rewrite (skip_ws_not_ws ",") by reflexivity. cbv beta iota.
    rewrite skip_ws_space, skip_ws_json_string, (json_string_cons k'). cbv beta iota.
    rewrite (IH fuel _ k' v' rest Hall Hshorter). reflexivity.
Qed.

Lemma JSONObject_written pairs rest :
  forallb (fun kv => unescaped (fst kv) && unescaped (snd kv)) pairs = true ->
  JSONObject scan (py_join ", " (map json_pair pairs) +:+ "}" +:+ rest)
  = Ok (PDict (dict_of_pairs pairs []), rest).
Proof.
  intros Hall. unfold JSONObject. destruct pairs as [|[k v] more].
  - cbn [map py_join]. rewrite append_nil_l. change ("}" +:+ rest) with (String "}" rest).
    rewrite (skip_ws_not_ws "}") by reflexivity. reflexivity.
  - cbn [map]. rewrite py_join_cons. unfold json_pair at 1. cbn [fst snd].
    rewrite !append_assoc, skip_ws_json_string, (json_string_cons k). cbv beta iota.
    apply (object_pairs_written more _ [] k v rest Hall). unfold fuel_for. lia.
Qed.
End Pairs.

Lemma distinct_app_fresh (l1 l2 : list string) k :
  distinct (l1 ++ k :: l2) = true ->
  forallb (fun a => negb (String.eqb a k)) l1 = true.
Proof.
  induction l1 as [|a l1 IH]; intros Hall; [reflexivity|].
  cbn [app distinct] in Hall. apply andb_prop in Hall as [Ha Hall].
  apply negb_true_iff in Ha. rewrite existsb_app in Ha.
  apply orb_false_elim in Ha as [_ Ha]. cbn [existsb] in Ha.
  apply orb_false_elim in Ha as [Ha _].
  cbn [forallb]. now rewrite Ha, (IH Hall).
Qed.

Lemma dict_set_fresh (acc : list (string * pyval)) k v :
  forallb (fun a => negb (String.eqb a k)) (map fst acc) = true ->
  dict_set acc k v = (acc ++ [(k, v)])%list.
Proof.
  induction acc as [|[k' v'] acc IH]; intros Hall; [reflexivity|].
  cbn [map forallb fst] in Hall. apply andb_prop in Hall as [Hk' Hall].
  apply negb_true_iff in Hk'. cbn [dict_set app]. now rewrite Hk', (IH Hall).
Qed.

Lemma dict_of_pairs_distinct pairs :
  forall acc,
    distinct (map fst acc ++ map fst pairs) = true ->
    dict_of_pairs pairs acc
    = (acc ++ map (fun kv => (fst kv, PStr (snd kv))) pairs)%list.
Proof.
  induction pairs as [|[k v] pairs IH]; intros acc Hall.
  - cbn. now rewrite app_nil_r.
  - cbn [map fst] in Hall. unfold dict_of_pairs. cbn [fold_left fst snd].
    rewrite (dict_set_fresh acc k (PStr v) (distinct_app_fresh _ _ _ Hall)).
    fold (dict_of_pairs pairs (acc ++ [(k, PStr v)])).
    rewrite IH.
    + cbn [map fst snd]. now rewrite <- app_assoc.
    + rewrite map_app. cbn [map fst]. now rewrite <- app_assoc.
Qed.

Lemma scan_once_object fuel rest :
  scan_once (S fuel) (String "{" rest) = JSONObject (scan_once fuel) rest.
Proof. reflexivity. Qed.

Lemma scan_once_array fuel rest :
  scan_once (S fuel) (String "[" rest) = JSONArray (scan_once fuel) rest.
Proof. reflexivity. Qed.

Lemma scan_once_metric fuel pairs rest :
  writable pairs = true ->
  scan_once (S (S fuel)) (json_object pairs +:+ rest) = Ok (metric_of pairs, rest).
Proof.
  unfold writable. intros Hpairs. apply andb_prop in Hpairs as [Hkeys Hall].
  unfold json_object. rewrite !append_assoc.
  change ("{" +:+ ?x) with (String "{" x). rewrite scan_once_object.
  rewrite (JSONObject_written (scan_once (S fuel)) (scan_once_string fuel) pairs rest Hall).
  now rewrite (dict_of_pairs_distinct pairs [] Hkeys).
Qed.

Lemma json_object_cons pairs rest :
  json_object pairs +:+ rest
  = String "{" (py_join ", " (map json_pair pairs) +:+ "}" +:+ rest).
Proof. unfold json_object. now rewrite !append_assoc. Qed.

Lemma skip_ws_json_object pairs rest :
  skip_ws (json_object pairs +:+ rest) = json_object pairs +:+ rest.
Proof. now rewrite json_object_cons. Qed.

Section Items.
Variable scan : string -> Result (pyval * string).
Hypothesis scan_metric :
  forall pairs rest,
    writable pairs = true -> scan (json_object pairs +:+ rest) = Ok (metric_of pairs, rest).

Lemma array_values_written more :
  forall fuel m rest,
    forallb writable (m :: more) = true ->
    String.length (json_object m +:+ then_joined (map json_object more)
                     +:+ "]" +:+ rest) < fuel ->
    array_values scan fuel
      (json_object m +:+ then_joined (map json_object more) +:+ "]" +:+ rest)
    = Ok (map metric_of (m :: more), rest).
Proof.
  induction more as [|m' more IH]; intros fuel m rest Hall Hfuel;
    (destruct fuel as [|fuel]; [lia|]);
    cbn [forallb] in Hall; apply andb_prop in Hall as [Hm Hall];
    cbn [array_values]; rewrite (scan_metric m _ Hm); cbn [rbind].
  - cbn [map then_joined]. rewrite append_nil_l.
    change ("]" +:+ rest) with (String "]" rest).
    rewrite (skip_ws_not_ws "]") by reflexivity. reflexivity.
  - assert (Hshorter :
             String.length (json_object m' +:+ then_joined (map json_object more)
                              +:+ "]" +:+ rest) < fuel).
    { cbn [map then_joined] in Hfuel. rewrite py_join_cons in Hfuel.
      rewrite ?append_assoc, ?length_append in *. cbn [String.length] in *. lia. }
    cbn [map then_joined]. rewrite py_join_cons, !append_assoc.
    change (", " +:+ ?x) with (String "," (String " " x)).
    rewrite (skip_ws_not_ws ",") by reflexivity. cbv beta iota.
    rewrite skip_ws_space, skip_ws_json_object.
    rewrite (IH fuel m' rest Hall Hshorter). reflexivity.
Qed.

Lemma JSONArray_written metrics rest :
  forallb writable metrics = true ->
  JSONArray scan (py_join ", " (map json_object metrics) +:+ "]" +:+ rest)
  = Ok (PList (map metric_of metrics), rest).
Proof.
  intros Hall. unfold JSONArray. destruct metrics as [|m more].
  - cbn [map py_join]. rewrite append_nil_l. change ("]" +:+ rest) with (String "]" rest).
    rewrite (skip_ws_not_ws "]") by reflexivity. reflexivity.
  - cbn [map]. rewrite py_join_cons, !append_assoc, skip_ws_json_object.
    rewrite (json_object_cons m) at 1. cbv beta iota. rewrite <- !json_object_cons.
    rewrite (array_values_written more _ m rest Hall); [reflexivity|].
    unfold fuel_for. lia.
Qed.
End Items.

Lemma loads_written metrics :
  forallb writable metrics = true ->
  loads (json_metric_set metrics) = Ok (metric_set (map metric_of metrics)).
Proof.
  intros Hall. unfold json_metric_set.
  change ("{" +:+ ?x) with (String "{" x).
  unfold loads. change (strip_prefix (chr 65279) (String "{" ?x)) with (@None string).
  unfold decode. rewrite (skip_ws_not_ws "{") by reflexivity.
  assert (Hfuel : exists fuel,
             fuel_for (String "{" (json_string "metrics" +:+ ": ["
                                     +:+ py_join ", " (map json_object metrics) +:+ "]}"))
             = S (S (S (S fuel)))).
  { unfold fuel_for. rewrite json_string_cons. cbn [String.length].
    rewrite length_append. cbn [String.length Nat.add]. eexists. reflexivity. }
  destruct Hfuel as [fuel ->].
  rewrite scan_once_object. unfold JSONObject.
  rewrite skip_ws_json_string, json_string_cons. cbv beta iota.
  set (scan := scan_once (S (S (S fuel)))). unfold fuel_for at 1. cbn [object_pairs].
  rewrite (scanstring_unescaped "metrics" _ _ eq_refl)
    by (unfold fuel_for; rewrite length_append; lia).
  cbn [rbind]. change (": [" +:+ ?x) with (String ":" (String " " (String "[" x))).
  rewrite (skip_ws_not_ws ":") by reflexivity. cbv beta iota.
  rewrite skip_ws_space, (skip_ws_not_ws "[") by reflexivity.
  subst scan. rewrite scan_once_array.
  change "]}" with ("]" +:+ "}").
  rewrite (JSONArray_written (scan_once (S (S fuel))) (scan_once_metric fuel)
             metrics "}" Hall).
  reflexivity.
Qed.
End written_facts.

(** X11 (proposer, a MetricSet written as JSON): when the answer is a
    MetricSet written as JSON text, its metrics objects of string
    fields with distinct keys and nothing to escape, [analyze_schema]
    returns that MetricSet: the metrics in their order, every metric
    with its fields in their order and their values as they were
    written. *)
Theorem analyze_schema_reads_written_metric_set (self : SchemaAnalyzer)
  (schema_content description : string) (response : anthropic.Message)
  (rest : list anthropic.ContentBlock) (metrics : list (list (string * string))) :
  anthropic.messages_create (client self)
    (request_for (prompt_of schema_content description)) = Ok response ->
  anthropic.content response = anthropic.TextBlock (json_metric_set metrics) :: rest ->
  forallb writable metrics = true ->
  analyze_schema self schema_content description
  = Ok (metric_set (map metric_of metrics)).
Proof.
  intros Hresponse Hcontent Hall.
  rewrite (analyze_schema_loads _ _ _ _ _ _ Hresponse Hcontent).
  now apply written_facts.loads_written.
Qed.

(** ** [main]: what the page shows *)

Section MainRuns.
Context `{Numpy} `{Builtins} `{sqlparse.Library} `{AnthropicSDK} `{ExceptionText}.
Local Open Scope list_scope.
Local Open Scope st_scope.

Lemma with_calls_nil s : with_calls s [] = s.
Proof. destruct s. unfold with_calls. cbn. now rewrite app_nil_r. Qed.

Lemma with_calls_app s a b : with_calls (with_calls s a) b = with_calls s (a ++ b).
Proof. unfold with_calls. cbn. now rewrite app_assoc. Qed.

Lemma st_bind_returned {A B} (m : St A) (k : A -> St B) s a s' :
  m s = (returned a, s') -> st_bind m k s = k a s'.
Proof. intros Hm. unfold st_bind. now rewrite Hm. Qed.

Lemma st_bind_thrown {A B} (m : St A) (k : A -> St B) s e s' :
  m s = (thrown e, s') -> st_bind m k s = (thrown e, s').
Proof. intros Hm. unfold st_bind. now rewrite Hm. Qed.

Lemma emit_run p c s : emit p c s = (returned tt, with_calls s [(p, c)]).
Proof. reflexivity. Qed.

Lemma listable_fields metric :
  listable metric = true ->
  exists name description sql_query visualization_type update_frequency,
    py_getitem metric "name" = Ok name
    /\ py_getitem metric "description" = Ok description
    /\ py_getitem metric "sql_query" = Ok sql_query
    /\ py_getitem metric "visualization_type" = Ok visualization_type
    /\ py_getitem metric "update_frequency" = Ok update_frequency.
Proof.
  unfold listable. cbn [forallb metric_fields]. intros Hall.
  destruct (py_getitem metric "name") as [v1|]; [|discriminate].
  destruct (py_getitem metric "description") as [v2|]; [|discriminate].
  destruct (py_getitem metric "sql_query") as [v3|]; [|discriminate].
  destruct (py_getitem metric "visualization_type") as [v4|]; [|discriminate].
  destruct (py_getitem metric "update_frequency") as [v5|]; [|discriminate].
  now exists v1, v2, v3, v4, v5.
Qed.

Lemma listable_renderable items :
  forallb listable items = true -> forallb renderable items = true.
Proof.
  induction items as [|metric items IH]; [reflexivity|]. cbn [forallb]. intros Hall.
  apply andb_prop in Hall as [Hmetric Hall]. rewrite (IH Hall), andb_true_r.
  destruct (listable_fields metric Hmetric)
    as (v1 & v2 & v3 & v4 & v5 & E1 & E2 & E3 & E4 & E5).
  unfold renderable. cbn [forallb rendered_fields]. now rewrite E1, E3, E4.
Qed.


(** The first tab. *)
Lemma show_metric_run metric s :
  listable metric = true ->
  show_metric metric s = (returned tt, with_calls s (listing_of metric)).
Proof.
  intros Hmetric.
  destruct (listable_fields metric Hmetric)
    as (v1 & v2 & v3 & v4 & v5 & E1 & E2 & E3 & E4 & E5).
  unfold show_metric, st_bind, evaluate, emit. rewrite E1, E2, E3, E4, E5.
  cbn [page world]. unfold with_calls, listing_of, field, value_of.
  rewrite E1, E2, E3, E4, E5. now rewrite <- !app_assoc.
Qed.

Lemma show_metric_no_name metric e s :
  py_getitem metric "name" = Raise e ->
  show_metric metric s = (thrown (from_method e), s).
Proof. intros Hname. unfold show_metric, st_bind, evaluate. now rewrite Hname. Qed.

Lemma st_for_returned {A} (items : list A) (body : A -> St unit)
  (calls_of : A -> list (st.place * st.call)) :
  (forall x s, In x items -> body x s = (returned tt, with_calls s (calls_of x))) ->
  forall s, st_for items body s = (returned tt, with_calls s (flat_map calls_of items)).
Proof.
  induction items as [|x items IH]; intros Hbody s.
  - cbn. unfold st_ret. now rewrite with_calls_nil.
  - cbn [st_for flat_map].
    rewrite (st_bind_returned _ _ _ _ _ (Hbody x s (or_introl eq_refl))).
    rewrite IH by (intros y s' Hy; apply Hbody; now right).
    now rewrite with_calls_app.
Qed.

Lemma st_for_thrown {A} (good : list A) (bad : A) (rest : list A) (body : A -> St unit)
  (calls_of : A -> list (st.place * st.call)) e :
  (forall x s, In x good -> body x s = (returned tt, with_calls s (calls_of x))) ->
  (forall s, body bad s = (thrown e, s)) ->
  forall s, st_for (good ++ bad :: rest) body s
            = (thrown e, with_calls s (flat_map calls_of good)).
Proof.
  intros Hgood Hbad. induction good as [|x good IH]; intros s.
  - cbn [app st_for flat_map]. rewrite (st_bind_thrown _ _ _ _ _ (Hbad s)).
    now rewrite with_calls_nil.
  - cbn [app st_for flat_map].
    rewrite (st_bind_returned _ _ _ _ _ (Hgood x s (or_introl eq_refl))).
    rewrite IH by (intros y s' Hy; apply Hgood; now right).
    now rewrite with_calls_app.
Qed.

Lemma metrics_listed_run s :
  metrics_listed s
  = (match listed (shared (world s)) with
     | Ok items => returned items
     | Raise e => thrown (from_method e)
     end, s).
Proof.
  unfold metrics_listed, listed, st_bind, method, param, evaluate, rbind.
  destruct s as [shown w]. cbn [page world].
  destruct (py_getitem (shared w) "metrics") as [found|]; [|reflexivity].
  now destruct (py_iter found).
Qed.

Lemma tab1_listed s items :
  listed (shared (world s)) = Ok items ->
  tab1 s = st_for items show_metric (with_calls s [listing_header]).
Proof.
  intros Hlisted. unfold tab1, st_bind. rewrite emit_run, metrics_listed_run.
  cbn [with_calls world]. now rewrite Hlisted.
Qed.

Lemma tab1_not_listed s e :
  listed (shared (world s)) = Raise e ->
  tab1 s = (thrown (from_method e), with_calls s [listing_header]).
Proof.
  intros Hlisted. unfold tab1, st_bind. rewrite emit_run, metrics_listed_run.
  cbn [with_calls world]. now rewrite Hlisted.
Qed.

Lemma tab1_run s items :
  listed (shared (world s)) = Ok items -> forallb listable items = true ->
  tab1 s = (returned tt, with_calls s (listing_header :: flat_map listing_of items)).
Proof.
  intros Hlisted Hall. rewrite (tab1_listed s items Hlisted).
  rewrite (st_for_returned items show_metric listing_of).
  - now rewrite with_calls_app.
  - intros metric s' Hin. apply show_metric_run. exact (forallb_In _ _ _ Hall Hin).
Qed.



Lemma listed_items_in_place obj items (k : RandomState) :
  listed obj = Ok items ->
  forall i metric, In (i, metric) (enumerate_from 0 items) ->
                   put_metric i obj metric = obj.
Proof.
  intros Hlisted i metric Hin.
  apply (enumerate_metrics_items obj (mkWorld obj k) (enumerate items) eq_refl);
    [|exact Hin].
  rewrite enumerate_metrics_listed. cbn [shared fst]. now rewrite Hlisted.
Qed.


(** The third tab. *)
Lemma tab3_run s items :
  listed (shared (world s)) = Ok items -> forallb renderable items = true ->
  tab3 s = (returned tt, with_calls s (code_calls (generated_text items))).
Proof.
  intros Hlisted Hall. unfold tab3, st_bind, method. rewrite !emit_run.
  cbn [with_calls world page].
  pose proof (generate_dashboard_code_listed (world s) items Hlisted) as Hres.
  apply renderable_reads in Hall as [Hnames Hentries].
  rewrite Hnames, Hentries in Hres. unfold result_of in Hres.
  pose proof (stateless_run generate_dashboard_code (world s)
                generate_dashboard_code_stateless) as Hw.
  destruct (generate_dashboard_code (world s)) as [res w]. cbn [fst snd] in *.
  subst res w. rewrite !emit_run. unfold with_calls, code_calls, generated_text.
  cbn [page world]. now rewrite <- !app_assoc.
Qed.

(** The [try] block, for a file that decodes. *)
Lemma main_try_run anthropic_key file description s :
  utf8_valid (st.content file) = true ->
  main_try anthropic_key (Some file) description s
  = match analyze_schema (SchemaAnalyzer_init anthropic_key) (schema_of file)
            description with
    | Raise e => (thrown (from_method e), with_calls s [spinner_call])
    | Ok obj =>
        (tab1 ;;; tab2 ;;; tab3)
          (mkSession (page s ++ [spinner_call; tabs_call])
             (mkWorld obj (np_random (world s))))
    end.
Proof.
  intros Hvalid. unfold main_try, read, st_bind at 1, st_ret.
  unfold st_bind at 1, decoded, decode_utf8. rewrite Hvalid.
  unfold st_bind at 1. rewrite emit_run. fold (schema_of file).
  unfold st_bind at 1, evaluate.
  destruct (analyze_schema _ _ _) as [obj|e]; [|reflexivity].
  unfold st_bind at 1, assign_metrics. unfold st_bind at 1. rewrite emit_run.
  unfold with_calls. cbn [page world]. now rewrite <- app_assoc.
Qed.

Lemma main_try_undecodable anthropic_key file description s :
  utf8_valid (st.content file) = false ->
  main_try anthropic_key (Some file) description s = (thrown UnicodeDecodeError, s).
Proof.
  intros Hvalid. unfold main_try, read, st_bind at 1, st_ret.
  unfold st_bind at 1, decoded, decode_utf8. now rewrite Hvalid.
Qed.

Lemma main_run inputs s :
  main inputs s
  = (if input_missing inputs
     then emit st.in_body
            (st.info "Please provide all required inputs in the sidebar to generate the dashboard.")
     else try_except
            (main_try (st.anthropic_key inputs) (st.uploaded_file inputs)
               (st.description inputs))
            (fun e => emit st.in_body
                        (st.error ("An error occurred: " +:+ str_of_exception e))))
      (with_calls s preamble).
Proof.
  unfold main, st_bind. rewrite !emit_run, !with_calls_app. reflexivity.
Qed.

Lemma main_run_try inputs file s :
  input_missing inputs = false -> st.uploaded_file inputs = Some file ->
  main inputs s
  = try_except (main_try (st.anthropic_key inputs) (Some file) (st.description inputs))
      (fun e => emit st.in_body
                  (st.error ("An error occurred: " +:+ str_of_exception e)))
      (with_calls s preamble).
Proof. intros Hgate Hfile. now rewrite main_run, Hgate, Hfile. Qed.

(** X12 (main, a file that is not UTF-8): with the three inputs given
    and a file whose bytes are not well-formed UTF-8, [main] returns
    with the widgets and one error, that of the decoding, on the page;
    the analyzer's methods are not reached (no spinner is drawn) and
    the state is left as it was. *)
Theorem undecodable_file_is_reported (inputs : st.Inputs) (file : st.UploadedFile)
  (s : Session) :
  input_missing inputs = false ->
  st.uploaded_file inputs = Some file ->
  utf8_valid (st.content file) = false ->
  main inputs s
  = (returned tt, with_calls s (preamble ++ [error_notice UnicodeDecodeError])).
Proof.
  intros Hgate Hfile Hvalid. rewrite (main_run_try inputs file s Hgate Hfile).
  unfold try_except. rewrite (main_try_undecodable _ _ _ _ Hvalid).
  now rewrite emit_run, with_calls_app.
Qed.

(** X13 (main, a failed analysis): when [analyze_schema] raises, be it
    the error of the service or that of the decoding, [main] returns
    with the widgets, the spinner and one error holding the text of
    that exception on the page: none of the three tabs is drawn, and
    the state is left as it was. *)
Theorem failed_analysis_is_reported (inputs : st.Inputs) (file : st.UploadedFile)
  (e : exn) (s : Session) :
  input_missing inputs = false ->
  st.uploaded_file inputs = Some file ->
  utf8_valid (st.content file) = true ->
  analysis inputs file = Raise e ->
  main inputs s
  = (returned tt,
     with_calls s (preamble ++ [spinner_call; error_notice (from_method e)])).
Proof.
  intros Hgate Hfile Hvalid Hanalysis. rewrite (main_run_try inputs file s Hgate Hfile).
  unfold try_except, analysis in *. rewrite (main_try_run _ _ _ _ Hvalid), Hanalysis.
  now rewrite emit_run, !with_calls_app.
Qed.

(** X14 (main, an answer without metrics to list): when the answer
    decodes to an object whose [metrics] cannot be read or iterated
    (the empty object, a list, a number under the key), [main] has
    drawn the three tabs and the header of the first by the time the
    lookup fails: the page ends with that header and the error. *)
Theorem unlisted_metrics_fail_in_first_tab (inputs : st.Inputs)
  (file : st.UploadedFile) (obj : pyval) (e : exn) (s : Session) :
  input_missing inputs = false ->
  st.uploaded_file inputs = Some file ->
  utf8_valid (st.content file) = true ->
  analysis inputs file = Ok obj ->
  listed obj = Raise e ->
  main inputs s
  = (returned tt,
     mkSession
       (page s ++ preamble
          ++ [spinner_call; tabs_call; listing_header; error_notice (from_method e)])
       (mkWorld obj (np_random (world s)))).
Proof.
  intros Hgate Hfile Hvalid Hanalysis Hlisted.
  rewrite (main_run_try inputs file s Hgate Hfile).
  unfold try_except, analysis in *. rewrite (main_try_run _ _ _ _ Hvalid), Hanalysis.
  rewrite (st_bind_thrown _ _ _ _ _ (tab1_not_listed (mkSession _ (mkWorld obj _)) e Hlisted)).
  rewrite emit_run. unfold with_calls. cbn [page world]. now rewrite <- !app_assoc.
Qed.

(** X15 (main, a metric without a name): when the metrics up to one
    have their five fields and the next has no name to read, the page
    keeps the listing of the metrics before it and ends with the
    error: what was drawn before the failure stays on the page. *)
Theorem listing_stops_at_unnamed_metric (inputs : st.Inputs) (file : st.UploadedFile)
  (obj : pyval) (good : list pyval) (bad : pyval) (rest : list pyval) (e : exn)
  (s : Session) :
  input_missing inputs = false ->
  st.uploaded_file inputs = Some file ->
  utf8_valid (st.content file) = true ->
  analysis inputs file = Ok obj ->
  listed obj = Ok (good ++ bad :: rest) ->
  forallb listable good = true ->
  py_getitem bad "name" = Raise e ->
  main inputs s
  = (returned tt,
     mkSession
       (page s ++ preamble ++ [spinner_call; tabs_call; listing_header]
          ++ flat_map listing_of good ++ [error_notice (from_method e)])
       (mkWorld obj (np_random (world s)))).
Proof.
  intros Hgate Hfile Hvalid Hanalysis Hlisted Hgood Hbad.
  rewrite (main_run_try inputs file s Hgate Hfile).
  unfold try_except, analysis in *. rewrite (main_try_run _ _ _ _ Hvalid), Hanalysis.
  assert (Htab1 : forall s', listed (shared (world s')) = Ok (good ++ bad :: rest) ->
                             tab1 s'
                             = (thrown (from_method e),
                                with_calls s' (listing_header :: flat_map listing_of good))).
  { intros s' Hs'. rewrite (tab1_listed s' _ Hs').
    rewrite (st_for_thrown good bad rest show_metric listing_of (from_method e)).
    - now rewrite with_calls_app.
    - intros metric s'' Hin. apply show_metric_run. exact (forallb_In _ _ _ Hgood Hin).
    - intros s''. now apply show_metric_no_name. }
  rewrite (st_bind_thrown _ _ _ _ _ (Htab1 (mkSession _ (mkWorld obj _)) Hlisted)).
  rewrite emit_run. unfold with_calls. cbn [page world app].
  now rewrite <- !app_assoc.
Qed.


(** The ways the [try] block can go. *)
Lemma listing_is_ordinary metric : forallb ordinary (listing_of metric) = true.
Proof. reflexivity. Qed.

Lemma listings_are_ordinary items : forallb ordinary (flat_map listing_of items) = true.
Proof.
  induction items as [|metric items IH]; [reflexivity|].
  cbn [flat_map]. now rewrite forallb_app, listing_is_ordinary, IH.
Qed.

Lemma show_metric_cases metric s :
  listable metric = true
  \/ exists e calls,
       show_metric metric s = (thrown e, with_calls s calls)
       /\ forallb ordinary calls = true.
Proof.
  unfold listable. cbn [forallb metric_fields].
  unfold show_metric, st_bind, evaluate, emit, with_calls.
  destruct (py_getitem metric "name") as [v1|e1].
  2:{ right. exists (from_method e1), []. cbn. rewrite app_nil_r. now destruct s. }
  destruct (py_getitem metric "description") as [v2|e2].
  2:{ right. eexists _, [_]. cbn [page world]. now split. }
  destruct (py_getitem metric "update_frequency") as [v5|e5].
  2:{ right. eexists _, [_; _]. cbn [page world]. rewrite <- !app_assoc. now split. }
  destruct (py_getitem metric "visualization_type") as [v4|e4].
  2:{ right. eexists _, [_; _; _]. cbn [page world]. rewrite <- !app_assoc.
      now split. }
  destruct (py_getitem metric "sql_query") as [v3|e3].
  2:{ right. eexists _, [_; _; _; _]. cbn [page world]. rewrite <- !app_assoc.
      now split. }
  now left.
Qed.

Lemma listing_cases items :
  forall s,
    forallb listable items = true
    \/ exists e calls,
         st_for items show_metric s = (thrown e, with_calls s calls)
         /\ forallb ordinary calls = true.
Proof.
  induction items as [|metric items IH]; intros s; [now left|].
  cbn [forallb st_for].
  destruct (show_metric_cases metric s) as [Hmetric | (e & calls & Hrun & Hcalls)].
  - rewrite Hmetric. rewrite (st_bind_returned _ _ _ _ _ (show_metric_run metric s Hmetric)).
    destruct (IH (with_calls s (listing_of metric)))
      as [Hall | (e & calls & Hrun & Hcalls)]; [now left|].
    right. exists e, (listing_of metric ++ calls)%list.
    rewrite Hrun, with_calls_app. split; [reflexivity|].
    now rewrite forallb_app, listing_is_ordinary.
  - right. exists e, calls. now rewrite (st_bind_thrown _ _ _ _ _ Hrun).
Qed.

Lemma show_sample_step i metric s :
  put_metric i (shared (world s)) metric = shared (world s) ->
  exists calls,
    page (snd (show_sample (i, metric) s)) = (page s ++ calls)%list
    /\ forallb ordinary calls = true
    /\ shared (world (snd (show_sample (i, metric) s))) = shared (world s).
Proof.
  intros Hput. unfold show_sample, st_bind, method, call.
  pose proof (generate_sample_visualization_read_only metric
                (mkWorld metric (np_random (world s))) eq_refl) as Hread.
  destruct (generate_sample_visualization (mkWorld metric (np_random (world s))))
    as [[fig|e] w']; cbn [snd] in Hread; rewrite Hread, Hput.
  - eexists [_]. cbn. now repeat split.
  - exists []. cbn. rewrite app_nil_r. now repeat split.
Qed.

Lemma preview_steps items :
  forall k s,
    (forall i metric, In (i, metric) (enumerate_from k items) ->
                      put_metric i (shared (world s)) metric = shared (world s)) ->
    exists calls,
      page (snd (st_for (enumerate_from k items) show_sample s)) = (page s ++ calls)%list
      /\ forallb ordinary calls = true
      /\ shared (world (snd (st_for (enumerate_from k items) show_sample s)))
         = shared (world s).
Proof.
  induction items as [|metric items IH]; intros k s Hput.
  - exists []. cbn. rewrite app_nil_r. now repeat split.
  - cbn [enumerate_from st_for]. unfold st_bind.
    destruct (show_sample_step k metric s (Hput k metric (or_introl eq_refl)))
      as (calls & Hpage & Hcalls & Hshared).
    destruct (show_sample (k, metric) s) as [[[]|e] s1]; cbn [snd] in *.
    + destruct (IH (S k) s1) as (calls' & Hpage' & Hcalls' & Hshared').
      { intros i m Hin. rewrite Hshared. apply Hput. now right. }
      exists (calls ++ calls')%list. rewrite Hpage', Hpage, Hshared', Hshared.
      rewrite forallb_app, Hcalls, Hcalls'. now rewrite app_assoc.
    + now exists calls.
Qed.

Lemma tab2_steps s items :
  listed (shared (world s)) = Ok items ->
  exists calls,
    page (snd (tab2 s)) = (page s ++ calls)%list
    /\ forallb ordinary calls = true
    /\ shared (world (snd (tab2 s))) = shared (world s).
Proof.
  intros Hlisted. unfold tab2, st_bind. rewrite !emit_run, metrics_listed_run.
  cbn [with_calls world page]. rewrite Hlisted. unfold enumerate.
  destruct (preview_steps items 0
              (with_calls (with_calls s [(st.in_tab 1, st.header "Sample Dashboard Preview")])
                 [(st.in_tab 1, st.columns 2)]))
    as (calls & Hpage & Hcalls & Hshared).
  { cbn [with_calls world].
    exact (listed_items_in_place _ items (np_random (world s)) Hlisted). }
  exists (preview_header ++ calls)%list. rewrite Hpage, Hshared.
  unfold with_calls, preview_header. cbn [page world].
  rewrite forallb_app, Hcalls. rewrite <- !app_assoc. now repeat split.
Qed.

Lemma main_try_cases anthropic_key uploaded_file description s :
  (exists e calls s',
     main_try anthropic_key uploaded_file description s = (thrown e, s')
     /\ page s' = (page s ++ calls)%list
     /\ forallb ordinary calls = true)
  \/ (exists calls items s',
        main_try anthropic_key uploaded_file description s = (returned tt, s')
        /\ page s' = (page s ++ calls ++ code_calls (generated_text items))%list
        /\ forallb ordinary calls = true).
Proof.
  destruct uploaded_file as [file|].
  2:{ left. exists (from_method AttributeError), [], s. rewrite app_nil_r.
      now repeat split. }
  destruct (utf8_valid (st.content file)) eqn:Hvalid.
  2:{ left. exists UnicodeDecodeError, [], s.
      rewrite (main_try_undecodable _ _ _ _ Hvalid), app_nil_r. now repeat split. }
  rewrite (main_try_run _ _ _ _ Hvalid).
  destruct (analyze_schema _ _ _) as [obj|e].
  2:{ left. exists (from_method e), [spinner_call], (with_calls s [spinner_call]).
      now repeat split. }
  set (s1 := mkSession (page s ++ [spinner_call; tabs_call])
               (mkWorld obj (np_random (world s)))).
  destruct (listed obj) as [items|e] eqn:Hlisted.
  2:{ left. eexists _, [spinner_call; tabs_call; listing_header], _.
      rewrite (st_bind_thrown _ _ _ _ _ (tab1_not_listed s1 e Hlisted)).
      split; [reflexivity|]. subst s1. unfold with_calls. cbn [page world].
      rewrite <- !app_assoc. now split. }
  destruct (listing_cases items (with_calls s1 [listing_header]))
    as [Hall | (e & calls & Hrun & Hcalls)].
  2:{ left. exists e, ([spinner_call; tabs_call; listing_header] ++ calls)%list.
      eexists. rewrite (st_bind_thrown _ _ _ e (with_calls s1 (listing_header :: calls))).
      - split; [reflexivity|]. subst s1. unfold with_calls. cbn [page world].
        rewrite <- !app_assoc. split; [reflexivity|].
        now rewrite forallb_app, Hcalls.
      - rewrite (tab1_listed s1 items Hlisted), Hrun. now rewrite with_calls_app. }
  rewrite (st_bind_returned _ _ _ _ _ (tab1_run s1 items Hlisted Hall)).
  set (s2 := with_calls s1 (listing_header :: flat_map listing_of items)).
  destruct (tab2_steps s2 items Hlisted) as (calls & Hpage & Hcalls & Hshared).
  assert (Hrun : (tab2 ;;; tab3) s2
                 = match tab2 s2 with
                   | (returned _, s') => tab3 s'
                   | (thrown e, s') => (thrown e, s')
                   end) by reflexivity.
  rewrite Hrun. clear Hrun.
  destruct (tab2 s2) as [[[]|e] s3]; cbn [snd] in *.
  - right.
    exists ([spinner_call; tabs_call; listing_header] ++ flat_map listing_of items
              ++ calls)%list, items.
    eexists. rewrite (tab3_run s3 items); [split; [reflexivity|]| |].
    + unfold with_calls. cbn [page]. rewrite Hpage. subst s2 s1. unfold with_calls.
      cbn [page world]. rewrite <- !app_assoc. split; [reflexivity|].
      now rewrite !forallb_app, listings_are_ordinary, Hcalls.
    + now rewrite Hshared.
    + now apply listable_renderable.
  - left.
    exists e, ([spinner_call; tabs_call; listing_header] ++ flat_map listing_of items
                 ++ calls)%list, s3.
    split; [reflexivity|]. rewrite Hpage. subst s2 s1. unfold with_calls.
    cbn [page world]. rewrite <- !app_assoc. split; [reflexivity|].
    now rewrite !forallb_app, listings_are_ordinary, Hcalls.
Qed.

Lemma ordinary_calls calls :
  forallb ordinary calls = true ->
  forallb no_notice calls = true
  /\ existsb is_error calls = false
  /\ existsb is_code_header calls = false.
Proof.
  induction calls as [|c calls IH]; [now repeat split|].
  cbn [forallb existsb]. intros Hall. apply andb_prop in Hall as [Hc Hall].
  destruct (IH Hall) as (-> & -> & ->). unfold ordinary, no_notice in *.
  destruct (is_error c), (is_info c), (is_code_header c); try discriminate.
  now repeat split.
Qed.

(** X17 (main, it always returns): whatever the inputs, the file and
    the answer of the service, [main] returns and raises nothing.  It
    has then added to the page the widgets, followed either by the
    notice of missing inputs alone, the state untouched, or by calls
    among which no notice appears except, possibly, one error, which
    is then the last call. *)
Theorem main_returns_with_one_notice_at_most (inputs : st.Inputs) (s : Session) :
  exists calls w',
    main inputs s = (returned tt, mkSession (page s ++ preamble ++ calls) w')
    /\ if input_missing inputs
       then calls = [missing_inputs_notice] /\ w' = world s
       else exists shown,
              forallb no_notice shown = true
              /\ (calls = shown \/ exists e, calls = (shown ++ [error_notice e])%list).
Proof.
  rewrite main_run. destruct (input_missing inputs).
  { exists [missing_inputs_notice], (world s). rewrite emit_run, with_calls_app.
    now repeat split. }
  unfold try_except.
  destruct (main_try_cases (st.anthropic_key inputs) (st.uploaded_file inputs)
              (st.description inputs) (with_calls s preamble))
    as [(e & calls & s' & -> & Hpage & Hcalls)
       | (calls & items & s' & -> & Hpage & Hcalls)];
    apply ordinary_calls in Hcalls as (Hcalls & _ & _).
  - exists (calls ++ [error_notice e])%list, (world s'). rewrite emit_run. split.
    + unfold with_calls in *. cbn [page world] in *. rewrite Hpage.
      now rewrite <- !app_assoc.
    + exists calls. split; [exact Hcalls|]. right. now exists e.
  - exists (calls ++ code_calls (generated_text items))%list, (world s'). split.
    + destruct s' as [shown w']. cbn [page world with_calls] in *. rewrite Hpage.
      now rewrite <- !app_assoc.
    + eexists. split; [|left; reflexivity]. now rewrite forallb_app, Hcalls.
Qed.

(** X18 (main, the generator is called on listed metrics only): once
    the header of the third tab is on the page, [main] ends without an
    error, with the generated text shown and offered for download.
    The first tab has by then read the five fields of every metric, so
    none of the errors of the generator reaches the page. *)
Theorem generator_runs_after_complete_listing (inputs : st.Inputs) (s : Session) :
  exists calls w',
    main inputs s = (returned tt, mkSession (page s ++ preamble ++ calls) w')
    /\ if existsb is_code_header calls
       then existsb is_error calls = false
            /\ exists shown items,
                 calls = (shown ++ code_calls (generated_text items))%list
       else True.
Proof.
  rewrite main_run. destruct (input_missing inputs).
  { exists [missing_inputs_notice], (world s). rewrite emit_run, with_calls_app.
    now split. }
  unfold try_except.
  destruct (main_try_cases (st.anthropic_key inputs) (st.uploaded_file inputs)
              (st.description inputs) (with_calls s preamble))
    as [(e & calls & s' & -> & Hpage & Hcalls)
       | (calls & items & s' & -> & Hpage & Hcalls)];
    apply ordinary_calls in Hcalls as (_ & Herror & Hheader).
  - exists (calls ++ [error_notice e])%list, (world s'). rewrite emit_run. split.
    + unfold with_calls in *. cbn [page world] in *. rewrite Hpage.
      now rewrite <- !app_assoc.
    + now rewrite existsb_app, Hheader.
  - exists (calls ++ code_calls (generated_text items))%list, (world s'). split.
    + destruct s' as [shown w']. cbn [page world with_calls] in *. rewrite Hpage.
      now rewrite <- !app_assoc.
    + rewrite existsb_app, Hheader. cbn [orb code_calls existsb is_code_header].
      split; [now rewrite existsb_app, Herror|]. now exists calls, items.
Qed.

End MainRuns.

Section OneRequest.
Context `{Numpy} `{Builtins} `{sqlparse.Library} `{ExceptionText}.
Local Open Scope list_scope.
Variables sdk1 sdk2 : AnthropicSDK.

(** X19 (main, one request): [main] uses the service for nothing but
    the answer to one request, the one made of the schema of the file
    and of the description by the client built for the key: with two
    services that answer this request alike, [main] does the same,
    whatever else the services would answer. *)
Theorem main_depends_on_one_answer (inputs : st.Inputs) (file : st.UploadedFile)
  (s : Session) :
  st.uploaded_file inputs = Some file ->
  anthropic.messages_create (@Anthropic sdk1 (st.anthropic_key inputs))
    (request_of file (st.description inputs))
  = anthropic.messages_create (@Anthropic sdk2 (st.anthropic_key inputs))
      (request_of file (st.description inputs)) ->
  main (H2 := sdk1) inputs s = main (H2 := sdk2) inputs s.
Proof.
  intros Hfile Hanswer. rewrite !main_run, Hfile.
  destruct (input_missing inputs); [reflexivity|]. unfold try_except.
  destruct (utf8_valid (st.content file)) eqn:Hvalid.
  - rewrite !(main_try_run _ _ _ _ Hvalid).
    unfold analyze_schema, SchemaAnalyzer_init, request_of in *. cbn [client].
    now rewrite Hanswer.
  - now rewrite !(main_try_undecodable _ _ _ _ Hvalid).
Qed.
End OneRequest.

(** ** The properties, on the sample inputs *)

Section OnSamples.
Local Open Scope list_scope.
#[local] Existing Instance lcg_numpy.
#[local] Existing Instance opaque_builtins.
#[local] Existing Instance semicolon_sqlparse.
#[local] Existing Instance kind_of_exception.




Lemma sample_values_in_range_witness :
  exists values,
    trace_y (sample_figure Bar (fst (sampled (H := lcg_numpy) Bar 7%Z)) (PStr "Orders")) = Ints values
    /\ length values = 30
    /\ Forall (fun v => (10 <= v < 100)%Z) values.
Proof.
  apply (sample_values_in_range (world_of (with_type "bar"))
           (sample_figure Bar (fst (sampled (H := lcg_numpy) Bar 7%Z)) (PStr "Orders"))).
  - intros rs. change (10 <= 10 + rs mod 90 < 100)%Z.
    pose proof (Z.mod_pos_bound rs 90 eq_refl). lia.
  - reflexivity.
  - discriminate.
Defined.

Lemma line_series_is_running_sum_witness :
  exists sums,
    trace_y (sample_figure Line (fst (sampled (H := lcg_numpy) Line 7%Z)) (PStr "Orders")) = Floats sums
    /\ length sums = 30
    /\ sums !! 0 = fst (sample (H := lcg_numpy) (normal1 10 2) 30 7%Z) !! 0.
Proof.
  destruct (line_series_is_running_sum (world_of (with_type "line"))
              (sample_figure Line (fst (sampled (H := lcg_numpy) Line 7%Z)) (PStr "Orders"))
              eq_refl eq_refl)
    as (sums & Hseries & Hlen & Hfirst & _).
  exists sums. repeat split; assumption.
Defined.

Lemma analyze_schema_rejects_wrapped_answer_witness :
  analyze_schema (answering fenced_answer) "CREATE TABLE orders (id INT);"
    "order tracking"
  = Raise JSONDecodeError.
Proof.
  exact (analyze_schema_rejects_wrapped_answer (answering fenced_answer)
           "CREATE TABLE orders (id INT);" "order tracking"
           (anthropic.mkMessage [anthropic.TextBlock fenced_answer])
           fenced_answer [] eq_refl eq_refl eq_refl).
Defined.

Lemma analyze_schema_returns_unique_keys_witness :
  unique_keys (PDict [("metrics", PInt 0)]) = true.
Proof.
  exact (analyze_schema_returns_unique_keys (answering repeated_key_answer)
           "CREATE TABLE orders (id INT);" "order tracking"
           (PDict [("metrics", PInt 0)]) ltac:(vm_compute; reflexivity)).
Defined.

Lemma analyze_schema_reads_written_metric_set_witness :
  analyze_schema (answering (json_metric_set [revenue_pairs; orders_pairs]))
    "CREATE TABLE orders (id INT);" "order tracking"
  = Ok (metric_set [daily_revenue; with_type "bar"]).
Proof.
  exact (analyze_schema_reads_written_metric_set
           (answering (json_metric_set [revenue_pairs; orders_pairs]))
           "CREATE TABLE orders (id INT);" "order tracking"
           (anthropic.mkMessage
              [anthropic.TextBlock (json_metric_set [revenue_pairs; orders_pairs])])
           [] [revenue_pairs; orders_pairs] eq_refl eq_refl eq_refl).
Defined.

Lemma undecodable_file_is_reported_witness :
  main_on daily_revenue_answer broken_file
  = (returned tt,
     with_calls blank_session (preamble ++ [error_notice UnicodeDecodeError])).
Proof.
  exact (undecodable_file_is_reported (H2 := answering_sdk daily_revenue_answer)
           (inputs_with broken_file) broken_file blank_session
           eq_refl eq_refl eq_refl).
Defined.

Lemma failed_analysis_is_reported_witness :
  main_on fenced_answer orders_schema
  = (returned tt,
     with_calls blank_session
       (preamble ++ [spinner_call; error_notice (from_method JSONDecodeError)])).
Proof.
  exact (failed_analysis_is_reported (H2 := answering_sdk fenced_answer)
           (inputs_with orders_schema) orders_schema JSONDecodeError blank_session
           eq_refl eq_refl eq_refl ltac:(vm_compute; reflexivity)).
Defined.

Lemma unlisted_metrics_fail_in_first_tab_witness :
  main_on "{}" orders_schema
  = (returned tt,
     mkSession
       (preamble ++ [spinner_call; tabs_call; listing_header;
                     error_notice (from_method (KeyError "metrics"))])
       (world_of (PDict []))).
Proof.
  exact (unlisted_metrics_fail_in_first_tab (H2 := answering_sdk "{}")
           (inputs_with orders_schema) orders_schema (PDict []) (KeyError "metrics")
           blank_session eq_refl eq_refl eq_refl ltac:(vm_compute; reflexivity)
           eq_refl).
Defined.

Lemma listing_stops_at_unnamed_metric_witness :
  main_on (json_metric_set [revenue_pairs; []]) orders_schema
  = (returned tt,
     mkSession
       (preamble ++ [spinner_call; tabs_call; listing_header]
          ++ listing_of daily_revenue
          ++ [error_notice (from_method (KeyError "name"))])
       (world_of (metric_set [daily_revenue; PDict []]))).
Proof.
  exact (listing_stops_at_unnamed_metric
           (H2 := answering_sdk (json_metric_set [revenue_pairs; []]))
           (inputs_with orders_schema) orders_schema
           (metric_set [daily_revenue; PDict []]) [daily_revenue] (PDict []) []
           (KeyError "name") blank_session
           eq_refl eq_refl eq_refl ltac:(vm_compute; reflexivity)
           eq_refl eq_refl eq_refl).
Defined.


Lemma main_depends_on_one_answer_witness :
  main (H2 := answering_sdk daily_revenue_answer) (inputs_with orders_schema)
    blank_session
  = main (H2 := keyed_sdk daily_revenue_answer) (inputs_with orders_schema)
      blank_session.
Proof.
  exact (main_depends_on_one_answer (answering_sdk daily_revenue_answer)
           (keyed_sdk daily_revenue_answer) (inputs_with orders_schema) orders_schema
           blank_session eq_refl eq_refl).
Defined.
End OnSamples.
